(** * mockapi: the request-handling engine of [createMockServer]

    A shallow embedding of [createMockServer] (the server module of the
    repository): the data store read from and written to the backing file,
    the six handlers generated per resource, and [handleRequest].

    Conventions of the model.
    - JavaScript values are the type [value]; numbers are the doubles
      whose value is an integer, together with [NaN] and the two
      infinities: arithmetic rounds to the nearest double, so it is exact
      up to 2^53 and not beyond.  Fractional numbers are left out, and the
      two zeros are not told apart (nothing in the program does).
    - Strings are sequences of bytes; for ASCII text they coincide with
      JavaScript's strings.
    - What the program takes from the JavaScript runtime without fixing
      its result here -- [JSON.parse], [JSON.stringify], the conversion of
      a string to a number, regular expressions, [Array.prototype.sort] --
      are the operations of the class [Runtime], together with the facts
      about them that are used: a regular expression made from a name
      without syntax characters matches that name literally, and [sort]
      with a consistent comparator is the stable sort.  Every general
      theorem holds for any runtime; the module [Reference] gives an
      instance on which the examples are evaluated.
    - The store holds what [JSON.parse] returned for the backing file.  The
      handlers are followed on stores of the documented format (an object
      whose values are arrays of objects); on any other store the model
      answers [None].
    - Handlers run to completion once invoked.  What is asynchronous in the
      source (the request body arriving, the timer of the [delay] option,
      the file watcher) appears as separate steps on the state: see
      [outcome] and [on_file_change]. *)

From Stdlib Require Import ZArith String Ascii List Lia DecimalString.
From Stdlib Require DecimalPos DecimalZ.
From Stdlib Require Import Sorting.Permutation Sorting.Sorted.
From stdpp Require Import base list strings gmap.
Import ListNotations.

Open Scope string_scope.
Open Scope Z_scope.
Open Scope list_scope.

#[local] Set Warnings "-register-all".

(** ** JavaScript values *)

Inductive number : Type :=
| Int (z : Z)
| NaN
| PInf
| NInf.

Inductive value : Type :=
| VUndefined
| VNull
| VBool (b : bool)
| VNum (n : number)
| VStr (s : string)
| VArr (elems : list value)
| VObj (props : list (string * value))
(** a built-in function, by its name: the methods every object inherits *)
| VFunction (name : string).

(** An object is the list of its own enumerable properties, in the order
    [Object.keys] lists them. *)
Abbreviation object := (list (string * value)).

#[global] Instance number_eq_dec : EqDecision number.
Proof. solve_decision. Defined.

(** The double nearest to the integer [z]: [z] itself below 2^53, above
    that the nearest number with 53 significant bits (a tie goes to the
    even one), and an infinity from 2^1024 - 2^970 on. *)
Definition to_double (z : Z) : number :=
  let a := Z.abs z in
  if a <? 9007199254740992 then Int z
  else
    let e := Z.log2 a - 52 in
    let q := a / 2 ^ e in
    let r := a mod 2 ^ e in
    let half := 2 ^ (e - 1) in
    let q' := if (half <? r) || ((r =? half) && Z.odd q) then q + 1 else q in
    let m := q' * 2 ^ e in
    if 2 ^ 1024 <=? m then (if z <? 0 then NInf else PInf)
    else Int (Z.sgn z * m).

Definition num_neg (a : number) : number :=
  match a with
  | Int x => Int (- x)
  | NaN => NaN
  | PInf => NInf
  | NInf => PInf
  end.

(** [a + b] *)
Definition num_add (a b : number) : number :=
  match a, b with
  | NaN, _ | _, NaN => NaN
  | PInf, NInf | NInf, PInf => NaN
  | PInf, _ | _, PInf => PInf
  | NInf, _ | _, NInf => NInf
  | Int x, Int y => to_double (x + y)
  end.

(** [a - b] *)
Definition num_sub (a b : number) : number := num_add a (num_neg b).

Definition num_sign (a : number) : Z :=
  match a with
  | Int x => Z.sgn x
  | NaN => 0
  | PInf => 1
  | NInf => -1
  end.

(** [a * b]: an infinity times zero is [NaN]. *)
Definition num_mul (a b : number) : number :=
  match a, b with
  | NaN, _ | _, NaN => NaN
  | Int x, Int y => to_double (x * y)
  | _, _ =>
      match num_sign a * num_sign b with
      | 0 => NaN
      | Zpos _ => PInf
      | Zneg _ => NInf
      end
  end.

(** [a < b] on numbers; a comparison with [NaN] is false. *)
Definition num_lt (a b : number) : bool :=
  match a, b with
  | NaN, _ | _, NaN => false
  | _, NInf => false
  | NInf, _ => true
  | PInf, _ => false
  | _, PInf => true
  | Int x, Int y => x <? y
  end.

Definition num_truthy (n : number) : bool :=
  match n with
  | Int 0 | NaN => false
  | _ => true
  end.

(** The decimal digits of an integer. *)
Definition decimal (z : Z) : string := NilZero.string_of_int (Z.to_int z).

(** [Number.prototype.toString] on a double [a] of 2^53 or more: the
    digits are those of the shortest decimal that still denotes [a], which
    is looked for with 1, 2, ... significant digits next to [a], below and
    above; they are followed by zeros, and from 10^21 on written with an
    exponent. *)
Definition rounds_to (a c : Z) : bool :=
  match to_double c with
  | Int m => m =? a
  | _ => false
  end.

Definition nearest_with (a : Z) (digits k : nat) : option Z :=
  let p := 10 ^ Z.of_nat (digits - k) in
  let lo := a / p * p in
  let hi := lo + p in
  match rounds_to a lo, rounds_to a hi with
  | true, true =>
      Some (if a - lo <? hi - a then lo
            else if hi - a <? a - lo then hi
            else if Z.even (lo / p) then lo else hi)
  | true, false => Some lo
  | false, true => Some hi
  | false, false => None
  end.

Fixpoint shortest (a : Z) (digits k : nat) (fuel : nat) : Z :=
  match fuel with
  | O => a
  | S fuel' =>
      match nearest_with a digits k with
      | Some c => c
      | None => shortest a digits (S k) fuel'
      end
  end.

Fixpoint strip_zeros (fuel : nat) (c : Z) : Z :=
  match fuel with
  | O => c
  | S fuel' => if (c mod 10 =? 0) && negb (c =? 0) then strip_zeros fuel' (c / 10) else c
  end.

Definition exponent_form (c : Z) : string :=
  let n := String.length (decimal c) in
  let s := decimal (strip_zeros n c) in
  let e := decimal (Z.of_nat n - 1) in
  match s with
  | String d EmptyString => String d EmptyString +:+ "e+" +:+ e
  | String d rest => String d EmptyString +:+ "." +:+ rest +:+ "e+" +:+ e
  | EmptyString => s
  end.

Definition large_to_string (a : Z) : string :=
  let digits := String.length (decimal a) in
  let c := shortest a digits 1 digits in
  if c <? 10 ^ 21 then decimal c else exponent_form c.

(** [Number.prototype.toString]: below 2^53 the decimal digits of the
    integer. *)
Definition num_to_string (n : number) : string :=
  match n with
  | Int z =>
      if Z.abs z <? 9007199254740992 then decimal z
      else (if z <? 0 then "-" else "") +:+ large_to_string (Z.abs z)
  | NaN => "NaN"
  | PInf => "Infinity"
  | NInf => "-Infinity"
  end.

(** ** Conversions *)

Definition join (sep : string) (l : list string) : string := String.concat sep l.

(** [String(v)] *)
Fixpoint ToString (v : value) : string :=
  match v with
  | VUndefined => "undefined"
  | VNull => "null"
  | VBool true => "true"
  | VBool false => "false"
  | VNum n => num_to_string n
  | VStr s => s
  | VArr elems =>
      join ","
        ((fix elements (l : list value) : list string :=
            match l with
            | [] => []
            | VUndefined :: l' => "" :: elements l'
            | VNull :: l' => "" :: elements l'
            | e :: l' => ToString e :: elements l'
            end) elems)
  | VObj _ => "[object Object]"
  | VFunction name => "function " +:+ name +:+ "() { [native code] }"
  end.

(** The truth value of [v] in a condition, in [a || b] and in [!a]. *)
Definition truthy (v : value) : bool :=
  match v with
  | VUndefined | VNull => false
  | VBool b => b
  | VNum n => num_truthy n
  | VStr s => negb (String.eqb s "")
  | VArr _ | VObj _ | VFunction _ => true
  end.

(** [a || b] *)
Definition or_else (a b : value) : value := if truthy a then a else b.


(** ** Objects: reading, defining and spreading properties *)

(** The own property [k] of [o], if there is one. *)
Fixpoint own (o : object) (k : string) : option value :=
  match o with
  | [] => None
  | (k', v) :: o' => if String.eqb k k' then Some v else own o' k
  end.

(** What an object made by [JSON.parse] or by an object literal inherits
    from [Object.prototype]: eleven methods, and under [__proto__] the
    prototype itself, an object without enumerable properties. *)
Definition Object_prototype : object :=
  [("constructor", VFunction "Object");
   ("__defineGetter__", VFunction "__defineGetter__");
   ("__defineSetter__", VFunction "__defineSetter__");
   ("hasOwnProperty", VFunction "hasOwnProperty");
   ("__lookupGetter__", VFunction "__lookupGetter__");
   ("__lookupSetter__", VFunction "__lookupSetter__");
   ("isPrototypeOf", VFunction "isPrototypeOf");
   ("propertyIsEnumerable", VFunction "propertyIsEnumerable");
   ("toString", VFunction "toString");
   ("valueOf", VFunction "valueOf");
   ("__proto__", VObj []);
   ("toLocaleString", VFunction "toLocaleString")].

(** [o[k]]: the own property, else the inherited one, else [undefined]. *)
Definition get (o : object) (k : string) : value :=
  match own o k with
  | Some v => v
  | None => default VUndefined (own Object_prototype k)
  end.

(** The keys that are array indices ("0", "1", ... below 2^32 - 1) are kept
    first in an object, in increasing order. *)
Definition is_digit (c : ascii) : bool :=
  let n := nat_of_ascii c in ((48 <=? n) && (n <=? 57))%nat.

Definition digit_val (c : ascii) : Z := Z.of_nat (nat_of_ascii c) - 48.

Fixpoint digits_val (acc : Z) (s : string) : option Z :=
  match s with
  | EmptyString => Some acc
  | String c s' => if is_digit c then digits_val (10 * acc + digit_val c) s' else None
  end.

Definition array_index (k : string) : option Z :=
  match k with
  | EmptyString => None
  | String c rest =>
      if (Ascii.eqb c "0" && negb (String.eqb rest ""))%bool then None
      else match digits_val 0 k with
           | Some n => if n <? 4294967295 then Some n else None
           | None => None
           end
  end.

Fixpoint replace_prop (k : string) (v : value) (o : object) : object :=
  match o with
  | [] => []
  | (k', v') :: o' =>
      if String.eqb k k' then (k', v) :: o' else (k', v') :: replace_prop k v o'
  end.

Fixpoint insert_index (i : Z) (k : string) (v : value) (o : object) : object :=
  match o with
  | [] => [(k, v)]
  | (k', v') :: o' =>
      match array_index k' with
      | Some j => if j <? i then (k', v') :: insert_index i k v o' else (k, v) :: o
      | None => (k, v) :: o
      end
  end.

(** [o[k] = v] on a plain object: an existing property keeps its place. *)
Definition set_prop (k : string) (v : value) (o : object) : object :=
  match own o k with
  | Some _ => replace_prop k v o
  | None =>
      match array_index k with
      | Some i => insert_index i k v o
      | None => o ++ [(k, v)]
      end
  end.

Fixpoint indexed {A : Type} (i : Z) (l : list A) : list (string * A) :=
  match l with
  | [] => []
  | x :: l' => (num_to_string (Int i), x) :: indexed (i + 1) l'
  end.

Fixpoint chars (s : string) : list value :=
  match s with
  | EmptyString => []
  | String c s' => VStr (String c EmptyString) :: chars s'
  end.

(** The own enumerable properties that [...v] copies. *)
Definition spread_props (v : value) : object :=
  match v with
  | VObj props => props
  | VArr elems => indexed 0 elems
  | VStr s => indexed 0 (chars s)
  | _ => []
  end.

(** [{ ...target, ...v }]: the properties of [v] are defined on [target] one
    after the other. *)
Definition spread (target : object) (v : value) : object :=
  fold_left (fun o kv => set_prop (fst kv) (snd kv) o) (spread_props v) target.

(** The property [k] that [...v] copies, if [v] has one (in a list naming a
    key twice, the later entry is the one copied last). *)
Definition field (v : value) (k : string) : option value :=
  own (rev (spread_props v)) k.

(** ** Arrays *)

(** The position in an array of length [len] that an argument of [slice]
    stands for: [NaN] is 0, a negative index counts from the end, and the
    result is kept between 0 and [len]. *)
Definition slice_index (len : Z) (n : number) : Z :=
  match n with
  | NaN => 0
  | NInf => 0
  | PInf => len
  | Int z => if z <? 0 then Z.max (len + z) 0 else Z.min z len
  end.

(** [l.slice(start, end)] *)
Definition js_slice {A : Type} (l : list A) (start stop : number) : list A :=
  let len := Z.of_nat (length l) in
  let k := slice_index len start in
  let final := slice_index len stop in
  firstn (Z.to_nat (final - k)) (skipn (Z.to_nat k) l).

(** The stable sort by [cmp]: an element moves behind a later one only when
    [cmp] puts it after that one.  This is what [l.sort(cmp)] returns when
    [cmp] is a consistent comparator ([consistent] below); for any other
    comparator JavaScript leaves the order to the engine, see [Array_sort]
    in the class [Runtime]. *)
Fixpoint sort_insert {A : Type} (cmp : A -> A -> Z) (x : A) (l : list A) : list A :=
  match l with
  | [] => [x]
  | y :: l' => if 0 <? cmp x y then y :: sort_insert cmp x l' else x :: l
  end.

Fixpoint stable_sort {A : Type} (cmp : A -> A -> Z) (l : list A) : list A :=
  match l with
  | [] => []
  | x :: l' => sort_insert cmp x (stable_sort cmp l')
  end.

(** [cmp] is a consistent comparator for the elements of [l], in the words
    of the language specification: being equal under [cmp] is reflexive,
    symmetric and transitive, and so are being before and being after. *)
Definition consistent {A : Type} (cmp : A -> A -> Z) (l : list A) : Prop :=
  forall a b c, In a l -> In b l -> In c l ->
    cmp a a = 0
    /\ (cmp a b = 0 -> cmp b a = 0)
    /\ (cmp a b = 0 -> cmp b c = 0 -> cmp a c = 0)
    /\ (cmp a b < 0 -> cmp b c < 0 -> cmp a c < 0)
    /\ (0 < cmp a b -> 0 < cmp b c -> 0 < cmp a c).


(** [l.findIndex(p)], with [None] for -1. *)
Fixpoint findIndex {A : Type} (p : A -> bool) (l : list A) : option nat :=
  match l with
  | [] => None
  | x :: l' => if p x then Some 0%nat else option_map S (findIndex p l')
  end.

(** [parseInt(s)]: white space (that of ASCII: space, tab, line feed,
    vertical tab, form feed, carriage return), a sign, then the longest run
    of digits (hexadecimal after [0x]); [NaN] when there is no digit.  The
    result is the double nearest to the integer the digits denote.  (After
    the 20th significant digit the language lets an engine read a decimal
    digit as 0; V8 does not.) *)
Definition is_space (c : ascii) : bool :=
  let n := nat_of_ascii c in
  ((n =? 32) || ((9 <=? n) && (n <=? 13)))%nat.

Fixpoint skip_space (s : string) : string :=
  match s with
  | String c s' => if is_space c then skip_space s' else s
  | EmptyString => s
  end.

Definition digit_in (radix : Z) (c : ascii) : option Z :=
  let n := Z.of_nat (nat_of_ascii c) in
  let d := if (48 <=? n) && (n <=? 57) then n - 48
           else if (97 <=? n) && (n <=? 122) then n - 87
           else if (65 <=? n) && (n <=? 90) then n - 55
           else radix in
  if d <? radix then Some d else None.

Fixpoint digits_prefix (radix : Z) (acc : option Z) (s : string) : option Z :=
  match s with
  | EmptyString => acc
  | String c s' =>
      match digit_in radix c with
      | Some d => digits_prefix radix (Some (radix * default 0 acc + d)) s'
      | None => acc
      end
  end.

Definition parseInt (s : string) : number :=
  let s1 := skip_space s in
  let '(sign, s2) :=
    match s1 with
    | String "-" r => (-1, r)
    | String "+" r => (1, r)
    | _ => (1, s1)
    end in
  let '(radix, s3) :=
    match s2 with
    | String "0" (String "x" r) => (16, r)
    | String "0" (String "X" r) => (16, r)
    | _ => (10, s2)
    end in
  match digits_prefix radix None s3 with
  | Some n => to_double (sign * n)
  | None => NaN
  end.

(** ** Regular expressions of the routes *)

Fixpoint strip_prefix (p s : string) : option string :=
  match p, s with
  | EmptyString, _ => Some s
  | String a p', String b s' => if Ascii.eqb a b then strip_prefix p' s' else None
  | String _ _, EmptyString => None
  end.

Fixpoint no_slash (s : string) : bool :=
  match s with
  | EmptyString => true
  | String c s' => negb (Ascii.eqb c "/") && no_slash s'
  end.

Definition backslash : ascii := ascii_of_nat 92.

(** The characters that are syntax in a regular expression. *)
Definition syntax_char (c : ascii) : bool :=
  existsb (Ascii.eqb c) (list_ascii_of_string "^$.*+?()[]{}|") || Ascii.eqb c backslash.

(** A name without syntax characters: as a regular expression it matches
    itself and nothing else. *)
Fixpoint plain (s : string) : bool :=
  match s with
  | EmptyString => true
  | String c s' => negb (syntax_char c) && plain s'
  end.

(** The sources [`^/${resource}$`] and [`^/${resource}/([^/]+)$`]: the
    resource name is put in as it is. *)
Definition collection_pattern (resource : string) : string :=
  "^/" +:+ resource +:+ "$".

Definition item_pattern (resource : string) : string :=
  "^/" +:+ resource +:+ "/([^/]+)$".

(** What [pathname.match] returns for these two expressions when
    [resource] is plain: [None] when there is no match, otherwise the first
    group ([None] for the first expression, which has no group). *)
Definition collection_path (resource pathname : string) : option (option string) :=
  if String.eqb pathname ("/" +:+ resource) then Some None else None.

Definition item_path (resource pathname : string) : option (option string) :=
  match strip_prefix ("/" +:+ resource +:+ "/") pathname with
  | Some seg => if negb (String.eqb seg "") && no_slash seg then Some (Some seg) else None
  | None => None
  end.

(** ** The runtime *)

Class Runtime : Type := {
  (** [JSON.parse(text)]; [None] when it throws a [SyntaxError] *)
  JSON_parse : string -> option value;
  (** [JSON.stringify(v, null, indent)]; [JSON.stringify(v)] is indent 0 *)
  JSON_stringify : nat -> value -> string;
  (** the conversion of a string to a number ([Number(s)]) *)
  StringToNumber : string -> number;
  (** whether [new RegExp(source)] returns; it throws a [SyntaxError] when
      the source is not a pattern *)
  RegExp_valid : string -> bool;
  (** [input.match(new RegExp(source))]: [None] for [null], otherwise the
      element 1 of the match, its first group ([None] when that is
      [undefined]) *)
  String_match : string -> string -> option (option string);
  (** [l.sort(cmp)] on an array of objects *)
  Array_sort : (object -> object -> Z) -> list object -> list object;
  (** the two expressions of a plain resource name *)
  RegExp_collection : forall resource, plain resource = true ->
    RegExp_valid (collection_pattern resource) = true
    /\ forall pathname,
         String_match (collection_pattern resource) pathname
         = collection_path resource pathname;
  RegExp_item : forall resource, plain resource = true ->
    RegExp_valid (item_pattern resource) = true
    /\ forall pathname,
         String_match (item_pattern resource) pathname = item_path resource pathname;
  (** [sort] rearranges the array; with a consistent comparator the
      result is the stable sort *)
  Array_sort_permutation : forall cmp l, Permutation l (Array_sort cmp l);
  Array_sort_consistent : forall cmp l,
    consistent cmp l -> Array_sort cmp l = stable_sort cmp l
}.

(** ** Conversions that use the runtime *)

Section Conversions.
Context `{RT : Runtime}.

(** [Number(v)]: arrays and objects are first turned into strings. *)
Definition ToNumber (v : value) : number :=
  match v with
  | VUndefined => NaN
  | VNull => Int 0
  | VBool true => Int 1
  | VBool false => Int 0
  | VNum n => n
  | VStr s => StringToNumber s
  | VArr _ | VObj _ | VFunction _ => StringToNumber (ToString v)
  end.

(** [Math.max(...args)] *)
Fixpoint Math_max (args : list value) : number :=
  match args with
  | [] => NInf
  | a :: rest =>
      let x := ToNumber a in
      let m := Math_max rest in
      match x, m with
      | NaN, _ | _, NaN => NaN
      | _, _ => if num_lt x m then m else x
      end
  end.

(** [a < b] on values: two strings are compared as strings, anything else
    as numbers. *)
Definition js_lt (a b : value) : bool :=
  let prim v :=
    match v with
    | VArr _ | VObj _ | VFunction _ => VStr (ToString v)
    | _ => v
    end in
  match prim a, prim b with
  | VStr s, VStr t => String.ltb s t
  | pa, pb => num_lt (ToNumber pa) (ToNumber pb)
  end.

End Conversions.

(** ** Requests, responses and the server's state *)

(** One entry of [url.query]: a key given once is a string, a key given
    several times is the array of its values. *)
Inductive qvalue : Type :=
| QOne (s : string)
| QMany (l : list string).

Definition qv_value (q : qvalue) : value :=
  match q with
  | QOne s => VStr s
  | QMany l => VArr (map VStr l)
  end.

(** A request as [handleRequest] sees it: [pathname] is [url.pathname || '/']
    and [query] is [url.query] for [url = parse(req.url || '', true)]; [body]
    is the text received by the time of the [end] event. *)
Record IncomingMessage : Type := {
  method : string;
  pathname : string;
  query : list (string * qvalue);
  body : string
}.

Record ServerResponse : Type := {
  statusCode : Z;
  headers : list (string * string);
  (** what [res.end] wrote; [None] while the response is open *)
  sent : option string
}.

Definition fresh_response : ServerResponse :=
  {| statusCode := 200; headers := []; sent := None |}.

Fixpoint set_assoc (k v : string) (l : list (string * string)) : list (string * string) :=
  match l with
  | [] => [(k, v)]
  | (k', v') :: l' => if String.eqb k k' then (k, v) :: l' else (k', v') :: set_assoc k v l'
  end.

Definition setHeader (name val : string) (res : ServerResponse) : ServerResponse :=
  {| statusCode := statusCode res; headers := set_assoc name val (headers res); sent := sent res |}.

Definition header (name : string) (res : ServerResponse) : option string :=
  snd <$> find (fun kv => String.eqb name (fst kv)) (headers res).

Record MockApiOptions : Type := {
  port : Z;
  delay : Z;
  cors : bool;
  watch : bool;
  readonly : bool
}.

Definition default_options : MockApiOptions :=
  {| port := 3001; delay := 0; cors := true; watch := false; readonly := false |}.

(** The variable [data] and the backing file ([None]: the file does not
    exist). *)
Record State : Type := {
  data : value;
  file : option string
}.

(** [data[resource] || []], on a store of the documented format. *)
Fixpoint as_objects (l : list value) : option (list object) :=
  match l with
  | [] => Some []
  | VObj o :: l' => cons o <$> as_objects l'
  | _ :: _ => None
  end.

Definition items_of (d : value) (resource : string) : option (list object) :=
  match d with
  | VObj props =>
      match or_else (get props resource) (VArr []) with
      | VArr elems => as_objects elems
      | _ => None
      end
  | _ => None
  end.

(** [data[resource] = items] *)
Definition set_items (d : value) (resource : string) (items : list object) : value :=
  match d with
  | VObj props => VObj (set_prop resource (VArr (map VObj items)) props)
  | _ => d
  end.

Definition error_body (msg : string) : value := VObj [("error", VStr msg)].

Section Server.
Context `{RT : Runtime}.
Variable options : MockApiOptions.

(** [loadData()]; [None] when it throws: the file is missing or its content
    is not JSON.  [data] is assigned only when nothing threw. *)
Definition loadData (st : State) : option State :=
  match file st with
  | None => None
  | Some content =>
      match JSON_parse content with
      | Some parsed => Some {| data := parsed; file := file st |}
      | None => None
      end
  end.

(** [saveData()] *)
Definition saveData (st : State) : State :=
  if readonly options then st
  else {| data := data st; file := Some (JSON_stringify 2 (data st)) |}.

(** The callback given to [watchFile] when the option [watch] is set: a
    reload that throws is caught and reported on the console, which is the
    second component. *)
Definition on_file_change (st : State) : State * string :=
  match loadData st with
  | Some st' => (st', "Data reloaded")
  | None => (st, "Failed to reload data:")
  end.

Definition sendJson (res : ServerResponse) (status : Z) (v : value) : ServerResponse :=
  {| statusCode := status;
     headers := set_assoc "Content-Type" "application/json" (headers res);
     sent := Some (JSON_stringify 0 v) |}.

(** *** The handlers of one resource *)

Definition reserved (key : string) : bool :=
  String.eqb key "_page" || String.eqb key "_limit"
  || String.eqb key "_sort" || String.eqb key "_order".

Definition query_get (q : list (string * qvalue)) (key : string) : value :=
  match find (fun kv => String.eqb key (fst kv)) q with
  | Some kv => qv_value (snd kv)
  | None => VUndefined
  end.

(** The loop over [Object.entries(url.query)]. *)
Definition apply_filters (q : list (string * qvalue)) (items : list object) : list object :=
  fold_left
    (fun items kv =>
       if reserved (fst kv) then items
       else filter (fun item =>
                      ToString (get item (fst kv)) = ToString (qv_value (snd kv)))
                   items)
    q items.

(** [n || d] on numbers: [d] replaces 0 and [NaN]. *)
Definition number_or (n d : number) : number := if num_truthy n then n else d.

(** [parseInt(url.query._page) || 1] *)
Definition page_of (q : list (string * qvalue)) : number :=
  number_or (parseInt (ToString (query_get q "_page"))) (Int 1).

(** [parseInt(url.query._limit) || items.length] *)
Definition limit_of (q : list (string * qvalue)) (items : list object) : number :=
  number_or (parseInt (ToString (query_get q "_limit"))) (Int (Z.of_nat (length items))).

Definition paginate (q : list (string * qvalue)) (items : list object) : list object :=
  let page := page_of q in
  let limit := limit_of q items in
  let start := num_mul (num_sub page (Int 1)) limit in
  js_slice items start (num_add start limit).

(** [url.query._order === 'desc'] *)
Definition descending (q : list (string * qvalue)) : bool :=
  match query_get q "_order" with
  | VStr s => String.eqb s "desc"
  | _ => false
  end.

(** [a[sortKey]] *)
Definition sort_key (q : list (string * qvalue)) (a : object) : value :=
  get a (ToString (query_get q "_sort")).

Definition compare_by (q : list (string * qvalue)) (a b : object) : Z :=
  let order := if descending q then -1 else 1 in
  if js_lt (sort_key q a) (sort_key q b) then -1 * order
  else if js_lt (sort_key q b) (sort_key q a) then 1 * order
  else 0.

Definition sort_page (q : list (string * qvalue)) (paged : list object) : list object :=
  if truthy (query_get q "_sort") then Array_sort (compare_by q) paged else paged.

(** GET /resource *)
Definition list_handler (resource : string) (req : IncomingMessage)
    (res : ServerResponse) (st : State) : option (State * ServerResponse) :=
  items ← items_of (data st) resource;
  let items := apply_filters (query req) items in
  let paged := paginate (query req) items in
  let paged := sort_page (query req) paged in
  let res := setHeader "X-Total-Count" (num_to_string (Int (Z.of_nat (length items)))) res in
  Some (st, sendJson res 200 (VArr (map VObj paged))).

(** [String(i.id) === params.id] *)
Definition id_is (id : option string) (i : object) : bool :=
  match id with
  | Some seg => String.eqb (ToString (get i "id")) seg
  | None => false
  end.

(** GET /resource/:id *)
Definition get_handler (resource : string) (id : option string)
    (res : ServerResponse) (st : State) : option (State * ServerResponse) :=
  items ← items_of (data st) resource;
  match find (id_is id) items with
  | None => Some (st, sendJson res 404 (error_body "Not found"))
  | Some item => Some (st, sendJson res 200 (VObj item))
  end.

Definition read_only_reply (res : ServerResponse) : ServerResponse :=
  sendJson res 403 (error_body "Server is in read-only mode").

(** [items.length > 0 ? Math.max(...items.map(i => i.id || 0)) + 1 : 1] *)
Definition newId (items : list object) : number :=
  if 0 <? Z.of_nat (length items)
  then num_add (Math_max (map (fun i => or_else (get i "id") (VNum (Int 0))) items)) (Int 1)
  else Int 1.

(** POST /resource *)
Definition post_handler (resource : string) (payload : value)
    (res : ServerResponse) (st : State) : option (State * ServerResponse) :=
  if readonly options then Some (st, read_only_reply res)
  else
    items ← items_of (data st) resource;
    let newItem := spread [("id", VNum (newId items))] payload in
    let items := items ++ [newItem] in
    let st := {| data := set_items (data st) resource items; file := file st |} in
    let st := saveData st in
    Some (st, sendJson res 201 (VObj newItem)).

(** PUT /resource/:id *)
Definition put_handler (resource : string) (id : option string) (payload : value)
    (res : ServerResponse) (st : State) : option (State * ServerResponse) :=
  if readonly options then Some (st, read_only_reply res)
  else
    items ← items_of (data st) resource;
    match findIndex (id_is id) items with
    | None => Some (st, sendJson res 404 (error_body "Not found"))
    | Some idx =>
        let old := default [] (items !! idx) in
        let updated := spread [("id", get old "id")] payload in
        let items := <[idx := updated]> items in
        let st := {| data := set_items (data st) resource items; file := file st |} in
        let st := saveData st in
        Some (st, sendJson res 200 (VObj updated))
    end.

(** PATCH /resource/:id *)
Definition patch_handler (resource : string) (id : option string) (payload : value)
    (res : ServerResponse) (st : State) : option (State * ServerResponse) :=
  if readonly options then Some (st, read_only_reply res)
  else
    items ← items_of (data st) resource;
    match findIndex (id_is id) items with
    | None => Some (st, sendJson res 404 (error_body "Not found"))
    | Some idx =>
        let old := default [] (items !! idx) in
        let updated := spread (spread [] (VObj old)) payload in
        let items := <[idx := updated]> items in
        let st := {| data := set_items (data st) resource items; file := file st |} in
        let st := saveData st in
        Some (st, sendJson res 200 (VObj updated))
    end.

(** DELETE /resource/:id *)
Definition delete_handler (resource : string) (id : option string)
    (res : ServerResponse) (st : State) : option (State * ServerResponse) :=
  if readonly options then Some (st, read_only_reply res)
  else
    items ← items_of (data st) resource;
    match findIndex (id_is id) items with
    | None => Some (st, sendJson res 404 (error_body "Not found"))
    | Some idx =>
        let items := delete idx items in
        let st := {| data := set_items (data st) resource items; file := file st |} in
        let st := saveData st in
        Some (st, sendJson res 200 (VObj []))
    end.

(** *** The route table and the request pipeline *)

(** An entry of [routes].  The regular expression [path] is represented by
    what [pathname.match] returns for it ([String_match] on its source).
    The field [r_method] is the entry's [method]. *)
Record RouteHandler : Type := {
  r_method : string;
  path : string -> option (option string);
  handler : IncomingMessage -> ServerResponse -> option string -> value ->
            State -> option (State * ServerResponse)
}.

Definition routes_for (resource : string) : list RouteHandler :=
  [ {| r_method := "GET"; path := String_match (collection_pattern resource);
       handler := fun req res _ _ => list_handler resource req res |};
    {| r_method := "GET"; path := String_match (item_pattern resource);
       handler := fun _ res id _ => get_handler resource id res |};
    {| r_method := "POST"; path := String_match (collection_pattern resource);
       handler := fun _ res _ payload => post_handler resource payload res |};
    {| r_method := "PUT"; path := String_match (item_pattern resource);
       handler := fun _ res id payload => put_handler resource id payload res |};
    {| r_method := "PATCH"; path := String_match (item_pattern resource);
       handler := fun _ res id payload => patch_handler resource id payload res |};
    {| r_method := "DELETE"; path := String_match (item_pattern resource);
       handler := fun _ res id _ => delete_handler resource id res |} ].

(** [Object.keys(data)]; [None] when it throws. *)
Definition Object_keys (d : value) : option (list string) :=
  match d with
  | VObj props => Some (map fst props)
  | VArr elems => Some (map fst (indexed 0 elems))
  | VStr s => Some (map fst (indexed 0 (chars s)))
  | VBool _ | VNum _ | VFunction _ => Some []
  | VNull | VUndefined => None
  end.

(** The loop that fills [routes]; [None] when [Object.keys] or a
    [new RegExp] throws. *)
Definition generate_routes (d : value) : option (list RouteHandler) :=
  keys ← Object_keys d;
  if forallb (fun resource => RegExp_valid (collection_pattern resource)
                              && RegExp_valid (item_pattern resource)) keys
  then Some (flat_map routes_for keys)
  else None.

(** What a call of [handleRequest] leads to: the response is ended at
    once, or a handler is invoked -- directly, or by a timer after [delay]
    milliseconds -- on the state the server has at that moment. *)
Inductive outcome : Type :=
| Ended (res : ServerResponse)
| Invoke (timer : option Z) (run : State -> option (State * ServerResponse)).

Definition schedule (run : State -> option (State * ServerResponse)) : outcome :=
  if 0 <? delay options then Invoke (Some (delay options)) run else Invoke None run.

Definition with_cors (res : ServerResponse) : ServerResponse :=
  if cors options then
    setHeader "Access-Control-Expose-Headers" "X-Total-Count"
      (setHeader "Access-Control-Allow-Headers" "Content-Type, Authorization"
         (setHeader "Access-Control-Allow-Methods" "GET, POST, PUT, PATCH, DELETE, OPTIONS"
            (setHeader "Access-Control-Allow-Origin" "*" res)))
  else res.

Definition reads_body (m : string) : bool :=
  String.eqb m "POST" || String.eqb m "PUT" || String.eqb m "PATCH".

(** [if (match[1]) params.id = match[1]] *)
Definition params_id (group : option string) : option string :=
  match group with
  | Some seg => if String.eqb seg "" then None else Some seg
  | None => None
  end.

(** [body ? JSON.parse(body) : {}]; [None] when [JSON.parse] throws. *)
Definition parsed_body (req : IncomingMessage) : option value :=
  if String.eqb (body req) "" then Some (VObj []) else JSON_parse (body req).

(** The body of the loop for a route that matches: the request body is
    read and parsed for POST, PUT and PATCH, then the handler is called. *)
Definition run_route (route : RouteHandler) (group : option string)
    (req : IncomingMessage) (res : ServerResponse) : outcome :=
  let id := params_id group in
  if reads_body (method req) then
    match parsed_body req with
    | None => Ended (sendJson res 400 (error_body "Invalid JSON"))
    | Some parsed => schedule (handler route req res id parsed)
    end
  else schedule (handler route req res id VUndefined).

(** The loop over [routes], and the 404 after it. *)
Fixpoint find_route (routes : list RouteHandler) (req : IncomingMessage)
    (res : ServerResponse) : outcome :=
  match routes with
  | [] => Ended (sendJson res 404 (error_body "Not found"))
  | route :: rest =>
      if negb (String.eqb (method req) (r_method route)) then find_route rest req res
      else
        match path route (pathname req) with
        | None => find_route rest req res
        | Some group => run_route route group req res
        end
  end.

Definition handleRequest (routes : list RouteHandler) (req : IncomingMessage) : outcome :=
  let res := with_cors fresh_response in
  if String.eqb (method req) "OPTIONS"
  then Ended {| statusCode := 204; headers := headers res; sent := Some "" |}
  else find_route routes req res.

(** [route] is a route the loop stops at for [req]. *)
Definition route_matches (req : IncomingMessage) (route : RouteHandler) : bool :=
  String.eqb (method req) (r_method route)
  && match path route (pathname req) with Some _ => true | None => false end.

(** An outcome that leaves the variable [data] and the file as they are,
    whenever its handler runs. *)
Definition keeps_state (o : outcome) : Prop :=
  match o with
  | Ended _ => True
  | Invoke _ run => forall st, exists res, run st = Some (st, res)
  end.

(** A request served with nothing else happening in between. *)
Definition serve (routes : list RouteHandler) (req : IncomingMessage) (st : State)
    : option (State * ServerResponse) :=
  match handleRequest routes req with
  | Ended res => Some (st, res)
  | Invoke _ run => run st
  end.

End Server.

(** [createMockServer(dataFile, options)] up to the route table: the first
    [loadData] and the generation of the routes; [None] when it throws. *)
Definition createMockServer `{RT : Runtime} (dataFile : option string)
    (options : MockApiOptions) : option (State * list RouteHandler) :=
  st ← loadData {| data := VObj []; file := dataFile |};
  routes ← generate_routes options (data st);
  Some (st, routes).

(** ** A reference runtime

    [JSON.parse], [JSON.stringify] and [Number] on the texts of the model:
    JSON whose number literals are integers.  A literal with a fraction or
    an exponent denotes a number the model does not have; the reference
    reader does not accept it and [Number] gives [NaN] for it.  Of regular
    expressions the reference knows the two of a plain resource name, and
    refuses every other source; its [sort] is the stable sort. *)
Module Reference.

Definition dquote : ascii := ascii_of_nat 34.

Definition is_json_space (c : ascii) : bool :=
  let n := nat_of_ascii c in ((n =? 32) || (n =? 9) || (n =? 10) || (n =? 13))%nat.

Fixpoint skip_ws (s : string) : string :=
  match s with
  | String c s' => if is_json_space c then skip_ws s' else s
  | EmptyString => s
  end.

Definition expect (word : string) (v : value) (s : string) : option (value * string) :=
  match strip_prefix word s with
  | Some rest => Some (v, rest)
  | None => None
  end.

Fixpoint take_digits (acc : Z) (s : string) : Z * string :=
  match s with
  | String c s' => if is_digit c then take_digits (10 * acc + digit_val c) s' else (acc, s)
  | EmptyString => (acc, s)
  end.

Definition starts_fraction (s : string) : bool :=
  match s with
  | String c _ => Ascii.eqb c "." || Ascii.eqb c "e" || Ascii.eqb c "E"
  | EmptyString => false
  end.

(** The digits of an integer literal: no leading zero. *)
Definition read_int (s : string) : option (Z * string) :=
  match s with
  | String c s' =>
      if Ascii.eqb c "0" then
        match s' with
        | String d _ => if is_digit d || starts_fraction s' then None else Some (0, s')
        | EmptyString => Some (0, s')
        end
      else if is_digit c then
        let '(n, rest) := take_digits 0 s in
        if starts_fraction rest then None else Some (n, rest)
      else None
  | EmptyString => None
  end.

Definition read_number (s : string) : option (value * string) :=
  match s with
  | String "-" s' =>
      match read_int s' with
      | Some (n, rest) => Some (VNum (to_double (- n)), rest)
      | None => None
      end
  | _ =>
      match read_int s with
      | Some (n, rest) => Some (VNum (to_double n), rest)
      | None => None
      end
  end.

Definition hex4 (s : string) : option (Z * string) :=
  match s with
  | String a (String b (String c (String d rest))) =>
      match digit_in 16 a, digit_in 16 b, digit_in 16 c, digit_in 16 d with
      | Some x, Some y, Some z, Some w => Some (((x * 16 + y) * 16 + z) * 16 + w, rest)
      | _, _, _, _ => None
      end
  | _ => None
  end.

Definition byte (n : Z) : string := String (ascii_of_nat (Z.to_nat n)) EmptyString.

(** The UTF-8 bytes of a code unit. *)
Definition utf8 (n : Z) : string :=
  if n <? 128 then byte n
  else if n <? 2048 then byte (192 + n / 64) +:+ byte (128 + n mod 64)
  else byte (224 + n / 4096) +:+ byte (128 + (n / 64) mod 64) +:+ byte (128 + n mod 64).

Definition escape (e : ascii) : option string :=
  if Ascii.eqb e dquote || Ascii.eqb e backslash || Ascii.eqb e "/"
  then Some (String e EmptyString)
  else if Ascii.eqb e "b" then Some (byte 8)
  else if Ascii.eqb e "f" then Some (byte 12)
  else if Ascii.eqb e "n" then Some (byte 10)
  else if Ascii.eqb e "r" then Some (byte 13)
  else if Ascii.eqb e "t" then Some (byte 9)
  else None.

(** The characters of a string literal, after its opening quote.  The
    fuel is the number of characters left. *)
Fixpoint read_string (fuel : nat) (s : string) : option (string * string) :=
  match fuel with
  | O => None
  | S fuel' =>
      match s with
      | EmptyString => None
      | String c s' =>
          if Ascii.eqb c dquote then Some (EmptyString, s')
          else if Ascii.eqb c backslash then
            match s' with
            | String e s'' =>
                let '(unit, after) :=
                  if Ascii.eqb e "u" then
                    match hex4 s'' with
                    | Some (n, rest) => (Some (utf8 n), rest)
                    | None => (None, s'')
                    end
                  else (escape e, s'') in
                match unit, read_string fuel' after with
                | Some t, Some (r, rest) => Some (t +:+ r, rest)
                | _, _ => None
                end
            | EmptyString => None
            end
          else if (nat_of_ascii c <? 32)%nat then None
          else
            match read_string fuel' s' with
            | Some (r, rest) => Some (String c r, rest)
            | None => None
            end
      end
  end.

Definition string_literal (s : string) : option (string * string) :=
  read_string (S (String.length s)) s.

Fixpoint read_value (fuel : nat) (s : string) : option (value * string) :=
  match fuel with
  | O => None
  | S fuel' =>
      match skip_ws s with
      | EmptyString => None
      | String c r =>
          if Ascii.eqb c "n" then expect "null" VNull (String c r)
          else if Ascii.eqb c "t" then expect "true" (VBool true) (String c r)
          else if Ascii.eqb c "f" then expect "false" (VBool false) (String c r)
          else if Ascii.eqb c dquote then
            match string_literal r with
            | Some (str, rest) => Some (VStr str, rest)
            | None => None
            end
          else if Ascii.eqb c "[" then
            match skip_ws r with
            | String "]" rest => Some (VArr [], rest)
            | _ => read_elements fuel' r []
            end
          else if Ascii.eqb c "{" then
            match skip_ws r with
            | String "}" rest => Some (VObj [], rest)
            | _ => read_members fuel' r []
            end
          else read_number (String c r)
      end
  end
with read_elements (fuel : nat) (s : string) (acc : list value) : option (value * string) :=
  match fuel with
  | O => None
  | S fuel' =>
      match read_value fuel' s with
      | Some (v, r) =>
          match skip_ws r with
          | String "," rest => read_elements fuel' rest (acc ++ [v])
          | String "]" rest => Some (VArr (acc ++ [v]), rest)
          | _ => None
          end
      | None => None
      end
  end
with read_members (fuel : nat) (s : string) (acc : object) : option (value * string) :=
  match fuel with
  | O => None
  | S fuel' =>
      match skip_ws s with
      | String c r =>
          if Ascii.eqb c dquote then
            match string_literal r with
            | Some (key, r1) =>
                match skip_ws r1 with
                | String ":" r2 =>
                    match read_value fuel' r2 with
                    | Some (v, r3) =>
                        match skip_ws r3 with
                        | String "," rest => read_members fuel' rest (set_prop key v acc)
                        | String "}" rest => Some (VObj (set_prop key v acc), rest)
                        | _ => None
                        end
                    | None => None
                    end
                | _ => None
                end
            | None => None
            end
          else None
      | EmptyString => None
      end
  end.

(** [JSON.parse] *)
Definition parse (text : string) : option value :=
  match read_value (2 * String.length text + 2) text with
  | Some (v, rest) => if String.eqb (skip_ws rest) "" then Some v else None
  | None => None
  end.

Definition hex_digit (n : Z) : string :=
  byte (if n <? 10 then 48 + n else 87 + n).

Definition quote_char (c : ascii) : string :=
  let n := Z.of_nat (nat_of_ascii c) in
  if n =? 34 then String backslash (String dquote EmptyString)
  else if n =? 92 then String backslash (String backslash EmptyString)
  else if n =? 8 then String backslash "b"
  else if n =? 12 then String backslash "f"
  else if n =? 10 then String backslash "n"
  else if n =? 13 then String backslash "r"
  else if n =? 9 then String backslash "t"
  else if n <? 32 then String backslash "u00" +:+ hex_digit (n / 16) +:+ hex_digit (n mod 16)
  else String c EmptyString.

Fixpoint quote_chars (s : string) : string :=
  match s with
  | EmptyString => EmptyString
  | String c s' => quote_char c +:+ quote_chars s'
  end.

Definition quote (s : string) : string :=
  String dquote (quote_chars s) +:+ String dquote EmptyString.

Definition newline : string := byte 10.

(** The text of an array or an object from the texts of its parts. *)
Definition wrap (opening closing gap indent : string) (parts : list string) : string :=
  match parts with
  | [] => opening +:+ closing
  | _ =>
      if String.eqb gap "" then opening +:+ join "," parts +:+ closing
      else
        let inner := indent +:+ gap in
        opening +:+ newline +:+ inner
        +:+ join ("," +:+ newline +:+ inner) parts
        +:+ newline +:+ indent +:+ closing
  end.

(** The text of a value inside a document: [undefined], a function, [NaN]
    and the infinities are written [null]; a property whose value is
    [undefined] or a function is left out. *)
Fixpoint serial (gap indent : string) (v : value) {struct v} : string :=
  match v with
  | VUndefined | VNull | VFunction _ => "null"
  | VBool true => "true"
  | VBool false => "false"
  | VNum (Int z) => num_to_string (Int z)
  | VNum _ => "null"
  | VStr s => quote s
  | VArr elems =>
      wrap "[" "]" gap indent
        ((fix parts (l : list value) : list string :=
            match l with
            | [] => []
            | e :: l' => serial gap (indent +:+ gap) e :: parts l'
            end) elems)
  | VObj props =>
      wrap "{" "}" gap indent
        ((fix parts (l : list (string * value)) : list string :=
            match l with
            | [] => []
            | (_, VUndefined) :: l' => parts l'
            | (_, VFunction _) :: l' => parts l'
            | (k, e) :: l' =>
                (quote k +:+ (if String.eqb gap "" then ":" else ": ")
                 +:+ serial gap (indent +:+ gap) e) :: parts l'
            end) props)
  end.

Fixpoint spaces (n : nat) : string :=
  match n with
  | O => EmptyString
  | S n' => String " " (spaces n')
  end.

(** [JSON.stringify(v, null, indent)].  For [undefined] itself, and for
    a function, [JSON.stringify] returns no text. *)
Definition stringify (indent : nat) (v : value) : string :=
  match v with
  | VUndefined | VFunction _ => ""
  | _ => serial (spaces (Nat.min indent 10)) "" v
  end.

Fixpoint rev_string (acc s : string) : string :=
  match s with
  | EmptyString => acc
  | String c s' => rev_string (String c acc) s'
  end.

Definition trim (s : string) : string :=
  rev_string "" (skip_space (rev_string "" (skip_space s))).

Fixpoint all_digits (radix : Z) (acc : Z) (s : string) : option Z :=
  match s with
  | EmptyString => Some acc
  | String c s' =>
      match digit_in radix c with
      | Some d => all_digits radix (radix * acc + d) s'
      | None => None
      end
  end.

Definition numeral (radix : Z) (sign : Z) (s : string) : number :=
  match s with
  | EmptyString => NaN
  | _ => match all_digits radix 0 s with
         | Some n => to_double (sign * n)
         | None => NaN
         end
  end.

(** [Number(s)] for the numerals of the model. *)
Definition to_number (s : string) : number :=
  let t := trim s in
  if String.eqb t "" then Int 0
  else if String.eqb t "Infinity" || String.eqb t "+Infinity" then PInf
  else if String.eqb t "-Infinity" then NInf
  else
    match t with
    | String "0" (String "x" r) | String "0" (String "X" r) => numeral 16 1 r
    | String "0" (String "o" r) | String "0" (String "O" r) => numeral 8 1 r
    | String "0" (String "b" r) | String "0" (String "B" r) => numeral 2 1 r
    | String "-" r => numeral 10 (-1) r
    | String "+" r => numeral 10 1 r
    | _ => numeral 10 1 t
    end.

(** Regular expressions. *)
Inductive pattern : Type :=
| Collection (resource : string)
| Item (resource : string)
| Unsupported.

(** The longest plain prefix of [s], and what follows it. *)
Fixpoint split_plain (s : string) : string * string :=
  match s with
  | EmptyString => (EmptyString, EmptyString)
  | String c s' =>
      if syntax_char c then (EmptyString, s)
      else let '(name, tail) := split_plain s' in (String c name, tail)
  end.

(** [s] without the slash it ends in. *)
Fixpoint without_slash (s : string) : option string :=
  match s with
  | EmptyString => None
  | String c s' =>
      match s' with
      | EmptyString => if Ascii.eqb c "/" then Some EmptyString else None
      | String _ _ => String c <$> without_slash s'
      end
  end.

Definition decode (source : string) : pattern :=
  match strip_prefix "^/" source with
  | Some rest =>
      let '(name, tail) := split_plain rest in
      if String.eqb tail "$" then Collection name
      else if String.eqb tail "([^/]+)$" then
        match without_slash name with
        | Some resource => Item resource
        | None => Unsupported
        end
      else Unsupported
  | None => Unsupported
  end.

Definition regexp_valid (source : string) : bool :=
  match decode source with
  | Unsupported => false
  | _ => true
  end.

Definition string_match (source input : string) : option (option string) :=
  match decode source with
  | Collection resource => collection_path resource input
  | Item resource => item_path resource input
  | Unsupported => None
  end.

(** The reference runtime.  Its two laws of regular expressions hold
    because [decode] gives back a plain name; its [sort] is the stable
    sort, which permutes its argument. *)
#[global, refine] Instance runtime : Runtime :=
  {| JSON_parse := parse; JSON_stringify := stringify; StringToNumber := to_number;
     RegExp_valid := regexp_valid; String_match := string_match;
     Array_sort := stable_sort;
     Array_sort_consistent := fun cmp l _ => eq_refl |}.
Proof.
  - intros resource Hplain.
    assert (Hsplit : split_plain (resource +:+ "$") = (resource, "$")).
    { induction resource as [|a name IH]; [reflexivity|].
      change (String a name +:+ "$") with (String a (name +:+ "$")).
      cbn [plain] in Hplain. apply andb_prop in Hplain as [Ha Hname].
      cbn [split_plain]. apply negb_true_iff in Ha. rewrite Ha, (IH Hname). reflexivity. }
    assert (Hdecode : decode (collection_pattern resource) = Collection resource).
    { unfold decode, collection_pattern.
      change (strip_prefix "^/" ("^/" +:+ resource +:+ "$")) with (Some (resource +:+ "$")).
      cbv beta iota. rewrite Hsplit. reflexivity. }
    unfold regexp_valid, string_match. rewrite Hdecode. split; reflexivity.
  - intros resource Hplain.
    assert (Hsplit : split_plain (resource +:+ "/([^/]+)$") = (resource +:+ "/", "([^/]+)$")).
    { induction resource as [|a name IH]; [reflexivity|].
      change (String a name +:+ "/([^/]+)$") with (String a (name +:+ "/([^/]+)$")).
      change (String a name +:+ "/") with (String a (name +:+ "/")).
      cbn [plain] in Hplain. apply andb_prop in Hplain as [Ha Hname].
      cbn [split_plain]. apply negb_true_iff in Ha. rewrite Ha, (IH Hname). reflexivity. }
    assert (Hslash : without_slash (resource +:+ "/") = Some resource).
    { clear. induction resource as [|a name IH]; [reflexivity|].
      change (String a name +:+ "/") with (String a (name +:+ "/")).
      cbn [without_slash]. rewrite IH. destruct name; reflexivity. }
    assert (Hdecode : decode (item_pattern resource) = Item resource).
    { unfold decode, item_pattern.
      change (strip_prefix "^/" ("^/" +:+ resource +:+ "/([^/]+)$"))
        with (Some (resource +:+ "/([^/]+)$")).
      cbv beta iota. rewrite Hsplit.
      cbn [String.eqb Ascii.eqb Bool.eqb]. rewrite Hslash. reflexivity. }
    unfold regexp_valid, string_match. rewrite Hdecode. split; reflexivity.
  - intros cmp l. induction l as [|x l IH]; [reflexivity|].
    assert (Hinsert : forall sorted, Permutation (x :: sorted) (sort_insert cmp x sorted)).
    { clear. intros sorted. induction sorted as [|y sorted IH]; simpl; [reflexivity|].
      destruct (0 <? cmp x y); [|reflexivity].
      rewrite perm_swap. apply perm_skip, IH. }
    cbn [stable_sort]. rewrite <- Hinsert. apply perm_skip, IH.
Defined.

End Reference.

(** ** Sample data

    The store of the documentation, used by the examples below. *)
Module Sample.
Import Reference.

Definition person (id : Z) (name : string) : object :=
  [("id", VNum (Int id)); ("name", VStr name)].

Definition alice : object := person 1 "Alice".
Definition bob : object := person 2 "Bob".
Definition carol : object := person 3 "Carol".

Definition db : value := VObj [("users", VArr [VObj alice; VObj bob])].
Definition db3 : value := VObj [("users", VArr [VObj alice; VObj bob; VObj carol])].

(** The server's state right after start-up on a file holding [d]. *)
Definition started (d : value) : State :=
  {| data := d; file := Some (stringify 2 d) |}.

Definition read_only : MockApiOptions :=
  {| port := 3001; delay := 0; cors := true; watch := false; readonly := true |}.

Definition no_cors : MockApiOptions :=
  {| port := 3001; delay := 0; cors := false; watch := false; readonly := false |}.

Definition request (m p : string) (q : list (string * qvalue)) (text : string)
    : IncomingMessage :=
  {| method := m; pathname := p; query := q; body := text |}.

(** The text of a request body holding [v]. *)
Definition json (v : value) : string := stringify 0 v.

Definition users (options : MockApiOptions) : list RouteHandler :=
  routes_for options "users".

(** POST /users with a body that is not JSON. *)
Definition malformed_post : IncomingMessage :=
  request "POST" "/users" [] "{name: Carol".

(** id, name and age of a few people, in no particular order. *)
Definition aged (id : Z) (name : string) (age : Z) : object :=
  [("id", VNum (Int id)); ("name", VStr name); ("age", VNum (Int age))].

Definition people : list object :=
  [aged 1 "Alice" 41; aged 2 "Bob" 23; aged 3 "Carol" 35; aged 4 "Dan" 23].

Definition people_db : value := VObj [("people", VArr (map VObj people))].

End Sample.

(** ** The command line

    [main] of the command-line program, up to its call of
    [createMockServer]: the flags, the choice of the data file and the
    options handed to the server.  The file system is a map from resolved
    paths to contents. *)
Module Cli.

Definition escape_char : string := String (ascii_of_nat 27) EmptyString.

Definition colors : list (string * string) :=
  [("red", escape_char +:+ "[31m"); ("green", escape_char +:+ "[32m");
   ("yellow", escape_char +:+ "[33m"); ("blue", escape_char +:+ "[34m");
   ("cyan", escape_char +:+ "[36m"); ("dim", escape_char +:+ "[2m");
   ("reset", escape_char +:+ "[0m")].

Definition color_code (color : string) : string :=
  match find (fun kv => String.eqb color (fst kv)) colors with
  | Some kv => snd kv
  | None => ""
  end.

Definition colorize (text color : string) : string :=
  color_code color +:+ text +:+ color_code "reset".

(** A line written by [console.log] or by [console.error]. *)
Inductive output : Type :=
| Log (text : string)
| Error (text : string).

Definition printError (msg : string) : output := Error (colorize "✗ " "red" +:+ msg).
Definition printSuccess (msg : string) : output := Log (colorize "✓ " "green" +:+ msg).
Definition printInfo (msg : string) : output := Log (colorize "ℹ " "blue" +:+ msg).

Definition example_user (id : Z) (name email : string) : value :=
  VObj [("id", VNum (Int id)); ("name", VStr name); ("email", VStr email)].

Definition example_post (id : Z) (title text : string) (userId : Z) : value :=
  VObj [("id", VNum (Int id)); ("title", VStr title); ("body", VStr text);
        ("userId", VNum (Int userId))].

Definition example_comment (id : Z) (text : string) (postId userId : Z) : value :=
  VObj [("id", VNum (Int id)); ("body", VStr text); ("postId", VNum (Int postId));
        ("userId", VNum (Int userId))].

Definition EXAMPLE_DATA : value :=
  VObj [("users", VArr [example_user 1 "Alice" "alice@example.com";
                        example_user 2 "Bob" "bob@example.com";
                        example_user 3 "Charlie" "charlie@example.com"]);
        ("posts", VArr [example_post 1 "Hello World" "First post content" 1;
                        example_post 2 "Second Post" "More content here" 1;
                        example_post 3 "Bob's Post" "Bob's content" 2]);
        ("comments", VArr [example_comment 1 "Great post!" 1 2;
                           example_comment 2 "Thanks!" 1 1])].

(** [getArg(flags)]: the argument after the first occurrence of a flag, for
    the first flag that has a non-empty one. *)
Fixpoint getArg (args flags : list string) : option string :=
  match flags with
  | [] => None
  | flag :: rest =>
      match findIndex (String.eqb flag) args with
      | Some idx =>
          match args !! S idx with
          | Some v => if String.eqb v "" then getArg args rest else Some v
          | None => getArg args rest
          end
      | None => getArg args rest
      end
  end.

(** [hasFlag(flags)] *)
Definition hasFlag (args flags : list string) : bool :=
  existsb (fun f => existsb (String.eqb f) args) flags.

Definition startsWith (s pre : string) : bool :=
  match strip_prefix pre s with Some _ => true | None => false end.

Definition endsWith (s suf : string) : bool :=
  (String.length suf <=? String.length s)%nat
  && String.eqb (String.substring (String.length s - String.length suf)
                   (String.length suf) s) suf.

(** What [main] ends in before it creates the server: the process exits,
    or [createMockServer] is called with this path and these options (and
    if that call throws, [main] prints the message and exits with 1). *)
Record launch : Type := {
  dataPath : string;
  l_port : number;
  l_delay : number;
  l_cors : bool;
  l_watch : bool;
  l_readonly : bool
}.

Inductive result : Type :=
| Exit (code : Z)
| Launch (l : launch).

Section Main.
Context `{RT : Runtime}.
(** [resolve(process.cwd(), p)] *)
Variable resolve : string -> string.
(** the help text *)
Variable HELP : string.

(** The data file: the first argument [*.json] that is not a flag, else the
    first argument that is not a flag, else [db.json] if it exists. *)
Definition choose_data_file (args : list string) (fs : gmap string string)
    : option string :=
  match find (fun a => negb (startsWith a "-") && endsWith a ".json") args with
  | Some dataFile => Some dataFile
  | None =>
      match find (fun a => negb (startsWith a "-")) args with
      | Some (String c positional) => Some (String c positional)
      | _ => if bool_decide (is_Some (fs !! resolve "db.json")) then Some "db.json" else None
      end
  end.

Definition banner (readonly : bool) (delay : number) (watch : bool) : list output :=
  [Log ""; Log (colorize "  Mock API Server" "cyan");
   Log (colorize "  ───────────────" "dim"); Log ""]
  ++ (if readonly then [printInfo "Running in read-only mode"] else [])
  ++ (if num_lt (Int 0) delay
      then [printInfo ("Simulating " +:+ num_to_string delay +:+ "ms latency")] else [])
  ++ (if watch then [printInfo "Watching for file changes"] else [])
  ++ [Log ""].

Definition main (args : list string) (fs : gmap string string)
    : list output * gmap string string * result :=
  if hasFlag args ["-h"; "--help"] then ([Log HELP], fs, Exit 0)
  else if hasFlag args ["-v"; "--version"] then ([Log "1.0.0"], fs, Exit 0)
  else if hasFlag args ["--init"] then
    let dbPath := resolve "db.json" in
    if bool_decide (is_Some (fs !! dbPath))
    then ([printError "db.json already exists"], fs, Exit 1)
    else ([printSuccess "Created db.json with example data";
           printInfo "Run: npx @lxgicstudios/mockapi db.json"],
          <[dbPath := JSON_stringify 2 EXAMPLE_DATA]> fs, Exit 0)
  else
    match choose_data_file args fs with
    | None =>
        ([printError "Please specify a JSON data file";
          printInfo "Run with --init to create an example db.json";
          Log HELP], fs, Exit 1)
    | Some dataFile =>
        let dataPath := resolve dataFile in
        if negb (bool_decide (is_Some (fs !! dataPath)))
        then ([printError ("File not found: " +:+ dataFile)], fs, Exit 1)
        else
          let port := parseInt (default "3001" (getArg args ["-p"; "--port"])) in
          let delay := parseInt (default "0" (getArg args ["-d"; "--delay"])) in
          let watch := hasFlag args ["-w"; "--watch"] in
          let readonly := hasFlag args ["-r"; "--readonly"] in
          let cors := negb (hasFlag args ["--no-cors"]) in
          (banner readonly delay watch, fs,
           Launch {| dataPath := dataPath; l_port := port; l_delay := delay;
                     l_cors := cors; l_watch := watch; l_readonly := readonly |})
    end.

End Main.

End Cli.

(** ** Vocabulary of the further properties *)

(** [item] agrees with every entry of the query that is a filter: every
    entry but those of the four keys of paging and sorting. *)
Definition passes (q : list (string * qvalue)) (item : object) : Prop :=
  Forall (fun kv => In (fst kv) ["_page"; "_limit"; "_sort"; "_order"]
                    \/ ToString (get item (fst kv)) = ToString (qv_value (snd kv))) q.

(** The file holds the text [saveData] writes for the store. *)
Definition synced `{RT : Runtime} (st : State) : Prop :=
  file st = Some (JSON_stringify 2 (data st)).

(** The number [n] is what the program holds for a non-negative integer
    [x] that it computed with doubles: [x] itself up to 2^53; beyond that
    a number of at least 2^53, or infinity; and [NaN] for the zero that is
    infinity times zero. *)
Definition approximates (n : number) (x : Z) : Prop :=
  (n = Int x /\ x <= 9007199254740992)
  \/ (9007199254740992 <= x
      /\ (n = PInf \/ exists m, n = Int m /\ 9007199254740992 <= m))
  \/ (n = NaN /\ x = 0).

(** The ids of a collection, as path segments. *)
Definition id_strings (items : list object) : list string :=
  map (fun i => ToString (get i "id")) items.

(** [x] is the element [Array.prototype.find] returns for the test [p]:
    the first one that passes. *)
Definition first_such {A : Type} (p : A -> bool) (l : list A) (x : A) : Prop :=
  exists pre post, l = pre ++ x :: post /\ p x = true /\ forall y, In y pre -> p y = false.

(** The two tests [main] looks for the data file with. *)
Definition positional (a : string) : bool := negb (Cli.startsWith a "-").
Definition json_positional (a : string) : bool :=
  negb (Cli.startsWith a "-") && Cli.endsWith a ".json".

(** A line of [console.error]. *)
Definition is_error (o : Cli.output) : bool :=
  match o with Cli.Error _ => true | Cli.Log _ => false end.

(** * Properties *)

(** ** Properties of objects *)

Lemma own_app (o1 o2 : object) (k : string) :
  own (o1 ++ o2) k = match own o1 k with Some v => Some v | None => own o2 k end.
Proof.
  induction o1 as [|[k1 v1] o1 IH]; simpl; [reflexivity|].
  destruct (String.eqb k k1); [reflexivity|apply IH].
Qed.

Lemma own_replace_prop (k : string) (v : value) (o : object) (k' : string) :
  own (replace_prop k v o) k' =
  if String.eqb k' k then (match own o k with Some _ => Some v | None => None end)
  else own o k'.
Proof.
  induction o as [|[k1 v1] o IH]; simpl.
  - destruct (String.eqb k' k); reflexivity.
  - destruct (String.eqb_spec k k1) as [->|Hk]; simpl.
    + destruct (String.eqb_spec k' k1); reflexivity.
    + rewrite IH. destruct (String.eqb_spec k' k1) as [->|Hk'].
      * destruct (String.eqb_spec k1 k); [congruence|reflexivity].
      * reflexivity.
Qed.

Lemma own_insert_index (i : Z) (k : string) (v : value) (o : object) (k' : string) :
  own o k = None ->
  own (insert_index i k v o) k' = if String.eqb k' k then Some v else own o k'.
Proof.
  induction o as [|[k1 v1] o IH]; simpl; intros Hnone.
  - destruct (String.eqb k' k); reflexivity.
  - destruct (String.eqb_spec k k1) as [->|Hk]; [discriminate|].
    destruct (array_index k1) as [j|]; [destruct (j <? i)|]; simpl;
      try reflexivity.
    rewrite (IH Hnone).
    destruct (String.eqb_spec k' k1) as [->|Hk']; [|reflexivity].
    destruct (String.eqb_spec k1 k); [congruence|reflexivity].
Qed.

Lemma own_set_prop (k : string) (v : value) (o : object) (k' : string) :
  own (set_prop k v o) k' = if String.eqb k' k then Some v else own o k'.
Proof.
  unfold set_prop. destruct (own o k) as [w|] eqn:Hk.
  - rewrite own_replace_prop, Hk. reflexivity.
  - destruct (array_index k) as [i|].
    + apply own_insert_index, Hk.
    + rewrite own_app. simpl. destruct (String.eqb_spec k' k) as [->|Hne].
      * rewrite Hk. reflexivity.
      * destruct (own o k'); reflexivity.
Qed.

Lemma own_fold_set_prop (props target : object) (k : string) :
  own (fold_left (fun o kv => set_prop (fst kv) (snd kv) o) props target) k =
  match own (rev props) k with Some v => Some v | None => own target k end.
Proof.
  revert target. induction props as [|[k1 v1] props IH]; intros target; simpl.
  - reflexivity.
  - rewrite IH, own_app, own_set_prop. simpl.
    destruct (own (rev props) k); [reflexivity|].
    destruct (String.eqb k k1); reflexivity.
Qed.

Lemma own_spread (target : object) (v : value) (k : string) :
  own (spread target v) k =
  match field v k with Some x => Some x | None => own target k end.
Proof. apply own_fold_set_prop. Qed.

Lemma get_spread (target : object) (v : value) (k : string) :
  get (spread target v) k =
  match field v k with Some x => x | None => get target k end.
Proof. unfold get. rewrite own_spread. destruct (field v k); reflexivity. Qed.



(** ** Properties of the store *)

Lemma as_objects_map (items : list object) : as_objects (map VObj items) = Some items.
Proof. induction items as [|i items IH]; simpl; [reflexivity|]. rewrite IH. reflexivity. Qed.

Lemma items_of_object (d : value) (resource : string) (items : list object) :
  items_of d resource = Some items -> exists props, d = VObj props.
Proof. destruct d; simpl; try discriminate. eauto. Qed.

Lemma items_of_set_items (d : value) (resource : string) (old items : list object) :
  items_of d resource = Some old ->
  items_of (set_items d resource items) resource = Some items.
Proof.
  intros H. apply items_of_object in H as [props ->]. simpl.
  unfold get. rewrite own_set_prop, String.eqb_refl. simpl. apply as_objects_map.
Qed.

Lemma items_of_set_items_ne (d : value) (resource other : string) (items : list object) :
  other <> resource ->
  items_of (set_items d resource items) other = items_of d other.
Proof.
  intros Hne. destruct d; simpl; try reflexivity.
  unfold get. rewrite own_set_prop.
  destruct (String.eqb_spec other resource); [congruence|reflexivity].
Qed.

(** ** Numbers *)

(** Up to 2^53 every integer is a double. *)
Lemma to_double_safe (z : Z) :
  - 9007199254740992 <= z <= 9007199254740992 -> to_double z = Int z.
Proof.
  intros Hz. unfold to_double.
  destruct (Z.ltb_spec (Z.abs z) 9007199254740992) as [_|Hge]; [reflexivity|].
  assert (Hcase : z = 9007199254740992 \/ z = - 9007199254740992) by lia.
  destruct Hcase as [-> | ->]; vm_compute; reflexivity.
Qed.

(** From 2^53 on the nearest double is at least 2^53, or infinite. *)
Lemma to_double_large (z : Z) :
  9007199254740992 <= z ->
  to_double z = PInf \/ exists m, to_double z = Int m /\ 9007199254740992 <= m.
Proof.
  intros Hz. unfold to_double.
  rewrite (Z.abs_eq z) by lia.
  destruct (Z.ltb_spec z 9007199254740992) as [Hlt|_]; [lia|].
  cbv zeta.
  set (e := Z.log2 z - 52).
  set (q := z / 2 ^ e).
  set (q' := if (2 ^ (e - 1) <? z mod 2 ^ e) || ((z mod 2 ^ e =? 2 ^ (e - 1)) && Z.odd q)
             then q + 1 else q).
  destruct (2 ^ 1024 <=? q' * 2 ^ e).
  { left. destruct (Z.ltb_spec z 0); [lia|reflexivity]. }
  right. exists (Z.sgn z * (q' * 2 ^ e)). split; [reflexivity|].
  assert (Hlog : 53 <= Z.log2 z).
  { change 53 with (Z.log2 9007199254740992). apply Z.log2_le_mono. exact Hz. }
  assert (He : 1 <= e) by (unfold e; lia).
  assert (Hpow : 0 < 2 ^ e) by (apply Z.pow_pos_nonneg; lia).
  assert (Hq : 2 ^ 52 <= q).
  { unfold q. apply Z.div_le_lower_bound; [exact Hpow|].
    rewrite Z.mul_comm, <- Z.pow_add_r by lia.
    replace (52 + e) with (Z.log2 z) by (unfold e; lia).
    apply Z.log2_spec. lia. }
  assert (Hq' : q <= q') by (unfold q'; destruct (_ || _); lia).
  rewrite Z.sgn_pos by lia.
  assert (H2 : 2 <= 2 ^ e).
  { change 2 with (2 ^ 1) at 1. apply Z.pow_le_mono_r; lia. }
  change (2 ^ 52) with 4503599627370496 in Hq. nia.
Qed.

Lemma num_to_string_safe (z : Z) :
  Z.abs z < 9007199254740992 -> num_to_string (Int z) = decimal z.
Proof.
  intros Hz. unfold num_to_string.
  destruct (Z.ltb_spec (Z.abs z) 9007199254740992); [reflexivity|lia].
Qed.

(** ** The id computed by create *)

Section NewId.
Context `{RT : Runtime}.

Lemma Math_max_ints (z : Z) (zs : list Z) :
  exists m, Math_max (map (fun x => VNum (Int x)) (z :: zs)) = Int m
            /\ In m (z :: zs) /\ Forall (fun x => x <= m) (z :: zs).
Proof.
  revert z. induction zs as [|y zs IH]; intros z.
  - exists z. simpl. repeat split; [left; reflexivity|].
    constructor; [lia|constructor].
  - destruct (IH y) as (m & Hm & Hin & Hle).
    change (map (fun x => VNum (Int x)) (z :: y :: zs))
      with (VNum (Int z) :: map (fun x => VNum (Int x)) (y :: zs)).
    cbn [Math_max ToNumber]. rewrite Hm. cbn [num_lt].
    destruct (Z.ltb_spec z m) as [Hlt|Hge].
    + exists m. repeat split; [right; exact Hin|].
      constructor; [lia|exact Hle].
    + exists z. repeat split; [left; reflexivity|].
      constructor; [lia|].
      eapply Forall_impl; [exact Hle|]. simpl. intros; lia.
Qed.

Lemma or_else_int (z : Z) : or_else (VNum (Int z)) (VNum (Int 0)) = VNum (Int z).
Proof. unfold or_else. simpl. destruct z; reflexivity. Qed.



(** The computed id is the largest of the numbers plus 1, as doubles are
    added: one more than the largest when that is below 2^53. *)
Lemma newId_coerced (items : list object) (z : Z) (zs : list Z) :
  map (fun i => or_else (get i "id") (VNum (Int 0))) items
  = map (fun x => VNum (Int x)) (z :: zs) ->
  exists m, In m (z :: zs) /\ Forall (fun x => x <= m) (z :: zs)
            /\ newId items = num_add (Int m) (Int 1)
            /\ (- 9007199254740992 <= m < 9007199254740992 -> newId items = Int (m + 1)).
Proof.
  intros Hids. destruct (Math_max_ints z zs) as (m & Hm & Hin & Hle).
  exists m. split; [exact Hin|]. split; [exact Hle|].
  assert (Hnew : newId items = num_add (Int m) (Int 1)).
  { unfold newId.
    assert (Hlen : length items = length (z :: zs)).
    { rewrite <- (length_map (fun i => or_else (get i "id") (VNum (Int 0))) items), Hids.
      rewrite length_map. reflexivity. }
    rewrite Hlen. cbn [length].
    destruct (Z.ltb_spec 0 (Z.of_nat (S (length zs)))) as [_|Hbad]; [|lia].
    rewrite Hids, Hm. reflexivity. }
  split; [exact Hnew|].
  intros Hm53. rewrite Hnew. cbn [num_add]. apply to_double_safe. lia.
Qed.

Lemma newId_numeric (items : list object) (z : Z) (zs : list Z) :
  map (fun i => get i "id") items = map (fun x => VNum (Int x)) (z :: zs) ->
  exists m, In m (z :: zs) /\ Forall (fun x => x <= m) (z :: zs)
            /\ newId items = num_add (Int m) (Int 1)
            /\ (- 9007199254740992 <= m < 9007199254740992 -> newId items = Int (m + 1)).
Proof.
  intros Hids. apply newId_coerced.
  rewrite <- (map_map (fun i => get i "id") (fun v => or_else v (VNum (Int 0)))), Hids.
  rewrite map_map. apply map_ext. intros x. apply or_else_int.
Qed.



End NewId.

(** ** Create, replace and update *)

Lemma findIndex_Some {A : Type} (p : A -> bool) (l : list A) (i : nat) :
  findIndex p l = Some i -> exists x, l !! i = Some x /\ p x = true.
Proof.
  revert i. induction l as [|y l IH]; intros i; simpl; [discriminate|].
  destruct (p y) eqn:Hy.
  - intros [= <-]. exists y. split; [reflexivity|exact Hy].
  - destruct (findIndex p l) as [j|]; simpl; [|discriminate].
    intros [= <-]. destruct (IH j eq_refl) as (x & Hx & Hpx).
    exists x. split; assumption.
Qed.

Section Handlers.
Context `{RT : Runtime}.
Variable options : MockApiOptions.


Lemma saveData_writable (st : State) :
  readonly options = false ->
  saveData options st = {| data := data st; file := Some (JSON_stringify 2 (data st)) |}.
Proof. unfold saveData. intros ->. reflexivity. Qed.

Lemma saveData_read_only (st : State) : readonly options = true -> saveData options st = st.
Proof. unfold saveData. intros ->. reflexivity. Qed.

(** What a successful create does. *)
Lemma post_handler_creates (resource : string) (payload : value)
    (res : ServerResponse) (st : State) (items : list object) :
  readonly options = false ->
  items_of (data st) resource = Some items ->
  let newItem := spread [("id", VNum (newId items))] payload in
  let d := set_items (data st) resource (items ++ [newItem]) in
  post_handler options resource payload res st
  = Some ({| data := d; file := Some (JSON_stringify 2 d) |},
          sendJson res 201 (VObj newItem)).
Proof.
  intros Hro Hitems. unfold post_handler. rewrite Hro, Hitems. simpl.
  rewrite saveData_writable by exact Hro. reflexivity.
Qed.



End Handlers.

(** ** Routing to the handlers

    In the table generated for the keys of the store, a POST to
    [/resource] runs the create handler of [resource], and a PUT or PATCH
    to [/resource/segment] its replace or update handler. *)

Lemma append_cons (a : ascii) (s t : string) : String a s +:+ t = String a (s +:+ t).
Proof. reflexivity. Qed.

Lemma append_empty (t : string) : "" +:+ t = t.
Proof. reflexivity. Qed.

Lemma append_slash (k t : string) : (k +:+ "/") +:+ t = k +:+ String "/" t.
Proof.
  induction k as [|a k IH]; [reflexivity|].
  rewrite !append_cons, IH. reflexivity.
Qed.

Lemma strip_prefix_app (p s t : string) : strip_prefix p s = Some t -> s = p +:+ t.
Proof.
  revert s. induction p as [|a p IH]; intros s; cbn [strip_prefix].
  - intros [= ->]. reflexivity.
  - destruct s as [|b s]; [discriminate|].
    destruct (Ascii.eqb_spec a b) as [->|]; [|discriminate].
    intros H. rewrite (IH _ H). reflexivity.
Qed.

Lemma strip_prefix_refl (p t : string) : strip_prefix p (p +:+ t) = Some t.
Proof.
  induction p as [|a p IH]; [reflexivity|].
  rewrite append_cons. cbn [strip_prefix]. rewrite Ascii.eqb_refl. exact IH.
Qed.

Lemma no_slash_app (p t : string) : no_slash (p +:+ String "/" t) = false.
Proof.
  induction p as [|a p IH]; [reflexivity|].
  rewrite append_cons. cbn [no_slash]. rewrite IH. apply andb_false_r.
Qed.

(** A path [/r/seg] has one reading as resource and segment. *)
Lemma segment_unique (k r seg seg' : string) :
  strip_prefix (k +:+ "/") (r +:+ "/" +:+ seg) = Some seg' ->
  no_slash seg = true -> no_slash seg' = true -> k = r /\ seg' = seg.
Proof.
  revert r. induction k as [|a k IH]; intros r; destruct r as [|b r];
    rewrite ?append_cons, ?append_empty; cbn [strip_prefix].
  - rewrite Ascii.eqb_refl. intros [= ->]. auto.
  - destruct (Ascii.eqb_spec "/" b) as [<-|]; [|discriminate].
    intros [= <-] _ Hs. rewrite no_slash_app in Hs. discriminate.
  - destruct (Ascii.eqb_spec a "/") as [->|]; [|discriminate].
    intros H Hs _. apply strip_prefix_app in H.
    rewrite H, append_slash, no_slash_app in Hs. discriminate.
  - destruct (Ascii.eqb_spec a b) as [->|]; [|discriminate].
    intros H Hs Hs'. destruct (IH r H Hs Hs') as [-> ->]. auto.
Qed.

Lemma collection_path_eq (resource k : string) :
  collection_path k ("/" +:+ resource) = if String.eqb resource k then Some None else None.
Proof.
  unfold collection_path. rewrite !append_cons, !append_empty.
  cbn [String.eqb]. rewrite Ascii.eqb_refl. reflexivity.
Qed.

Lemma item_path_eq (resource k seg : string) :
  seg <> "" -> no_slash seg = true ->
  item_path k ("/" +:+ resource +:+ "/" +:+ seg)
  = if String.eqb resource k then Some (Some seg) else None.
Proof.
  intros Hne Hns. unfold item_path.
  rewrite !append_cons, !append_empty. cbn [strip_prefix]. rewrite Ascii.eqb_refl.
  destruct (String.eqb_spec resource k) as [->|Hk].
  - rewrite <- (append_slash k seg), strip_prefix_refl, Hns.
    destruct (String.eqb_spec seg ""); [contradiction|reflexivity].
  - destruct (strip_prefix (k +:+ "/") (resource +:+ String "/" seg)) as [seg'|] eqn:Hs;
      [|reflexivity].
    destruct (String.eqb seg' ""); [reflexivity|]. cbn [negb andb].
    destruct (no_slash seg') eqn:Hns'; [|reflexivity].
    destruct (segment_unique k resource seg seg' Hs Hns Hns') as [-> _]. contradiction.
Qed.

Lemma item_path_collection (resource k : string) :
  no_slash resource = true -> item_path k ("/" +:+ resource) = None.
Proof.
  intros Hns. unfold item_path.
  rewrite !append_cons, !append_empty. cbn [strip_prefix]. rewrite Ascii.eqb_refl.
  destruct (strip_prefix (k +:+ "/") resource) as [seg'|] eqn:Hs; [|reflexivity].
  apply strip_prefix_app in Hs. rewrite Hs, append_slash, no_slash_app in Hns.
  discriminate.
Qed.

Lemma match_collection `{RT : Runtime} (k pathname : string) :
  plain k = true -> String_match (collection_pattern k) pathname = collection_path k pathname.
Proof. intros Hk. apply (RegExp_collection k Hk). Qed.

Lemma match_item `{RT : Runtime} (k pathname : string) :
  plain k = true -> String_match (item_pattern k) pathname = item_path k pathname.
Proof. intros Hk. apply (RegExp_item k Hk). Qed.

Section Routing.
Context `{RT : Runtime}.
Variable options : MockApiOptions.

(** One key of the table: the routes of another resource are passed, the
    route of [resource] is taken. *)
Ltac next_key Hm Hp IH Hin Hplain :=
  let Hk := fresh "Hk" in
  apply Forall_cons in Hplain as [Hk Hplain];
  cbn [flat_map routes_for app find_route r_method path]; rewrite Hm, Hp;
  cbn [String.eqb Ascii.eqb Bool.eqb negb andb];
  rewrite ?(match_collection _ _ Hk), ?(match_item _ _ Hk);
  rewrite ?collection_path_eq, ?item_path_eq by assumption;
  match goal with
  | |- context [String.eqb ?r ?k] =>
      destruct (String.eqb_spec r k) as [<-|Hne];
      [reflexivity|apply IH; [destruct Hin; congruence|exact Hplain]]
  end.

Lemma find_route_post (keys : list string) (resource : string)
    (req : IncomingMessage) (res : ServerResponse) :
  In resource keys -> Forall (fun k => plain k = true) keys -> method req = "POST" -> pathname req = "/" +:+ resource ->
  find_route options (flat_map (routes_for options) keys) req res
  = run_route options
      {| r_method := "POST"; path := String_match (collection_pattern resource);
         handler := fun _ res _ payload => post_handler options resource payload res |}
      None req res.
Proof.
  intros Hin Hplain Hm Hp. induction keys as [|k keys IH]; [destruct Hin|].
  next_key Hm Hp IH Hin Hplain.
Qed.



Lemma find_route_list (keys : list string) (resource : string)
    (req : IncomingMessage) (res : ServerResponse) :
  In resource keys -> Forall (fun k => plain k = true) keys -> method req = "GET" -> pathname req = "/" +:+ resource ->
  no_slash resource = true ->
  find_route options (flat_map (routes_for options) keys) req res
  = run_route options
      {| r_method := "GET"; path := String_match (collection_pattern resource);
         handler := fun req res _ _ => list_handler resource req res |}
      None req res.
Proof.
  intros Hin Hplain Hm Hp Hns. induction keys as [|k keys IH]; [destruct Hin|].
  apply Forall_cons in Hplain as [Hk Hplain].
  cbn [flat_map routes_for app find_route r_method path]. rewrite Hm, Hp.
  cbn [String.eqb Ascii.eqb Bool.eqb negb andb].
  rewrite (match_collection _ _ Hk), (match_item _ _ Hk).
  rewrite collection_path_eq, (item_path_collection resource k Hns).
  destruct (String.eqb_spec resource k) as [<-|Hne];
    [reflexivity|apply IH; [destruct Hin; congruence|exact Hplain]].
Qed.

Lemma serve_list (keys : list string) (resource : string) (req : IncomingMessage)
    (st : State) :
  In resource keys -> Forall (fun k => plain k = true) keys -> method req = "GET" -> pathname req = "/" +:+ resource ->
  no_slash resource = true ->
  serve options (flat_map (routes_for options) keys) req st
  = list_handler resource req (with_cors options fresh_response) st.
Proof.
  intros Hin Hplain Hm Hp Hns. unfold serve, handleRequest.
  rewrite (find_route_list keys resource req _ Hin Hplain Hm Hp Hns).
  unfold run_route, schedule. rewrite Hm.
  cbn [String.eqb Ascii.eqb Bool.eqb reads_body orb].
  destruct (0 <? delay options); reflexivity.
Qed.

Lemma params_id_segment (seg : string) : seg <> "" -> params_id (Some seg) = Some seg.
Proof. intros Hne. simpl. destruct (String.eqb_spec seg ""); [contradiction|reflexivity]. Qed.

Lemma serve_post (keys : list string) (resource : string) (req : IncomingMessage)
    (payload : value) (st : State) :
  In resource keys -> Forall (fun k => plain k = true) keys -> method req = "POST" -> pathname req = "/" +:+ resource ->
  parsed_body req = Some payload ->
  serve options (flat_map (routes_for options) keys) req st
  = post_handler options resource payload (with_cors options fresh_response) st.
Proof.
  intros Hin Hplain Hm Hp Hbody. unfold serve, handleRequest.
  rewrite (find_route_post keys resource req _ Hin Hplain Hm Hp).
  unfold run_route, schedule. rewrite Hbody, Hm. cbn [String.eqb Ascii.eqb Bool.eqb reads_body orb].
  destruct (0 <? delay options); reflexivity.
Qed.



End Routing.









(** From 2^53 on the computed id is not a new one: on a collection whose
    largest id is 2^53 it is 2^53 again, since 2^53 + 1 is not a double. *)
Example newId_at_the_largest_safe_integer :
  newId [Sample.person 9007199254740992 "Max"] = Int 9007199254740992.
Proof. vm_compute. reflexivity. Qed.





(** After PATCH /users/1 with the body [{"id":7}], GET /users/1 finds no
    record and GET /users/7 returns the record that was Alice's. *)
Example update_moves_record :
  exists st',
    serve default_options (Sample.users default_options)
      (Sample.request "PATCH" "/users/1" [] (Sample.json (VObj [("id", VNum (Int 7))])))
      (Sample.started Sample.db)
    = Some (st', sendJson (with_cors default_options fresh_response) 200
                   (VObj (Sample.person 7 "Alice")))
    /\ (statusCode <$> (snd <$> serve default_options (Sample.users default_options)
                          (Sample.request "GET" "/users/1" [] "") st')) = Some 404
    /\ (snd <$> serve default_options (Sample.users default_options)
                  (Sample.request "GET" "/users/7" [] "") st')
       = Some (sendJson (with_cors default_options fresh_response) 200
                 (VObj (Sample.person 7 "Alice"))).
Proof. eexists. repeat split; vm_compute; reflexivity. Qed.

(** ** The request pipeline *)

Section Pipeline.
Context `{RT : Runtime}.
Variable options : MockApiOptions.

(** The loop stops at the first route that matches. *)
Lemma find_route_first (routes : list RouteHandler) (req : IncomingMessage)
    (res : ServerResponse) :
  find_route options routes req res =
  match find (route_matches req) routes with
  | Some route =>
      match path route (pathname req) with
      | Some group => run_route options route group req res
      | None => Ended (sendJson res 404 (error_body "Not found"))
      end
  | None => Ended (sendJson res 404 (error_body "Not found"))
  end.
Proof.
  induction routes as [|route rest IH]; [reflexivity|].
  cbn [find_route find]. unfold route_matches at 1.
  destruct (String.eqb (method req) (r_method route)); cbn [negb andb].
  - destruct (path route (pathname req)) as [group|] eqn:Hp; cbv beta iota.
    + rewrite Hp. reflexivity.
    + exact IH.
  - exact IH.
Qed.

Lemma find_matching (routes : list RouteHandler) (req : IncomingMessage) :
  Exists (fun route => route_matches req route = true) routes ->
  exists route group,
    find (route_matches req) routes = Some route
    /\ In route routes
    /\ String.eqb (method req) (r_method route) = true
    /\ path route (pathname req) = Some group.
Proof.
  intros Hex. destruct (find (route_matches req) routes) as [route|] eqn:Hfind.
  - destruct (find_some _ _ Hfind) as [Hin Hm].
    unfold route_matches in Hm. apply andb_prop in Hm as [Hmeth Hpath].
    destruct (path route (pathname req)) as [group|] eqn:Hp; [|discriminate].
    exists route, group. repeat split; assumption.
  - exfalso. apply Exists_exists in Hex as (route & Hin & Hm).
    pose proof (find_none _ _ Hfind route) as Hnone.
    rewrite Hnone in Hm; [discriminate|].
    apply list_elem_of_In in Hin. exact Hin.
Qed.

Lemma reads_body_not_options (m : string) : reads_body m = true -> String.eqb m "OPTIONS" = false.
Proof.
  unfold reads_body. intros H.
  destruct (String.eqb_spec m "OPTIONS") as [->|]; [discriminate|reflexivity].
Qed.

Lemma schedule_cases (run : State -> option (State * ServerResponse)) :
  exists timer, schedule options run = Invoke timer run.
Proof. unfold schedule. destruct (0 <? delay options); eauto. Qed.

(** In read-only mode a handler of a generated route for POST, PUT, PATCH
    or DELETE answers 403 and returns the state it was given. *)
Lemma read_only_handler (resource : string) (route : RouteHandler)
    (req : IncomingMessage) (res : ServerResponse) (id : option string)
    (payload : value) (st : State) :
  readonly options = true ->
  In route (routes_for options resource) ->
  r_method route <> "GET" ->
  handler route req res id payload st = Some (st, read_only_reply res).
Proof.
  intros Hro Hin Hmeth. simpl in Hin.
  destruct Hin as [<-|[<-|[<-|[<-|[<-|[<-|[]]]]]]]; simpl in *;
    try congruence;
    unfold post_handler, put_handler, patch_handler, delete_handler;
    rewrite Hro; reflexivity.
Qed.

End Pipeline.

(** C10.  A request whose method is OPTIONS is answered 204 with an empty
    body before the route table is looked at, whatever the routes and
    whether cross-origin support is on or off; the option only decides
    whether the four cross-origin headers are on the response. *)
Theorem options_answered_204 `{RT : Runtime} (options : MockApiOptions)
    (routes : list RouteHandler) (req : IncomingMessage) :
  method req = "OPTIONS" ->
  let reply :=
    {| statusCode := 204;
       headers :=
         if cors options then
           [("Access-Control-Allow-Origin", "*");
            ("Access-Control-Allow-Methods", "GET, POST, PUT, PATCH, DELETE, OPTIONS");
            ("Access-Control-Allow-Headers", "Content-Type, Authorization");
            ("Access-Control-Expose-Headers", "X-Total-Count")]
         else [];
       sent := Some "" |} in
  handleRequest options routes req = Ended reply
  /\ forall st, serve options routes req st = Some (st, reply).
Proof.
  intros Hm reply.
  assert (H : handleRequest options routes req = Ended reply).
  { unfold handleRequest. rewrite Hm. unfold reply, with_cors.
    destruct (cors options); reflexivity. }
  split; [exact H|]. intros st. unfold serve. rewrite H. reflexivity.
Qed.

Lemma options_answered_204_witness :
  method (Sample.request "OPTIONS" "/users" [] "") = "OPTIONS"
  /\ handleRequest Sample.no_cors (Sample.users Sample.no_cors)
       (Sample.request "OPTIONS" "/users" [] "")
     = Ended {| statusCode := 204; headers := []; sent := Some "" |}
  /\ forall st, serve Sample.no_cors (Sample.users Sample.no_cors)
                  (Sample.request "OPTIONS" "/users" [] "") st
                = Some (st, {| statusCode := 204; headers := []; sent := Some "" |}).
Proof.
  split; [reflexivity|].
  apply (options_answered_204 (RT := Reference.runtime) Sample.no_cors
           (Sample.users Sample.no_cors) (Sample.request "OPTIONS" "/users" [] "")).
  reflexivity.
Defined.

(** C8 (as amended).  A POST, PUT or PATCH request that matches a route
    and whose body is not empty and not valid JSON is answered 400
    [{error: "Invalid JSON"}] by the pipeline itself: no handler is
    invoked, so the store and the file stay as they are. *)
Theorem malformed_body_answered_400 `{RT : Runtime} (options : MockApiOptions)
    (routes : list RouteHandler) (req : IncomingMessage) :
  reads_body (method req) = true ->
  body req <> "" ->
  JSON_parse (body req) = None ->
  Exists (fun route => route_matches req route = true) routes ->
  let reply := sendJson (with_cors options fresh_response) 400 (error_body "Invalid JSON") in
  handleRequest options routes req = Ended reply
  /\ statusCode reply = 400
  /\ sent reply = Some (JSON_stringify 0 (VObj [("error", VStr "Invalid JSON")]))
  /\ forall st, serve options routes req st = Some (st, reply).
Proof.
  intros Hreads Hbody Hparse Hex reply.
  assert (H : handleRequest options routes req = Ended reply).
  { unfold handleRequest. rewrite (reads_body_not_options _ Hreads).
    rewrite find_route_first.
    destruct (find_matching routes req Hex) as (route & group & Hfind & _ & _ & Hpath).
    rewrite Hfind, Hpath. unfold run_route, parsed_body. rewrite Hreads.
    destruct (String.eqb_spec (body req) "") as [Hempty|_]; [contradiction|].
    rewrite Hparse. reflexivity. }
  split; [exact H|]. split; [reflexivity|]. split; [reflexivity|].
  intros st. unfold serve. rewrite H. reflexivity.
Qed.

Lemma malformed_body_answered_400_witness :
  reads_body (method Sample.malformed_post) = true
  /\ body Sample.malformed_post <> ""
  /\ JSON_parse (body Sample.malformed_post) = None
  /\ Exists (fun route => route_matches Sample.malformed_post route = true)
       (Sample.users default_options)
  /\ handleRequest default_options (Sample.users default_options) Sample.malformed_post
     = Ended (sendJson (with_cors default_options fresh_response) 400
                (error_body "Invalid JSON"))
  /\ forall st, serve default_options (Sample.users default_options)
                  Sample.malformed_post st
                = Some (st, sendJson (with_cors default_options fresh_response) 400
                              (error_body "Invalid JSON")).
Proof.
  assert (Hreads : reads_body (method Sample.malformed_post) = true) by reflexivity.
  assert (Hbody : body Sample.malformed_post <> "") by discriminate.
  assert (Hparse : JSON_parse (body Sample.malformed_post) = None) by reflexivity.
  assert (Hex : Exists (fun route => route_matches Sample.malformed_post route = true)
                  (Sample.users default_options)).
  { unfold Sample.users, routes_for. do 2 apply Exists_cons_tl.
    apply Exists_cons_hd. reflexivity. }
  pose proof (malformed_body_answered_400 (RT := Reference.runtime) default_options
                (Sample.users default_options) Sample.malformed_post
                Hreads Hbody Hparse Hex)
    as (H1 & _ & _ & H4).
  repeat split; assumption.
Defined.

(** C8 fails as stated: the empty text is not valid JSON, yet a POST with
    an empty body is not answered 400.  The text is not parsed at all, the
    handler is invoked with [{}]: POST /users on the two-user store answers
    201, appends the record [{id: 3}] and writes the file. *)
Lemma empty_body_reaches_handler :
  JSON_parse (body (Sample.request "POST" "/users" [] "")) = None
  /\ reads_body (method (Sample.request "POST" "/users" [] "")) = true
  /\ Exists (fun route => route_matches (Sample.request "POST" "/users" [] "") route = true)
       (Sample.users default_options)
  /\ exists st',
       serve default_options (Sample.users default_options)
         (Sample.request "POST" "/users" [] "") (Sample.started Sample.db)
       = Some (st', sendJson (with_cors default_options fresh_response) 201
                      (VObj [("id", VNum (Int 3))]))
       /\ items_of (data st') "users"
          = Some [Sample.alice; Sample.bob; [("id", VNum (Int 3))]]
       /\ file st' <> file (Sample.started Sample.db).
Proof.
  split; [reflexivity|]. split; [reflexivity|]. split.
  { unfold Sample.users, routes_for. do 2 apply Exists_cons_tl.
    apply Exists_cons_hd. reflexivity. }
  eexists. split; [vm_compute; reflexivity|]. split; [reflexivity|].
  vm_compute. discriminate.
Qed.

(** C7.  When the watched file changes: if the file exists and its content
    parses, the store becomes the parsed content; if the file is missing or
    its content does not parse, the state is the one before, and the
    callback returns after reporting the failure. *)
Theorem reload_on_file_change `{RT : Runtime} (st : State) :
  (forall content parsed,
      file st = Some content -> JSON_parse content = Some parsed ->
      on_file_change st = ({| data := parsed; file := file st |}, "Data reloaded"))
  /\ (forall content,
        file st = Some content -> JSON_parse content = None ->
        on_file_change st = (st, "Failed to reload data:"))
  /\ (file st = None -> on_file_change st = (st, "Failed to reload data:")).
Proof.
  unfold on_file_change, loadData. repeat split.
  - intros content parsed -> ->. reflexivity.
  - intros content -> ->. reflexivity.
  - intros ->. reflexivity.
Qed.

Lemma reload_on_file_change_witness :
  on_file_change {| data := Sample.db; file := Some (Sample.json Sample.db3) |}
    = ({| data := Sample.db3; file := Some (Sample.json Sample.db3) |}, "Data reloaded")
  /\ on_file_change {| data := Sample.db; file := Some "{ users: [" |}
     = ({| data := Sample.db; file := Some "{ users: [" |}, "Failed to reload data:")
  /\ on_file_change {| data := Sample.db; file := None |}
     = ({| data := Sample.db; file := None |}, "Failed to reload data:").
Proof.
  split; [|split].
  - apply (proj1 (reload_on_file_change (RT := Reference.runtime)
                    {| data := Sample.db; file := Some (Sample.json Sample.db3) |})
             (Sample.json Sample.db3) Sample.db3); reflexivity.
  - apply (proj1 (proj2 (reload_on_file_change (RT := Reference.runtime)
                           {| data := Sample.db; file := Some "{ users: [" |}))
             "{ users: ["); reflexivity.
  - apply (proj2 (proj2 (reload_on_file_change (RT := Reference.runtime)
                           {| data := Sample.db; file := None |}))); reflexivity.
Defined.

(** C6 (as amended).  In read-only mode no POST, PUT, PATCH or DELETE
    request changes the store or the file.  Such a request that matches a
    generated route is answered 403 when it is a DELETE or when its body is
    empty or valid JSON. *)
Theorem read_only_rejects `{RT : Runtime} (options : MockApiOptions)
    (routes : list RouteHandler) (req : IncomingMessage) :
  readonly options = true ->
  Forall (fun route => exists resource, In route (routes_for options resource)) routes ->
  In (method req) ["POST"; "PUT"; "PATCH"; "DELETE"] ->
  keeps_state (handleRequest options routes req)
  /\ (forall st, exists res, serve options routes req st = Some (st, res))
  /\ (Exists (fun route => route_matches req route = true) routes ->
      method req = "DELETE" \/ body req = "" \/ is_Some (JSON_parse (body req)) ->
      let reply := read_only_reply (with_cors options fresh_response) in
      statusCode reply = 403
      /\ sent reply = Some (JSON_stringify 0 (VObj [("error", VStr "Server is in read-only mode")]))
      /\ exists timer run,
           handleRequest options routes req = Invoke timer run
           /\ forall st, run st = Some (st, reply)).
Proof.
  intros Hro Hgen Hmeth.
  assert (Hopt : String.eqb (method req) "OPTIONS" = false).
  { simpl in Hmeth. destruct Hmeth as [<-|[<-|[<-|[<-|[]]]]]; reflexivity. }
  assert (Hnotget : method req <> "GET").
  { simpl in Hmeth. destruct Hmeth as [<-|[<-|[<-|[<-|[]]]]]; discriminate. }
  assert (Hhandler : forall route res id payload st,
             In route routes -> String.eqb (method req) (r_method route) = true ->
             handler route req res id payload st = Some (st, read_only_reply res)).
  { intros route res id payload st Hin Heq.
    rewrite Forall_forall in Hgen. apply list_elem_of_In in Hin.
    destruct (Hgen route Hin) as [resource Hroute].
    apply (read_only_handler options resource); [exact Hro|exact Hroute|].
    apply String.eqb_eq in Heq. congruence. }
  assert (Hkeeps : keeps_state (handleRequest options routes req)).
  { unfold handleRequest. rewrite Hopt, find_route_first.
    destruct (find (route_matches req) routes) as [route|] eqn:Hfind; [|exact I].
    destruct (find_some _ _ Hfind) as [Hin Hm].
    apply andb_prop in Hm as [Heq _].
    destruct (path route (pathname req)) as [group|]; [|exact I].
    unfold run_route.
    destruct (reads_body (method req)).
    - destruct (parsed_body req) as [parsed|]; [|exact I].
      destruct (schedule_cases options (handler route req (with_cors options fresh_response)
                                          (params_id group) parsed)) as [timer ->].
      intros st. eexists. apply Hhandler; assumption.
    - destruct (schedule_cases options (handler route req (with_cors options fresh_response)
                                          (params_id group) VUndefined)) as [timer ->].
      intros st. eexists. apply Hhandler; assumption. }
  split; [exact Hkeeps|]. split.
  { intros st. unfold serve. unfold keeps_state in Hkeeps.
    destruct (handleRequest options routes req) as [res|timer run]; [eauto|apply Hkeeps]. }
  intros Hex Hbody reply. split; [reflexivity|]. split; [reflexivity|].
  unfold handleRequest. rewrite Hopt, find_route_first.
  destruct (find_matching routes req Hex) as (route & group & Hfind & Hin & Heq & Hpath).
  rewrite Hfind, Hpath. unfold run_route.
  destruct (reads_body (method req)) eqn:Hreads.
  - assert (Hparsed : exists parsed, parsed_body req = Some parsed).
    { unfold parsed_body. destruct Hbody as [Hdel|[Hempty|[parsed Hparsed]]].
      - rewrite Hdel in Hreads. discriminate.
      - rewrite Hempty. simpl. eauto.
      - rewrite Hparsed. destruct (String.eqb (body req) ""); eauto. }
    destruct Hparsed as [parsed ->].
    destruct (schedule_cases options (handler route req (with_cors options fresh_response)
                                        (params_id group) parsed)) as [timer ->].
    eexists _, _. split; [reflexivity|]. intros st. apply Hhandler; assumption.
  - destruct (schedule_cases options (handler route req (with_cors options fresh_response)
                                        (params_id group) VUndefined)) as [timer ->].
    eexists _, _. split; [reflexivity|]. intros st. apply Hhandler; assumption.
Qed.

Lemma read_only_rejects_witness :
  readonly Sample.read_only = true
  /\ Forall (fun route => exists resource, In route (routes_for Sample.read_only resource))
       (Sample.users Sample.read_only)
  /\ In (method (Sample.request "DELETE" "/users/1" [] "")) ["POST"; "PUT"; "PATCH"; "DELETE"]
  /\ keeps_state (handleRequest Sample.read_only (Sample.users Sample.read_only)
                    (Sample.request "DELETE" "/users/1" [] ""))
  /\ (forall st, exists res,
        serve Sample.read_only (Sample.users Sample.read_only)
          (Sample.request "DELETE" "/users/1" [] "") st = Some (st, res))
  /\ exists timer run,
       handleRequest Sample.read_only (Sample.users Sample.read_only)
         (Sample.request "DELETE" "/users/1" [] "") = Invoke timer run
       /\ forall st, run st
                     = Some (st, read_only_reply (with_cors Sample.read_only fresh_response)).
Proof.
  assert (Hro : readonly Sample.read_only = true) by reflexivity.
  assert (Hgen : Forall (fun route => exists resource,
                           In route (routes_for Sample.read_only resource))
                   (Sample.users Sample.read_only)).
  { apply Forall_forall. intros route Hin. exists "users".
    apply list_elem_of_In. exact Hin. }
  assert (Hmeth : In (method (Sample.request "DELETE" "/users/1" [] ""))
                    ["POST"; "PUT"; "PATCH"; "DELETE"]).
  { simpl. tauto. }
  pose proof (read_only_rejects (RT := Reference.runtime) Sample.read_only
                (Sample.users Sample.read_only)
                (Sample.request "DELETE" "/users/1" [] "") Hro Hgen Hmeth)
    as (Hkeeps & Hserve & Hreply).
  split; [exact Hro|]. split; [exact Hgen|]. split; [exact Hmeth|].
  split; [exact Hkeeps|]. split; [exact Hserve|].
  apply Hreply.
  - unfold Sample.users, routes_for. do 5 apply Exists_cons_tl.
    apply Exists_cons_hd. reflexivity.
  - left. reflexivity.
Defined.

(** C6 fails as stated: in read-only mode POST /users with the body
    [{name: Carol], which is not JSON, is answered 400, not 403 (the store
    and the file are unchanged). *)
Lemma read_only_malformed_body_400 :
  readonly Sample.read_only = true
  /\ serve Sample.read_only (Sample.users Sample.read_only) Sample.malformed_post
       (Sample.started Sample.db)
     = Some (Sample.started Sample.db,
             sendJson (with_cors Sample.read_only fresh_response) 400
               (error_body "Invalid JSON"))
  /\ statusCode (sendJson (with_cors Sample.read_only fresh_response) 400
                   (error_body "Invalid JSON")) <> 403.
Proof. split; [reflexivity|]. split; [vm_compute; reflexivity|discriminate]. Qed.

(** ** Listing: filter, count, page, sort *)

Lemma reserved_keys (k : string) :
  reserved k = true <-> In k ["_page"; "_limit"; "_sort"; "_order"].
Proof.
  unfold reserved. rewrite !orb_true_iff, !String.eqb_eq. cbn [In].
  split; [intros [[[H|H]|H]|H]|intros [H|[H|[H|[H|[]]]]]]; subst; tauto.
Qed.

Lemma apply_filters_filter (q : list (string * qvalue)) (items : list object) :
  apply_filters q items = filter (passes q) items.
Proof.
  unfold apply_filters. revert items.
  induction q as [|[k v] q IH]; intros items; cbn [fold_left fst snd].
  - symmetry. induction items as [|i items IHi]; [reflexivity|].
    rewrite filter_cons_True by constructor. f_equal. exact IHi.
  - rewrite IH. destruct (reserved k) eqn:Hk.
    + apply reserved_keys in Hk.
      apply list_filter_iff. intros item. unfold passes. split.
      * intros H. constructor; [left; exact Hk|exact H].
      * intros H. apply Forall_cons in H as [_ H]. exact H.
    + assert (Hnot : ~ In k ["_page"; "_limit"; "_sort"; "_order"]).
      { intros H. apply reserved_keys in H. congruence. }
      rewrite list_filter_filter. apply list_filter_iff. intros item.
      unfold passes. split.
      * intros [H1 H2]. constructor; [right; exact H2|exact H1].
      * intros H. apply Forall_cons in H as [[Hr|Heq] H]; cbn [fst snd] in *.
        -- contradiction.
        -- split; assumption.
Qed.



(** *** Pages *)

Lemma window_clamped {A : Type} (l : list A) (start limit : Z) :
  0 <= start -> 0 <= limit ->
  firstn (Z.to_nat (Z.min (start + limit) (Z.of_nat (length l))
                    - Z.min start (Z.of_nat (length l))))
    (skipn (Z.to_nat (Z.min start (Z.of_nat (length l)))) l)
  = firstn (Z.to_nat limit) (skipn (Z.to_nat start) l).
Proof.
  intros Hs Hl.
  destruct (Z_le_gt_dec start (Z.of_nat (length l))) as [Hin|Hout].
  - rewrite (Z.min_l start) by lia.
    destruct (Z_le_gt_dec (start + limit) (Z.of_nat (length l))) as [Hfit|Hover].
    + rewrite Z.min_l by lia. f_equal. lia.
    + rewrite Z.min_r by lia.
      rewrite !firstn_all2; [reflexivity| |]; rewrite length_skipn; lia.
  - rewrite !Z.min_r by lia. rewrite Z.sub_diag.
    rewrite (skipn_all2 (n := Z.to_nat start)) by lia.
    rewrite firstn_nil. reflexivity.
Qed.

Lemma to_double_approximates (x : Z) : 0 <= x -> approximates (to_double x) x.
Proof.
  intros Hx. destruct (Z_le_gt_dec x 9007199254740992) as [Hle|Hgt].
  - left. split; [apply to_double_safe; lia|exact Hle].
  - right. left. split; [lia|]. apply to_double_large. lia.
Qed.

Lemma to_double_not_NaN (x : Z) : to_double x <> NaN.
Proof.
  unfold to_double. cbv zeta.
  repeat match goal with |- context [if ?c then _ else _] => destruct c end; discriminate.
Qed.

Lemma slice_index_approximates (len x : Z) (n : number) :
  approximates n x -> 0 <= x -> 0 <= len <= 9007199254740992 ->
  slice_index len n = Z.min x len.
Proof.
  intros [[-> Hx]|[[Hx [->|(m & -> & Hm)]]|[-> ->]]] H0 Hlen; cbn [slice_index].
  - destruct (Z.ltb_spec x 0); [lia|reflexivity].
  - lia.
  - destruct (Z.ltb_spec m 0); lia.
  - lia.
Qed.

Lemma num_mul_approximates (n : number) (x l : Z) :
  approximates n x -> 0 <= x -> 0 <= l -> n <> NaN ->
  approximates (num_mul n (Int l)) (x * l)
  /\ (num_mul n (Int l) = NaN -> l = 0).
Proof.
  intros [[-> Hx]|[[Hx [->|(m & -> & Hm)]]|[-> ->]]] H0 Hl Hnan; cbn [num_mul num_sign].
  - split; [apply to_double_approximates; nia|].
    intros H. exfalso. exact (to_double_not_NaN _ H).
  - destruct (Z.eq_dec l 0) as [->|Hne].
    + cbn. split; [right; right; split; [reflexivity|lia]|reflexivity].
    + rewrite Z.sgn_pos by lia. cbn. split; [|discriminate].
      right. left. split; [nia|left; reflexivity].
  - split.
    + destruct (Z.eq_dec l 0) as [->|Hne].
      * rewrite !Z.mul_0_r. left. split; [reflexivity|lia].
      * right. left. split; [nia|]. apply to_double_large. nia.
    + intros H. exfalso. exact (to_double_not_NaN _ H).
  - contradiction.
Qed.

Lemma num_add_approximates (n : number) (x l : Z) :
  approximates n x -> 0 <= x -> 0 <= l -> (n = NaN -> l = 0) ->
  approximates (num_add n (Int l)) (x + l).
Proof.
  intros [[-> Hx]|[[Hx [->|(m & -> & Hm)]]|[-> ->]]] H0 Hl Hnan; cbn [num_add].
  - apply to_double_approximates. lia.
  - right. left. split; [lia|left; reflexivity].
  - right. left. split; [lia|]. apply to_double_large. lia.
  - right. right. split; [reflexivity|]. rewrite (Hnan eq_refl). reflexivity.
Qed.

(** The page for a page number [p >= 1] and a limit [l >= 0]: the [l]
    records from position [(p-1)*l] on, however large [p] and [l] are. *)
Lemma paginate_window (q : list (string * qvalue)) (items : list object) (p l : Z) :
  page_of q = Int p -> limit_of q items = Int l ->
  1 <= p -> 0 <= l ->
  Z.of_nat (length items) < 4294967296 ->
  paginate q items = firstn (Z.to_nat l) (skipn (Z.to_nat ((p - 1) * l)) items).
Proof.
  intros Hp Hl Hp1 Hl0 Hlen. unfold paginate. rewrite Hp, Hl. cbv zeta.
  assert (H1 : approximates (num_sub (Int p) (Int 1)) (p - 1)).
  { unfold num_sub. cbn [num_neg num_add]. replace (p + - (1)) with (p - 1) by lia.
    apply to_double_approximates. lia. }
  assert (Hn1 : num_sub (Int p) (Int 1) <> NaN).
  { unfold num_sub. cbn [num_neg num_add]. apply to_double_not_NaN. }
  destruct (num_mul_approximates _ (p - 1) l H1 ltac:(lia) Hl0 Hn1) as [Hstart Hnan].
  pose proof (num_add_approximates _ ((p - 1) * l) l Hstart ltac:(nia) Hl0 Hnan) as Hstop.
  unfold js_slice.
  rewrite (slice_index_approximates _ _ _ Hstart) by nia.
  rewrite (slice_index_approximates _ _ _ Hstop) by nia.
  apply window_clamped; nia.
Qed.


Lemma js_slice_nil {A : Type} (start stop : number) : js_slice (@nil A) start stop = [].
Proof. unfold js_slice. rewrite skipn_nil, firstn_nil. reflexivity. Qed.

Lemma find_set_assoc_eq (k v : string) (l : list (string * string)) :
  find (fun kv => String.eqb k (fst kv)) (set_assoc k v l) = Some (k, v).
Proof.
  induction l as [|[k1 v1] l IH]; simpl.
  - rewrite String.eqb_refl. reflexivity.
  - destruct (String.eqb k k1) eqn:Hk; simpl.
    + rewrite String.eqb_refl. reflexivity.
    + rewrite Hk. exact IH.
Qed.

Lemma find_set_assoc_ne (k k' v : string) (l : list (string * string)) :
  k <> k' ->
  find (fun kv => String.eqb k (fst kv)) (set_assoc k' v l)
  = find (fun kv => String.eqb k (fst kv)) l.
Proof.
  intros Hne. induction l as [|[k1 v1] l IH]; simpl.
  - destruct (String.eqb_spec k k'); [contradiction|reflexivity].
  - destruct (String.eqb_spec k' k1) as [->|Hk]; simpl.
    + destruct (String.eqb_spec k k1); [contradiction|reflexivity].
    + destruct (String.eqb k k1); [reflexivity|exact IH].
Qed.

Section Listing.
Context `{RT : Runtime}.

Lemma sort_page_perm (q : list (string * qvalue)) (paged : list object) :
  Permutation paged (sort_page q paged).
Proof.
  unfold sort_page.
  destruct (truthy (query_get q "_sort")); [apply Array_sort_permutation|reflexivity].
Qed.

Lemma sort_page_nil (q : list (string * qvalue)) : sort_page q [] = [].
Proof.
  apply Permutation_nil. apply sort_page_perm.
Qed.

Lemma list_handler_steps (resource : string) (req : IncomingMessage)
    (res : ServerResponse) (st : State) (items : list object) :
  items_of (data st) resource = Some items ->
  let filtered := apply_filters (query req) items in
  list_handler resource req res st
  = Some (st, sendJson
                (setHeader "X-Total-Count"
                   (num_to_string (Int (Z.of_nat (length filtered)))) res)
                200
                (VArr (map VObj (sort_page (query req) (paginate (query req) filtered))))).
Proof. intros Hitems. unfold list_handler. rewrite Hitems. reflexivity. Qed.




End Listing.










(** GET /people?_sort=age&_limit=2 on four people aged 41, 23, 35, 23:
    the page is cut first (Alice, Bob) and then sorted (Bob, Alice); sorting
    the whole collection first would have given Bob and Dan. *)
Example page_is_cut_before_sorting :
  serve default_options (routes_for default_options "people")
    (Sample.request "GET" "/people" [("_sort", QOne "age"); ("_limit", QOne "2")] "")
    (Sample.started Sample.people_db)
  = Some (Sample.started Sample.people_db,
          sendJson (setHeader "X-Total-Count" "4" (with_cors default_options fresh_response))
            200 (VArr [VObj (Sample.aged 2 "Bob" 23); VObj (Sample.aged 1 "Alice" 41)]))
  /\ paginate [("_sort", QOne "age"); ("_limit", QOne "2")]
       (stable_sort (compare_by [("_sort", QOne "age"); ("_limit", QOne "2")]) Sample.people)
     = [Sample.aged 2 "Bob" 23; Sample.aged 4 "Dan" 23].
Proof. split; vm_compute; reflexivity. Qed.




(** GET /users?_page=2&_limit=1 on three users returns the second one;
    with [_page=5] the page is empty and the count is still 3. *)
Example second_page_of_three :
  serve default_options (Sample.users default_options)
    (Sample.request "GET" "/users" [("_page", QOne "2"); ("_limit", QOne "1")] "")
    (Sample.started Sample.db3)
  = Some (Sample.started Sample.db3,
          sendJson (setHeader "X-Total-Count" "3" (with_cors default_options fresh_response))
            200 (VArr [VObj Sample.bob]))
  /\ serve default_options (Sample.users default_options)
       (Sample.request "GET" "/users" [("_page", QOne "5"); ("_limit", QOne "1")] "")
       (Sample.started Sample.db3)
     = Some (Sample.started Sample.db3,
             sendJson (setHeader "X-Total-Count" "3" (with_cors default_options fresh_response))
               200 (VArr [])).
Proof. split; vm_compute; reflexivity. Qed.

(** The scenario of the documentation: on the two-user file, POST /users
    with [{"name":"Carol"}] answers 201 with Carol under id 3, writes the
    file, and GET /users then lists three users. *)
Example create_then_list :
  exists st',
    serve default_options (Sample.users default_options)
      (Sample.request "POST" "/users" [] (Sample.json (VObj [("name", VStr "Carol")])))
      (Sample.started Sample.db)
    = Some (st', sendJson (with_cors default_options fresh_response) 201 (VObj Sample.carol))
    /\ st' = Sample.started Sample.db3
    /\ serve default_options (Sample.users default_options)
         (Sample.request "GET" "/users" [] "") st'
       = Some (st', sendJson (setHeader "X-Total-Count" "3"
                                (with_cors default_options fresh_response))
                      200 (VArr [VObj Sample.alice; VObj Sample.bob; VObj Sample.carol])).
Proof. eexists. repeat split; vm_compute; reflexivity. Qed.

(** Starting on the text of the two-user store generates the six routes of
    [users]. *)
Example start_on_sample_file :
  (fun started => (fst started, length (snd started)))
    <$> createMockServer (Some (Reference.stringify 2 Sample.db)) default_options
  = Some (Sample.started Sample.db, 6%nat).
Proof. vm_compute. reflexivity. Qed.

(** * Further properties of the server *)

(** ** Filtering *)



(** ** Routing of GET and DELETE on one record *)

Lemma collection_path_item (k r seg : string) :
  no_slash k = true -> collection_path k ("/" +:+ r +:+ "/" +:+ seg) = None.
Proof.
  intros Hns. unfold collection_path.
  rewrite !append_cons, !append_empty. cbn [String.eqb]. rewrite Ascii.eqb_refl.
  destruct (String.eqb_spec (r +:+ String "/" seg) k) as [Heq|]; [|reflexivity].
  rewrite <- Heq, no_slash_app in Hns. discriminate.
Qed.

Section RoutingOne.
Context `{RT : Runtime}.
Variable options : MockApiOptions.


Lemma find_route_get (keys : list string) (resource seg : string)
    (req : IncomingMessage) (res : ServerResponse) :
  In resource keys -> Forall (fun k => plain k = true) keys -> Forall (fun k => no_slash k = true) keys ->
  method req = "GET" ->
  pathname req = "/" +:+ resource +:+ "/" +:+ seg ->
  seg <> "" -> no_slash seg = true ->
  find_route options (flat_map (routes_for options) keys) req res
  = run_route options
      {| r_method := "GET"; path := String_match (item_pattern resource);
         handler := fun _ res id _ => get_handler resource id res |}
      (Some seg) req res.
Proof.
  intros Hin Hplain Hkeys Hm Hp Hseg Hns. induction keys as [|k keys IH]; [destruct Hin|].
  apply Forall_cons in Hkeys as [Hk Hkeys].
  apply Forall_cons in Hplain as [Hpk Hplain].
  cbn [flat_map routes_for app find_route r_method path]. rewrite Hm, Hp.
  cbn [String.eqb Ascii.eqb Bool.eqb negb andb].
  rewrite (match_collection _ _ Hpk), (match_item _ _ Hpk).
  rewrite (collection_path_item k resource seg Hk), item_path_eq by assumption.
  destruct (String.eqb_spec resource k) as [<-|Hne];
    [reflexivity|apply IH; [destruct Hin; congruence|exact Hplain|exact Hkeys]].
Qed.


Lemma serve_get (keys : list string) (resource seg : string) (req : IncomingMessage)
    (st : State) :
  In resource keys -> Forall (fun k => plain k = true) keys -> Forall (fun k => no_slash k = true) keys ->
  method req = "GET" ->
  pathname req = "/" +:+ resource +:+ "/" +:+ seg ->
  seg <> "" -> no_slash seg = true ->
  serve options (flat_map (routes_for options) keys) req st
  = get_handler resource (Some seg) (with_cors options fresh_response) st.
Proof.
  intros Hin Hplain Hkeys Hm Hp Hseg Hns. unfold serve, handleRequest.
  rewrite (find_route_get keys resource seg req _ Hin Hplain Hkeys Hm Hp Hseg Hns).
  unfold run_route, schedule. rewrite Hm, (params_id_segment seg Hseg).
  cbn [String.eqb Ascii.eqb Bool.eqb reads_body orb].
  destruct (0 <? delay options); reflexivity.
Qed.

End RoutingOne.

(** ** Finding a record *)




Lemma findIndex_first {A : Type} (p : A -> bool) (l : list A) (i : nat) :
  findIndex p l = Some i ->
  forall j x, (j < i)%nat -> l !! j = Some x -> p x = false.
Proof.
  revert i. induction l as [|y l IH]; intros i; cbn [findIndex]; [discriminate|].
  destruct (p y) eqn:Hy.
  - intros [= <-] j x Hj. lia.
  - destruct (findIndex p l) as [k|]; cbn [option_map]; [|discriminate].
    intros [= <-] [|j] x Hj Hlook.
    + cbn in Hlook. congruence.
    + apply (IH k eq_refl j x); [lia|exact Hlook].
Qed.



(** The segment is compared with [String(id)], which is written with an
    exponent from 10^21 on: the record whose id is 10^21 is found under
    [1e+21], and not under the digits of its id. *)
Example get_by_exponent_form :
  num_to_string (Int (10 ^ 21)) = "1e+21"
  /\ serve default_options (Sample.users default_options)
       (Sample.request "GET" "/users/1e+21" [] "")
       (Sample.started (VObj [("users", VArr [VObj (Sample.person (10 ^ 21) "Big")])]))
     = Some (Sample.started (VObj [("users", VArr [VObj (Sample.person (10 ^ 21) "Big")])]),
             sendJson (with_cors default_options fresh_response) 200
               (VObj (Sample.person (10 ^ 21) "Big")))
  /\ serve default_options (Sample.users default_options)
       (Sample.request "GET" "/users/1000000000000000000000" [] "")
       (Sample.started (VObj [("users", VArr [VObj (Sample.person (10 ^ 21) "Big")])]))
     = Some (Sample.started (VObj [("users", VArr [VObj (Sample.person (10 ^ 21) "Big")])]),
             sendJson (with_cors default_options fresh_response) 404
               (error_body "Not found")).
Proof. repeat split; vm_compute; reflexivity. Qed.

(** ** What a handler does to the state and to the response *)

Section Effects.
Context `{RT : Runtime}.
Variable options : MockApiOptions.

Lemma synced_saveData (d : value) (f : option string) :
  readonly options = false -> synced (saveData options {| data := d; file := f |}).
Proof. intros Hro. rewrite saveData_writable by exact Hro. reflexivity. Qed.

(** A handler of a generated route returns the state it was given, or --
    not in read-only mode, not for GET, and with status 200 or 201 -- a
    state whose file holds the text of its store. *)
Lemma handler_effect (resource : string) (route : RouteHandler)
    (req : IncomingMessage) (res : ServerResponse) (id : option string)
    (payload : value) (st st' : State) (res' : ServerResponse) :
  In route (routes_for options resource) ->
  handler route req res id payload st = Some (st', res') ->
  st' = st
  \/ (readonly options = false /\ synced st' /\ r_method route <> "GET"
      /\ (statusCode res' = 200 \/ statusCode res' = 201)).
Proof.
  intros Hin. simpl in Hin.
  destruct Hin as [<-|[<-|[<-|[<-|[<-|[<-|[]]]]]]]; cbn [handler r_method];
    unfold list_handler, get_handler, post_handler, put_handler, patch_handler,
      delete_handler;
    try (destruct (readonly options) eqn:Hro; [intros [= <- <-]; left; reflexivity|]);
    destruct (items_of (data st) resource) as [items|]; cbn [mbind option_bind];
    try discriminate.
  - intros [= <- <-]. left. reflexivity.
  - destruct (find (id_is id) items); intros [= <- <-]; left; reflexivity.
  - intros [= <- <-]. right. repeat split;
      [apply synced_saveData, Hro|discriminate|right; reflexivity].
  - destruct (findIndex (id_is id) items); intros [= <- <-];
      [right|left; reflexivity].
    repeat split; [apply synced_saveData, Hro|discriminate|left; reflexivity].
  - destruct (findIndex (id_is id) items); intros [= <- <-];
      [right|left; reflexivity].
    repeat split; [apply synced_saveData, Hro|discriminate|left; reflexivity].
  - destruct (findIndex (id_is id) items); intros [= <- <-];
      [right|left; reflexivity].
    repeat split; [apply synced_saveData, Hro|discriminate|left; reflexivity].
Qed.

(** The response of a handler is the one it was given, with
    [Content-Type] set, and [X-Total-Count] too for a list. *)
Lemma handler_reply (resource : string) (route : RouteHandler)
    (req : IncomingMessage) (res : ServerResponse) (id : option string)
    (payload : value) (st st' : State) (res' : ServerResponse) :
  In route (routes_for options resource) ->
  handler route req res id payload st = Some (st', res') ->
  exists status v,
    res' = sendJson res status v
    \/ exists count, res' = sendJson (setHeader "X-Total-Count" count res) status v.
Proof.
  intros Hin. simpl in Hin.
  destruct Hin as [<-|[<-|[<-|[<-|[<-|[<-|[]]]]]]]; cbn [handler r_method];
    unfold list_handler, get_handler, post_handler, put_handler, patch_handler,
      delete_handler, read_only_reply;
    try (destruct (readonly options) eqn:Hro; [intros [= <- <-]; eauto|]);
    destruct (items_of (data st) resource) as [items|]; cbn [mbind option_bind];
    try discriminate;
    try (destruct (find (id_is id) items));
    try (destruct (findIndex (id_is id) items));
    intros [= <- <-]; eauto.
Qed.

Lemma routes_generated (keys : list string) (route : RouteHandler) :
  In route (flat_map (routes_for options) keys) ->
  exists resource, In resource keys /\ In route (routes_for options resource).
Proof. intros H. apply in_flat_map in H. exact H. Qed.

(** What [serve] returns comes from the pipeline itself -- the 204 of
    OPTIONS, a 400 or a 404 -- or from the handler of the first route that
    matches. *)
Lemma serve_cases (routes : list RouteHandler) (req : IncomingMessage)
    (st st' : State) (res' : ServerResponse) :
  serve options routes req st = Some (st', res') ->
  (method req = "OPTIONS" /\ st' = st
   /\ res' = {| statusCode := 204;
                headers := headers (with_cors options fresh_response);
                sent := Some "" |})
  \/ (method req <> "OPTIONS" /\ st' = st
      /\ exists status v, res' = sendJson (with_cors options fresh_response) status v)
  \/ (method req <> "OPTIONS"
      /\ exists route id payload,
           In route routes
           /\ String.eqb (method req) (r_method route) = true
           /\ handler route req (with_cors options fresh_response) id payload st
              = Some (st', res')).
Proof.
  unfold serve, handleRequest.
  destruct (String.eqb_spec (method req) "OPTIONS") as [Hm|Hm].
  { intros [= <- <-]. left. repeat split; assumption. }
  rewrite find_route_first.
  destruct (find (route_matches req) routes) as [route|] eqn:Hfind.
  2:{ intros [= <- <-]. right. left. repeat split; eauto. }
  destruct (find_some _ _ Hfind) as [Hin Hmatch]. apply andb_prop in Hmatch as [Heq _].
  destruct (path route (pathname req)) as [group|].
  2:{ intros [= <- <-]. right. left. repeat split; eauto. }
  unfold run_route.
  destruct (reads_body (method req)).
  - destruct (parsed_body req) as [parsed|].
    + destruct (schedule_cases options
                  (handler route req (with_cors options fresh_response)
                     (params_id group) parsed)) as [timer ->].
      intros H. right. right. split; [exact Hm|]. eauto 10.
    + intros [= <- <-]. right. left. repeat split; eauto.
  - destruct (schedule_cases options
                (handler route req (with_cors options fresh_response)
                   (params_id group) VUndefined)) as [timer ->].
    intros H. right. right. split; [exact Hm|]. eauto 10.
Qed.

Lemma header_sendJson (name : string) (res : ServerResponse) (status : Z) (v : value) :
  header name (sendJson res status v)
  = if String.eqb name "Content-Type" then Some "application/json" else header name res.
Proof.
  unfold header, sendJson. cbn [headers].
  destruct (String.eqb_spec name "Content-Type") as [->|Hne].
  - rewrite find_set_assoc_eq. reflexivity.
  - rewrite find_set_assoc_ne by exact Hne. reflexivity.
Qed.

Lemma header_setHeader (name other val : string) (res : ServerResponse) :
  name <> other -> header name (setHeader other val res) = header name res.
Proof.
  intros Hne. unfold header, setHeader. cbn [headers].
  rewrite find_set_assoc_ne by exact Hne. reflexivity.
Qed.

End Effects.

Lemma routes_for_methods `{RT : Runtime} (options : MockApiOptions)
    (resource : string) (route : RouteHandler) :
  In route (routes_for options resource) ->
  In (r_method route) ["GET"; "POST"; "PUT"; "PATCH"; "DELETE"].
Proof.
  intros Hin. simpl in Hin.
  destruct Hin as [<-|[<-|[<-|[<-|[<-|[<-|[]]]]]]]; simpl; tauto.
Qed.

(** X3.  Whatever the request, the server either leaves its state (store
    and file) as it is, or -- only for a POST, PUT, PATCH or DELETE that it
    answers 200 or 201, and never in read-only mode -- ends in a state whose
    file holds the pretty-printed text of the new store.  In particular a
    request answered with an error status, and every GET, changes
    nothing. *)
Theorem state_changes_only_on_success `{RT : Runtime} (options : MockApiOptions)
    (keys : list string) (req : IncomingMessage) (st st' : State)
    (res : ServerResponse) :
  serve options (flat_map (routes_for options) keys) req st = Some (st', res) ->
  (st' = st
   \/ (readonly options = false
       /\ synced st'
       /\ In (method req) ["POST"; "PUT"; "PATCH"; "DELETE"]
       /\ (statusCode res = 200 \/ statusCode res = 201)))
  /\ (400 <= statusCode res -> st' = st)
  /\ (method req = "GET" -> st' = st).
Proof.
  intros Hserve.
  assert (H : st' = st
              \/ (readonly options = false /\ synced st'
                  /\ In (method req) ["POST"; "PUT"; "PATCH"; "DELETE"]
                  /\ (statusCode res = 200 \/ statusCode res = 201))).
  { destruct (serve_cases options _ req st st' res Hserve)
      as [(_ & -> & _)|[(_ & -> & _)|(_ & route & id & payload & Hin & Heq & Hrun)]];
      [left; reflexivity|left; reflexivity|].
    destruct (routes_generated options keys route Hin) as (resource & _ & Hroute).
    destruct (handler_effect options resource route req _ id payload st st' res Hroute Hrun)
      as [->|(Hro & Hsync & Hnotget & Hstatus)]; [left; reflexivity|right].
    repeat split; try assumption.
    apply String.eqb_eq in Heq. rewrite Heq.
    pose proof (routes_for_methods options resource route Hroute) as Hmeth.
    destruct Hmeth as [Hget|Hrest]; [congruence|exact Hrest]. }
  split; [exact H|]. split.
  - intros Hstatus. destruct H as [->|(_ & _ & _ & [H200|H201])]; [reflexivity|lia|lia].
  - intros Hget. destruct H as [->|(_ & _ & Hmeth & _)]; [reflexivity|].
    rewrite Hget in Hmeth. simpl in Hmeth.
    destruct Hmeth as [?|[?|[?|[?|[]]]]]; discriminate.
Qed.

Lemma state_changes_only_on_success_witness :
  serve default_options (flat_map (routes_for default_options) ["users"])
    (Sample.request "POST" "/users" [] (Sample.json (VObj [("name", VStr "Carol")])))
    (Sample.started Sample.db)
  = Some (Sample.started Sample.db3,
          sendJson (with_cors default_options fresh_response) 201 (VObj Sample.carol))
  /\ (Sample.started Sample.db3 = Sample.started Sample.db
      \/ (readonly default_options = false
          /\ synced (Sample.started Sample.db3)
          /\ In "POST" ["POST"; "PUT"; "PATCH"; "DELETE"]
          /\ (statusCode (sendJson (with_cors default_options fresh_response) 201
                            (VObj Sample.carol)) = 200
              \/ statusCode (sendJson (with_cors default_options fresh_response) 201
                               (VObj Sample.carol)) = 201))).
Proof.
  assert (Hserve :
    serve default_options (flat_map (routes_for default_options) ["users"])
      (Sample.request "POST" "/users" [] (Sample.json (VObj [("name", VStr "Carol")])))
      (Sample.started Sample.db)
    = Some (Sample.started Sample.db3,
            sendJson (with_cors default_options fresh_response) 201 (VObj Sample.carol))).
  { vm_compute. reflexivity. }
  split; [exact Hserve|].
  exact (proj1 (state_changes_only_on_success (RT := Reference.runtime) default_options
                  ["users"] _ _ _ _ Hserve)).
Defined.

(** X4.  Every response of the server carries the four cross-origin
    headers when the option [cors] is on, and none of them when it is off;
    every response other than the 204 of OPTIONS has the content type
    [application/json]. *)
Theorem response_headers `{RT : Runtime} (options : MockApiOptions)
    (keys : list string) (req : IncomingMessage) (st st' : State)
    (res : ServerResponse) :
  serve options (flat_map (routes_for options) keys) req st = Some (st', res) ->
  (forall name val,
      In (name, val)
        [("Access-Control-Allow-Origin", "*");
         ("Access-Control-Allow-Methods", "GET, POST, PUT, PATCH, DELETE, OPTIONS");
         ("Access-Control-Allow-Headers", "Content-Type, Authorization");
         ("Access-Control-Expose-Headers", "X-Total-Count")] ->
      header name res = if cors options then Some val else None)
  /\ (method req <> "OPTIONS" -> header "Content-Type" res = Some "application/json")
  /\ (method req = "OPTIONS" -> header "Content-Type" res = None).
Proof.
  intros Hserve.
  assert (Hbase : forall name val,
             In (name, val)
               [("Access-Control-Allow-Origin", "*");
                ("Access-Control-Allow-Methods", "GET, POST, PUT, PATCH, DELETE, OPTIONS");
                ("Access-Control-Allow-Headers", "Content-Type, Authorization");
                ("Access-Control-Expose-Headers", "X-Total-Count")] ->
             header name (with_cors options fresh_response)
             = (if cors options then Some val else None)
             /\ name <> "Content-Type" /\ name <> "X-Total-Count").
  { intros name val Hin. unfold with_cors. simpl in Hin.
    destruct Hin as [[= <- <-]|[[= <- <-]|[[= <- <-]|[[= <- <-]|[]]]]];
      (split; [destruct (cors options); reflexivity|split; discriminate]). }
  assert (Hct : header "Content-Type" (with_cors options fresh_response) = None).
  { unfold with_cors. destruct (cors options); reflexivity. }
  destruct (serve_cases options _ req st st' res Hserve)
    as [(Hm & _ & ->)|[(Hm & _ & status & v & ->)
                      |(Hm & route & id & payload & Hin & Heq & Hrun)]].
  - split; [|split].
    + intros name val Hnv. apply (Hbase name val Hnv).
    + intros Hne. contradiction.
    + intros _. exact Hct.
  - split; [|split].
    + intros name val Hnv. destruct (Hbase name val Hnv) as (Hh & Hn1 & _).
      rewrite header_sendJson. destruct (String.eqb_spec name "Content-Type"); [contradiction|].
      exact Hh.
    + intros _. rewrite header_sendJson. reflexivity.
    + intros Hopt. contradiction.
  - destruct (routes_generated options keys route Hin) as (resource & _ & Hroute).
    destruct (handler_reply options resource route req _ id payload st st' res Hroute Hrun)
      as (status & v & [->|[count ->]]).
    + split; [|split].
      * intros name val Hnv. destruct (Hbase name val Hnv) as (Hh & Hn1 & _).
        rewrite header_sendJson.
        destruct (String.eqb_spec name "Content-Type"); [contradiction|]. exact Hh.
      * intros _. rewrite header_sendJson. reflexivity.
      * intros Hopt. contradiction.
    + split; [|split].
      * intros name val Hnv. destruct (Hbase name val Hnv) as (Hh & Hn1 & Hn2).
        rewrite header_sendJson.
        destruct (String.eqb_spec name "Content-Type"); [contradiction|].
        rewrite header_setHeader by exact Hn2. exact Hh.
      * intros _. rewrite header_sendJson. reflexivity.
      * intros Hopt. contradiction.
Qed.

Lemma response_headers_witness :
  serve Sample.no_cors (flat_map (routes_for Sample.no_cors) ["users"])
    (Sample.request "GET" "/users" [] "") (Sample.started Sample.db)
  = Some (Sample.started Sample.db,
          sendJson (setHeader "X-Total-Count" "2" fresh_response) 200
            (VArr [VObj Sample.alice; VObj Sample.bob]))
  /\ header "Access-Control-Allow-Origin"
       (sendJson (setHeader "X-Total-Count" "2" fresh_response) 200
          (VArr [VObj Sample.alice; VObj Sample.bob])) = None
  /\ header "Content-Type"
       (sendJson (setHeader "X-Total-Count" "2" fresh_response) 200
          (VArr [VObj Sample.alice; VObj Sample.bob])) = Some "application/json".
Proof.
  assert (Hserve :
    serve Sample.no_cors (flat_map (routes_for Sample.no_cors) ["users"])
      (Sample.request "GET" "/users" [] "") (Sample.started Sample.db)
    = Some (Sample.started Sample.db,
            sendJson (setHeader "X-Total-Count" "2" fresh_response) 200
              (VArr [VObj Sample.alice; VObj Sample.bob]))).
  { vm_compute. reflexivity. }
  destruct (response_headers (RT := Reference.runtime) Sample.no_cors ["users"] _ _ _ _ Hserve)
    as (Hcors & Htype & _).
  split; [exact Hserve|]. split.
  - apply (Hcors "Access-Control-Allow-Origin" "*"). left. reflexivity.
  - apply Htype. discriminate.
Defined.

(** ** Requests that match no route *)

Section Unrouted.
Context `{RT : Runtime}.
Variable options : MockApiOptions.

Lemma find_route_none (routes : list RouteHandler) (req : IncomingMessage)
    (res : ServerResponse) :
  Forall (fun route => route_matches req route = false) routes ->
  find_route options routes req res = Ended (sendJson res 404 (error_body "Not found")).
Proof.
  intros Hall. rewrite find_route_first.
  destruct (find (route_matches req) routes) as [route|] eqn:Hfind; [|reflexivity].
  destruct (find_some _ _ Hfind) as [Hin Hm].
  rewrite Forall_forall in Hall. apply list_elem_of_In in Hin.
  rewrite (Hall route Hin) in Hm. discriminate.
Qed.

Lemma no_route_by_method (keys : list string) (req : IncomingMessage) :
  ~ In (method req) ["GET"; "POST"; "PUT"; "PATCH"; "DELETE"] ->
  Forall (fun route => route_matches req route = false)
    (flat_map (routes_for options) keys).
Proof.
  intros Hm. apply Forall_forall. intros route Hin. apply list_elem_of_In in Hin.
  destruct (routes_generated options keys route Hin) as (resource & _ & Hroute).
  pose proof (routes_for_methods options resource route Hroute) as Hmeth.
  unfold route_matches.
  destruct (String.eqb_spec (method req) (r_method route)) as [Heq|]; [|reflexivity].
  rewrite Heq in Hm. contradiction.
Qed.

Lemma no_route_by_collection (keys : list string) (req : IncomingMessage) (r : string) :
  Forall (fun k => plain k = true) keys ->
  pathname req = "/" +:+ r -> no_slash r = true -> ~ In r keys ->
  Forall (fun route => route_matches req route = false)
    (flat_map (routes_for options) keys).
Proof.
  intros Hplain Hp Hns Hr. apply Forall_forall. intros route Hin. apply list_elem_of_In in Hin.
  destruct (routes_generated options keys route Hin) as (k & Hk & Hroute).
  assert (Hne : String.eqb r k = false).
  { destruct (String.eqb_spec r k); [congruence|reflexivity]. }
  assert (Hpk : plain k = true).
  { rewrite Forall_forall in Hplain. apply Hplain, list_elem_of_In, Hk. }
  unfold route_matches. rewrite Hp. simpl in Hroute.
  destruct Hroute as [<-|[<-|[<-|[<-|[<-|[<-|[]]]]]]]; cbn [path];
    rewrite ?(match_collection _ _ Hpk), ?(match_item _ _ Hpk), ?collection_path_eq, ?(item_path_collection r k Hns), ?Hne;
    apply andb_false_r.
Qed.

Lemma no_route_by_item (keys : list string) (req : IncomingMessage) (r seg : string) :
  Forall (fun k => plain k = true) keys ->
  pathname req = "/" +:+ r +:+ "/" +:+ seg ->
  seg <> "" -> no_slash seg = true ->
  Forall (fun k => no_slash k = true) keys -> ~ In r keys ->
  Forall (fun route => route_matches req route = false)
    (flat_map (routes_for options) keys).
Proof.
  intros Hplain Hp Hseg Hns Hkeys Hr. apply Forall_forall. intros route Hin.
  apply list_elem_of_In in Hin.
  destruct (routes_generated options keys route Hin) as (k & Hk & Hroute).
  assert (Hne : String.eqb r k = false).
  { destruct (String.eqb_spec r k); [congruence|reflexivity]. }
  assert (Hkslash : no_slash k = true).
  { rewrite Forall_forall in Hkeys. apply Hkeys, list_elem_of_In, Hk. }
  assert (Hpk : plain k = true).
  { rewrite Forall_forall in Hplain. apply Hplain, list_elem_of_In, Hk. }
  unfold route_matches. rewrite Hp. simpl in Hroute.
  destruct Hroute as [<-|[<-|[<-|[<-|[<-|[<-|[]]]]]]]; cbn [path];
    rewrite ?(match_collection _ _ Hpk), ?(match_item _ _ Hpk), ?(collection_path_item k r seg Hkslash), ?(item_path_eq r k seg Hseg Hns), ?Hne;
    apply andb_false_r.
Qed.

End Unrouted.

(** X5.  The route table is the one generated at start-up: a request
    whose method is none of GET, POST, PUT, PATCH, DELETE and OPTIONS, or
    whose path names a resource that was not a key of the store at start-up
    -- the keys being plain names -- is answered 404 [{error: "Not found"}]
    and changes nothing, whatever the store holds by then, so also for a
    resource that a reload has added. *)
Theorem unrouted_request_404 `{RT : Runtime} (options : MockApiOptions)
    (keys : list string) (req : IncomingMessage) :
  method req <> "OPTIONS" ->
  (~ In (method req) ["GET"; "POST"; "PUT"; "PATCH"; "DELETE"])
  \/ (Forall (fun k => plain k = true) keys
      /\ exists r, pathname req = "/" +:+ r /\ no_slash r = true /\ ~ In r keys)
  \/ (Forall (fun k => plain k = true) keys
      /\ exists r seg, pathname req = "/" +:+ r +:+ "/" +:+ seg
                       /\ seg <> "" /\ no_slash seg = true
                       /\ Forall (fun k => no_slash k = true) keys /\ ~ In r keys) ->
  handleRequest options (flat_map (routes_for options) keys) req
  = Ended (sendJson (with_cors options fresh_response) 404
             (VObj [("error", VStr "Not found")]))
  /\ forall st, serve options (flat_map (routes_for options) keys) req st
                = Some (st, sendJson (with_cors options fresh_response) 404
                              (VObj [("error", VStr "Not found")])).
Proof.
  intros Hopt Hcase.
  assert (H : handleRequest options (flat_map (routes_for options) keys) req
              = Ended (sendJson (with_cors options fresh_response) 404
                         (VObj [("error", VStr "Not found")]))).
  { unfold handleRequest.
    destruct (String.eqb_spec (method req) "OPTIONS") as [|_]; [contradiction|].
    apply find_route_none.
    destruct Hcase as [Hm|[(Hplain & r & Hp & Hns & Hr)
                          |(Hplain & r & seg & Hp & Hseg & Hns & Hkeys & Hr)]].
    - apply no_route_by_method, Hm.
    - eapply no_route_by_collection; eassumption.
    - eapply no_route_by_item; eassumption. }
  split; [exact H|]. intros st. unfold serve. rewrite H. reflexivity.
Qed.

Lemma unrouted_request_404_witness :
  serve default_options (flat_map (routes_for default_options) ["users"])
    (Sample.request "GET" "/posts" [] "") (Sample.started Sample.db)
  = Some (Sample.started Sample.db,
          sendJson (with_cors default_options fresh_response) 404
            (VObj [("error", VStr "Not found")])).
Proof.
  assert (Hm : method (Sample.request "GET" "/posts" [] "") <> "OPTIONS") by discriminate.
  assert (Hr : exists r, pathname (Sample.request "GET" "/posts" [] "") = "/" +:+ r
                         /\ no_slash r = true /\ ~ In r ["users"]).
  { exists "posts". split; [reflexivity|]. split; [reflexivity|].
    intros [H|[]]. discriminate. }
  assert (Hplain : Forall (fun k => plain k = true) ["users"]) by (repeat constructor).
  exact (proj2 (unrouted_request_404 (RT := Reference.runtime) default_options ["users"]
                  (Sample.request "GET" "/posts" [] "") Hm
                  (or_intror (or_introl (conj Hplain Hr))))
           (Sample.started Sample.db)).
Defined.

(** ** A resource whose key is missing from the store *)

Lemma list_of_nothing `{RT : Runtime} (q : list (string * qvalue)) :
  sort_page q (paginate q (apply_filters q [])) = [].
Proof.
  rewrite apply_filters_filter. cbn [filter list_filter].
  unfold paginate. rewrite js_slice_nil. apply sort_page_nil.
Qed.

Lemma items_of_missing (props : list (string * value)) (resource : string) :
  own props resource = None -> own Object_prototype resource = None ->
  items_of (VObj props) resource = Some [].
Proof. intros H Hproto. unfold items_of, get. rewrite H, Hproto. reflexivity. Qed.

(** X6.  A resource that has its routes but whose key is no longer in the
    store (a reload removed it) is an empty collection, unless its name is
    one every object inherits a property for: GET /R answers 200 with [[]]
    and the count 0 whatever the query, and a POST to it, with a body that
    has no [id], creates the record with id 1 as the only record of R.
    The keys the routes were generated for have no characters that are
    syntax in a regular expression. *)
Theorem missing_key_is_empty_collection `{RT : Runtime} (options : MockApiOptions)
    (keys : list string) (resource : string) (props : list (string * value))
    (st : State) :
  In resource keys ->
  Forall (fun k => plain k = true) keys ->
  data st = VObj props ->
  own props resource = None ->
  own Object_prototype resource = None ->
  (forall req,
      method req = "GET" -> pathname req = "/" +:+ resource ->
      no_slash resource = true ->
      serve options (flat_map (routes_for options) keys) req st
      = Some (st, sendJson (setHeader "X-Total-Count" "0" (with_cors options fresh_response))
                    200 (VArr [])))
  /\ (forall req payload,
        method req = "POST" -> pathname req = "/" +:+ resource ->
        parsed_body req = Some payload -> field payload "id" = None ->
        readonly options = false ->
        exists newItem st',
          serve options (flat_map (routes_for options) keys) req st
          = Some (st', sendJson (with_cors options fresh_response) 201 (VObj newItem))
          /\ get newItem "id" = VNum (Int 1)
          /\ items_of (data st') resource = Some [newItem]
          /\ synced st').
Proof.
  intros Hin Hplain Hdata Hown Hproto.
  assert (Hitems : items_of (data st) resource = Some []).
  { rewrite Hdata. apply items_of_missing; assumption. }
  split.
  - intros req Hm Hp Hns.
    rewrite (serve_list options keys resource req st Hin Hplain Hm Hp Hns).
    rewrite (list_handler_steps resource req _ st [] Hitems).
    cbv zeta. rewrite list_of_nothing.
    replace (apply_filters (query req) []) with (@nil (list (string * value)));
      [reflexivity|].
    rewrite apply_filters_filter. reflexivity.
  - intros req payload Hm Hp Hbody Hid Hro.
    rewrite (serve_post options keys resource req payload st Hin Hplain Hm Hp Hbody).
    rewrite (post_handler_creates options resource payload _ st [] Hro Hitems).
    cbv zeta. eexists _, _. split; [reflexivity|]. split; [|split].
    + rewrite get_spread, Hid. reflexivity.
    + cbn [data]. eapply items_of_set_items, Hitems.
    + reflexivity.
Qed.

Lemma missing_key_is_empty_collection_witness :
  serve default_options (flat_map (routes_for default_options) ["users"; "posts"])
    (Sample.request "GET" "/posts" [("_sort", QOne "title")] "") (Sample.started Sample.db)
  = Some (Sample.started Sample.db,
          sendJson (setHeader "X-Total-Count" "0"
                      (with_cors default_options fresh_response)) 200 (VArr [])).
Proof.
  assert (Hin : In "posts" ["users"; "posts"]) by (right; left; reflexivity).
  assert (Hplain : Forall (fun k => plain k = true) ["users"; "posts"])
    by (repeat constructor).
  apply (proj1 (missing_key_is_empty_collection (RT := Reference.runtime) default_options
                  ["users"; "posts"] "posts" _ (Sample.started Sample.db)
                  Hin Hplain eq_refl eq_refl eq_refl)); reflexivity.
Defined.

(** A key that is gone and that every object inherits a property for is
    not an empty collection: [data[resource]] is then the inherited value,
    which has no [slice], and the list handler throws. *)
Example missing_inherited_key :
  items_of (VObj [("users", VArr [])]) "constructor" = None
  /\ items_of (VObj [("users", VArr [])]) "posts" = Some [].
Proof. split; reflexivity. Qed.

(** ** Delete *)






(** With two records whose ids are the same string -- the number 1 and the
    string "1" -- DELETE /users/1 removes the first and GET /users/1 then
    returns the second. *)
Example delete_with_duplicate_ids :
  exists st',
    serve default_options (Sample.users default_options)
      (Sample.request "DELETE" "/users/1" [] "")
      (Sample.started (VObj [("users", VArr [VObj Sample.alice;
                                              VObj [("id", VStr "1")]])]))
    = Some (st', sendJson (with_cors default_options fresh_response) 200 (VObj []))
    /\ serve default_options (Sample.users default_options)
         (Sample.request "GET" "/users/1" [] "") st'
       = Some (st', sendJson (with_cors default_options fresh_response) 200
                      (VObj [("id", VStr "1")])).
Proof. eexists. split; [vm_compute; reflexivity|]. vm_compute. reflexivity. Qed.



(** ** Ids given by create *)

Lemma to_int_not_nil (z : Z) : Z.to_int z <> Decimal.Pos Decimal.Nil /\ Z.to_int z <> Decimal.Neg Decimal.Nil.
Proof.
  destruct z as [|p|p]; cbn; split; try discriminate;
    intros [= H]; apply (DecimalPos.Unsigned.to_uint_nonnil p H).
Qed.

Lemma decimal_inj (a b : Z) : decimal a = decimal b -> a = b.
Proof.
  unfold decimal. intros H.
  destruct (to_int_not_nil a) as [Ha1 Ha2]. destruct (to_int_not_nil b) as [Hb1 Hb2].
  pose proof (NilZero.isi (Z.to_int a) Ha1 Ha2) as Hia.
  pose proof (NilZero.isi (Z.to_int b) Hb1 Hb2) as Hib.
  rewrite H, Hib in Hia. injection Hia as Heq.
  rewrite <- (DecimalZ.of_to a), <- (DecimalZ.of_to b), Heq. reflexivity.
Qed.

Lemma num_to_string_inj (a b : Z) :
  Z.abs a < 9007199254740992 -> Z.abs b < 9007199254740992 ->
  num_to_string (Int a) = num_to_string (Int b) -> a = b.
Proof.
  intros Ha Hb. rewrite !num_to_string_safe by assumption. apply decimal_inj.
Qed.

Lemma no_slash_uint (d : Decimal.uint) : no_slash (NilEmpty.string_of_uint d) = true.
Proof. induction d; cbn [NilEmpty.string_of_uint no_slash]; try rewrite IHd; reflexivity. Qed.

(** The decimal form of an integer below 2^53 is a path segment. *)
Lemma num_to_string_segment (z : Z) :
  Z.abs z < 9007199254740992 ->
  num_to_string (Int z) <> "" /\ no_slash (num_to_string (Int z)) = true.
Proof.
  intros Hz. rewrite num_to_string_safe by exact Hz. unfold decimal.
  assert (Hu : forall d, NilZero.string_of_uint d <> ""
                         /\ no_slash (NilZero.string_of_uint d) = true).
  { intros d. pose proof (no_slash_uint d) as Hd.
    destruct d; cbn [NilZero.string_of_uint]; (split; [discriminate|]);
      try reflexivity; exact Hd. }
  destruct (Z.to_int z) as [d|d]; cbn [NilZero.string_of_int].
  - apply Hu.
  - split; [discriminate|]. cbn [no_slash]. rewrite (proj2 (Hu d)). reflexivity.
Qed.

Section Ids.
Context `{RT : Runtime}.

(** The computed id is above every id of a collection whose ids are
    numbers below 2^53 - 1. *)
Lemma newId_above (items : list object) (ids : list Z) :
  map (fun i => get i "id") items = map (fun x => VNum (Int x)) ids ->
  Forall (fun x => - 9007199254740992 < x < 9007199254740991) ids ->
  exists n, newId items = Int n /\ Forall (fun x => x < n) ids
            /\ - 9007199254740992 < n < 9007199254740992.
Proof.
  intros Hids Hsafe. destruct ids as [|z zs].
  - destruct items; [|discriminate]. exists 1. split; [reflexivity|].
    split; [constructor|lia].
  - destruct (newId_numeric items z zs Hids) as (m & Hin & Hle & _ & Hnew).
    assert (Hm : - 9007199254740992 < m < 9007199254740991).
    { rewrite Forall_forall in Hsafe. apply Hsafe, list_elem_of_In, Hin. }
    exists (m + 1). split; [apply Hnew; lia|]. split; [|lia].
    eapply Forall_impl; [exact Hle|]. cbn beta. intros x Hx. lia.
Qed.

(** After a record with the computed id is appended, the next computed id
    is one more. *)
Lemma newId_next (items : list object) (ids : list Z) (n : Z) (newItem : object) :
  map (fun i => get i "id") items = map (fun x => VNum (Int x)) ids ->
  Forall (fun x => x < n) ids ->
  - 9007199254740992 < n < 9007199254740992 ->
  get newItem "id" = VNum (Int n) ->
  newId (items ++ [newItem]) = Int (n + 1).
Proof.
  intros Hids Hlt Hn Hitem.
  assert (Hids' : map (fun i => get i "id") (items ++ [newItem])
                  = map (fun x => VNum (Int x)) (ids ++ [n])).
  { rewrite !map_app, Hids. cbn [map]. rewrite Hitem. reflexivity. }
  destruct (ids ++ [n]) as [|z zs] eqn:Hcons.
  { destruct ids; discriminate. }
  destruct (newId_numeric _ z zs Hids') as (m & Hin & Hle & _ & Hnew).
  rewrite <- Hcons in Hin, Hle.
  assert (Hm : m = n).
  { apply in_app_or in Hin. rewrite Forall_app in Hle. destruct Hle as [_ Hle].
    apply Forall_cons in Hle as [Hnm _].
    destruct Hin as [Hin|[<-|[]]]; [|reflexivity].
    rewrite Forall_forall in Hlt. apply list_elem_of_In in Hin.
    specialize (Hlt m Hin). lia. }
  subst m. apply Hnew. lia.
Qed.

Lemma find_last (seg : string) (items : list object) (item : object) :
  seg ∉ id_strings items ->
  ToString (get item "id") = seg ->
  find (id_is (Some seg)) (items ++ [item]) = Some item.
Proof.
  intros Hnone Hid. induction items as [|x items IH]; cbn [app find id_is].
  - rewrite Hid, String.eqb_refl. reflexivity.
  - cbn [id_strings map] in Hnone. apply not_elem_of_cons in Hnone as [Hx Hrest].
    destruct (String.eqb_spec (ToString (get x "id")) seg) as [Heq|_]; [congruence|].
    apply IH, Hrest.
Qed.

Lemma numeric_ids_strings (items : list object) (ids : list Z) (n : Z) :
  map (fun i => get i "id") items = map (fun x => VNum (Int x)) ids ->
  Forall (fun x => - 9007199254740992 < x < 9007199254740991) ids ->
  Forall (fun x => x < n) ids ->
  - 9007199254740992 < n < 9007199254740992 ->
  num_to_string (Int n) ∉ id_strings items.
Proof.
  intros Hids Hsafe Hlt Hn. unfold id_strings.
  rewrite <- (map_map (fun i => get i "id") ToString), Hids, map_map.
  intros Hin. apply list_elem_of_In, in_map_iff in Hin as (x & Hx & Hin).
  cbn [ToString] in Hx.
  rewrite Forall_forall in Hlt, Hsafe. apply list_elem_of_In in Hin.
  specialize (Hlt x Hin). specialize (Hsafe x Hin).
  apply num_to_string_inj in Hx; lia.
Qed.

End Ids.

(** X10.  In a collection whose ids are numbers below 2^53 - 1 (and
    above -2^53), creates with bodies that have no [id] number the records
    upwards: the id given is greater than every id already there, and the
    next create gets the id after it.  The collection is that of a key of
    the store, and the keys have no characters that are syntax in a regular
    expression. *)
Theorem consecutive_creates `{RT : Runtime} (options : MockApiOptions)
    (keys : list string) (resource : string) (first second : IncomingMessage)
    (payload1 payload2 : value) (st : State) (items : list object) (ids : list Z) :
  readonly options = false ->
  In resource keys ->
  Forall (fun k => plain k = true) keys ->
  method first = "POST" -> pathname first = "/" +:+ resource ->
  method second = "POST" -> pathname second = "/" +:+ resource ->
  parsed_body first = Some payload1 -> field payload1 "id" = None ->
  parsed_body second = Some payload2 -> field payload2 "id" = None ->
  items_of (data st) resource = Some items ->
  map (fun i => get i "id") items = map (fun x => VNum (Int x)) ids ->
  Forall (fun x => - 9007199254740992 < x < 9007199254740991) ids ->
  exists (n : Z) (item1 item2 : object) (st1 st2 : State),
    serve options (flat_map (routes_for options) keys) first st
    = Some (st1, sendJson (with_cors options fresh_response) 201 (VObj item1))
    /\ get item1 "id" = VNum (Int n)
    /\ Forall (fun x => x < n) ids
    /\ serve options (flat_map (routes_for options) keys) second st1
       = Some (st2, sendJson (with_cors options fresh_response) 201 (VObj item2))
    /\ get item2 "id" = VNum (Int (n + 1))
    /\ items_of (data st2) resource = Some (items ++ [item1; item2]).
Proof.
  intros Hro Hin Hplain Hm1 Hp1 Hm2 Hp2 Hb1 Hid1 Hb2 Hid2 Hitems Hids Hsafe.
  destruct (newId_above items ids Hids Hsafe) as (n & Hn & Hlt & Hbound).
  pose (item1 := spread [("id", VNum (newId items))] payload1).
  pose (st1 := {| data := set_items (data st) resource (items ++ [item1]);
                  file := Some (JSON_stringify 2
                                  (set_items (data st) resource (items ++ [item1]))) |}).
  pose (item2 := spread [("id", VNum (newId (items ++ [item1])))] payload2).
  assert (Hitem1 : get item1 "id" = VNum (Int n)).
  { unfold item1. rewrite get_spread, Hid1, Hn. reflexivity. }
  assert (Hitems1 : items_of (data st1) resource = Some (items ++ [item1])).
  { unfold st1. cbn [data]. eapply items_of_set_items, Hitems. }
  assert (H1 : serve options (flat_map (routes_for options) keys) first st
               = Some (st1, sendJson (with_cors options fresh_response) 201 (VObj item1))).
  { rewrite (serve_post options keys resource first payload1 st Hin Hplain Hm1 Hp1 Hb1).
    apply (post_handler_creates options resource payload1 _ st items Hro Hitems). }
  pose proof (post_handler_creates options resource payload2
                (with_cors options fresh_response) st1 _ Hro Hitems1) as H2.
  cbv zeta in H2.
  rewrite <- (serve_post options keys resource second payload2 st1 Hin Hplain Hm2 Hp2 Hb2)
    in H2.
  exists n, item1, item2, st1. eexists.
  split; [exact H1|]. split; [exact Hitem1|]. split; [exact Hlt|].
  split; [exact H2|]. split.
  - unfold item2.
    rewrite get_spread, Hid2, (newId_next items ids n item1 Hids Hlt Hbound Hitem1).
    reflexivity.
  - cbn [data]. change [item1; item2] with ([item1] ++ [item2]). rewrite app_assoc.
    eapply items_of_set_items, Hitems1.
Qed.

Lemma consecutive_creates_witness :
  exists (n : Z) (item1 item2 : object) (st1 st2 : State),
    serve default_options (flat_map (routes_for default_options) ["users"])
      (Sample.request "POST" "/users" [] (Sample.json (VObj [("name", VStr "Carol")])))
      (Sample.started Sample.db)
    = Some (st1, sendJson (with_cors default_options fresh_response) 201 (VObj item1))
    /\ get item1 "id" = VNum (Int n)
    /\ Forall (fun x => x < n) [1; 2]
    /\ serve default_options (flat_map (routes_for default_options) ["users"])
         (Sample.request "POST" "/users" [] (Sample.json (VObj [("name", VStr "Carol")])))
         st1
       = Some (st2, sendJson (with_cors default_options fresh_response) 201 (VObj item2))
    /\ get item2 "id" = VNum (Int (n + 1))
    /\ items_of (data st2) "users" = Some ([Sample.alice; Sample.bob] ++ [item1; item2]).
Proof.
  apply (consecutive_creates (RT := Reference.runtime) default_options ["users"] "users"
           (Sample.request "POST" "/users" [] (Sample.json (VObj [("name", VStr "Carol")])))
           (Sample.request "POST" "/users" [] (Sample.json (VObj [("name", VStr "Carol")])))
           (VObj [("name", VStr "Carol")]) (VObj [("name", VStr "Carol")])
           (Sample.started Sample.db) [Sample.alice; Sample.bob] [1; 2]);
    try reflexivity.
  - left. reflexivity.
  - repeat constructor.
  - repeat constructor.
Defined.

(** X11.  In a collection whose ids are numbers below 2^53 - 1 (and
    above -2^53), the record created by a POST whose body has no [id] is
    the one GET returns for the id it was given.  The collection is that of
    a key of the store, and the keys have neither a slash nor a character
    that is syntax in a regular expression. *)
Theorem create_then_get `{RT : Runtime} (options : MockApiOptions)
    (keys : list string) (resource : string) (post : IncomingMessage)
    (payload : value) (st : State) (items : list object) (ids : list Z) :
  readonly options = false ->
  In resource keys ->
  Forall (fun k => plain k = true) keys ->
  Forall (fun k => no_slash k = true) keys ->
  method post = "POST" -> pathname post = "/" +:+ resource ->
  parsed_body post = Some payload -> field payload "id" = None ->
  items_of (data st) resource = Some items ->
  map (fun i => get i "id") items = map (fun x => VNum (Int x)) ids ->
  Forall (fun x => - 9007199254740992 < x < 9007199254740991) ids ->
  exists (n : Z) (newItem : object) (st' : State),
    serve options (flat_map (routes_for options) keys) post st
    = Some (st', sendJson (with_cors options fresh_response) 201 (VObj newItem))
    /\ get newItem "id" = VNum (Int n)
    /\ forall look,
         method look = "GET" ->
         pathname look = "/" +:+ resource +:+ "/" +:+ num_to_string (Int n) ->
         serve options (flat_map (routes_for options) keys) look st'
         = Some (st', sendJson (with_cors options fresh_response) 200 (VObj newItem)).
Proof.
  intros Hro Hin Hplain Hkeys Hm Hp Hbody Hid Hitems Hids Hsafe.
  destruct (newId_above items ids Hids Hsafe) as (n & Hn & Hlt & Hbound).
  pose (newItem := spread [("id", VNum (newId items))] payload).
  assert (Hitem : get newItem "id" = VNum (Int n)).
  { unfold newItem. rewrite get_spread, Hid, Hn. reflexivity. }
  pose proof (post_handler_creates options resource payload
                (with_cors options fresh_response) st items Hro Hitems) as Hpost.
  cbv zeta in Hpost.
  rewrite <- (serve_post options keys resource post payload st Hin Hplain Hm Hp Hbody)
    in Hpost.
  exists n, newItem. eexists. split; [exact Hpost|]. split; [exact Hitem|].
  intros look Hml Hpl.
  destruct (num_to_string_segment n ltac:(lia)) as [Hseg Hns].
  rewrite (serve_get options keys resource _ look _ Hin Hplain Hkeys Hml Hpl Hseg Hns).
  unfold get_handler. cbn [data].
  rewrite (items_of_set_items _ _ _ _ Hitems). cbn [mbind option_bind].
  assert (Hs : ToString (get newItem "id") = num_to_string (Int n)).
  { rewrite Hitem. reflexivity. }
  subst newItem.
  rewrite (find_last _ items _ (numeric_ids_strings items ids n Hids Hsafe Hlt Hbound) Hs).
  reflexivity.
Qed.

Lemma create_then_get_witness :
  exists (n : Z) (newItem : object) (st' : State),
    serve default_options (flat_map (routes_for default_options) ["users"])
      (Sample.request "POST" "/users" [] (Sample.json (VObj [("name", VStr "Carol")])))
      (Sample.started Sample.db)
    = Some (st', sendJson (with_cors default_options fresh_response) 201 (VObj newItem))
    /\ get newItem "id" = VNum (Int n)
    /\ forall look,
         method look = "GET" ->
         pathname look = "/" +:+ "users" +:+ "/" +:+ num_to_string (Int n) ->
         serve default_options (flat_map (routes_for default_options) ["users"]) look st'
         = Some (st', sendJson (with_cors default_options fresh_response) 200
                        (VObj newItem)).
Proof.
  apply (create_then_get (RT := Reference.runtime) default_options ["users"] "users"
           (Sample.request "POST" "/users" [] (Sample.json (VObj [("name", VStr "Carol")])))
           (VObj [("name", VStr "Carol")]) (Sample.started Sample.db)
           [Sample.alice; Sample.bob] [1; 2]);
    try reflexivity;
    [left; reflexivity|repeat constructor|repeat constructor|repeat constructor].
Defined.

(** From 2^53 on a create does not give a new id: on a collection whose
    only id is 2^53 the created record gets that id again, and GET on it
    still returns the old record. *)
Example create_at_the_largest_safe_integer :
  exists st',
    serve default_options (Sample.users default_options)
      (Sample.request "POST" "/users" [] (Sample.json (VObj [("name", VStr "New")])))
      (Sample.started (VObj [("users", VArr [VObj (Sample.person 9007199254740992 "Max")])]))
    = Some (st', sendJson (with_cors default_options fresh_response) 201
                   (VObj (Sample.person 9007199254740992 "New")))
    /\ serve default_options (Sample.users default_options)
         (Sample.request "GET" "/users/9007199254740992" [] "") st'
       = Some (st', sendJson (with_cors default_options fresh_response) 200
                      (VObj (Sample.person 9007199254740992 "Max"))).
Proof. eexists. split; [vm_compute; reflexivity|]. vm_compute. reflexivity. Qed.

(** ** Update merges *)



(** ** Pages *)

(** X13.  For a page number [p] of at least 1 and a limit [l] that is
    not negative, on a collection of fewer than 2^32 records (the bound of
    an array), the record at position [i] of the page is the record at
    position [(p-1)*l + i] of the filtered collection when [i < l], and the
    page has no position [l] or beyond: consecutive pages neither overlap
    nor leave a gap, and a page holds at most [l] records. *)
Theorem page_positions (q : list (string * qvalue)) (items : list object) (p l : Z) :
  page_of q = Int p ->
  limit_of q items = Int l ->
  1 <= p ->
  0 <= l ->
  Z.of_nat (length items) < 4294967296 ->
  (forall i : nat,
      paginate q items !! i
      = if decide (Z.of_nat i < l)
        then items !! (Z.to_nat ((p - 1) * l) + i)%nat
        else None)
  /\ Z.of_nat (length (paginate q items)) <= l.
Proof.
  intros Hp Hl Hpage Hlimit Hlen.
  rewrite (paginate_window q items p l Hp Hl Hpage Hlimit Hlen). split.
  - intros i. rewrite lookup_take, lookup_drop.
    destruct (decide (i < Z.to_nat l)%nat) as [Hi|Hi];
      destruct (decide (Z.of_nat i < l)) as [Hz|Hz];
      try reflexivity; lia.
  - rewrite length_take. lia.
Qed.

Lemma page_positions_witness :
  page_of [("_page", QOne "2"); ("_limit", QOne "1")] = Int 2
  /\ limit_of [("_page", QOne "2"); ("_limit", QOne "1")]
       [Sample.alice; Sample.bob; Sample.carol] = Int 1
  /\ paginate [("_page", QOne "2"); ("_limit", QOne "1")]
       [Sample.alice; Sample.bob; Sample.carol] !! 0%nat
     = Some Sample.bob
  /\ paginate [("_page", QOne "2"); ("_limit", QOne "1")]
       [Sample.alice; Sample.bob; Sample.carol] !! 1%nat
     = None
  /\ paginate [("_page", QOne "3"); ("_limit", QOne "1")]
       [Sample.alice; Sample.bob; Sample.carol] !! 0%nat
     = Some Sample.carol.
Proof.
  split; [reflexivity|]. split; [reflexivity|].
  destruct (page_positions [("_page", QOne "2"); ("_limit", QOne "1")]
              [Sample.alice; Sample.bob; Sample.carol] 2 1 eq_refl eq_refl
              ltac:(lia) ltac:(lia) ltac:(cbn; lia)) as [Hpos _].
  destruct (page_positions [("_page", QOne "3"); ("_limit", QOne "1")]
              [Sample.alice; Sample.bob; Sample.carol] 3 1 eq_refl eq_refl
              ltac:(lia) ltac:(lia) ltac:(cbn; lia)) as [Hpos3 _].
  split; [rewrite (Hpos 0%nat); reflexivity|].
  split; [rewrite (Hpos 1%nat); reflexivity|].
  rewrite (Hpos3 0%nat). reflexivity.
Defined.




(** ** Start-up *)

Lemma patterns_of_plain `{RT : Runtime} (keys : list string) :
  Forall (fun k => plain k = true) keys ->
  forallb (fun resource => RegExp_valid (collection_pattern resource)
                           && RegExp_valid (item_pattern resource)) keys = true.
Proof.
  intros Hplain. apply forallb_forall. intros k Hk.
  rewrite Forall_forall in Hplain. apply list_elem_of_In in Hk.
  specialize (Hplain k Hk).
  rewrite (proj1 (RegExp_collection k Hplain)), (proj1 (RegExp_item k Hplain)).
  reflexivity.
Qed.

(** X15.  [createMockServer] succeeds exactly when the data file exists,
    its content is JSON, the parsed value has keys (it is not [null]) and
    every key gives two regular expressions that compile: the store is
    then the parsed content, the file is left as it was, and the route
    table has the six routes of every key, in the order of the keys.
    Otherwise it throws and there is no server.  Keys without syntax
    characters always compile. *)
Theorem server_starts_on_a_readable_file `{RT : Runtime} (dataFile : option string)
    (options : MockApiOptions) :
  (forall st routes,
      createMockServer dataFile options = Some (st, routes) <->
      exists content parsed keys,
        dataFile = Some content
        /\ JSON_parse content = Some parsed
        /\ Object_keys parsed = Some keys
        /\ Forall (fun k => RegExp_valid (collection_pattern k) = true
                            /\ RegExp_valid (item_pattern k) = true) keys
        /\ st = {| data := parsed; file := Some content |}
        /\ routes = flat_map (routes_for options) keys)
  /\ (forall st routes,
        createMockServer dataFile options = Some (st, routes) ->
        file st = dataFile
        /\ exists keys, Object_keys (data st) = Some keys
                        /\ length routes = (6 * length keys)%nat)
  /\ (dataFile = None -> createMockServer dataFile options = None)
  /\ (forall content, dataFile = Some content -> JSON_parse content = None ->
                      createMockServer dataFile options = None)
  /\ (forall content parsed,
        dataFile = Some content -> JSON_parse content = Some parsed ->
        Object_keys parsed = None ->
        createMockServer dataFile options = None)
  /\ (forall content parsed keys k,
        dataFile = Some content -> JSON_parse content = Some parsed ->
        Object_keys parsed = Some keys -> In k keys ->
        RegExp_valid (collection_pattern k) = false
        \/ RegExp_valid (item_pattern k) = false ->
        createMockServer dataFile options = None)
  /\ (forall content parsed keys,
        dataFile = Some content -> JSON_parse content = Some parsed ->
        Object_keys parsed = Some keys ->
        Forall (fun k => plain k = true) keys ->
        createMockServer dataFile options
        = Some ({| data := parsed; file := Some content |},
                flat_map (routes_for options) keys)).
Proof.
  assert (Hvalid : forall keys,
             forallb (fun resource => RegExp_valid (collection_pattern resource)
                                      && RegExp_valid (item_pattern resource)) keys = true
             <-> Forall (fun k => RegExp_valid (collection_pattern k) = true
                                  /\ RegExp_valid (item_pattern k) = true) keys).
  { intros keys. rewrite forallb_forall, Forall_forall. split; intros H k Hk.
    - apply andb_prop, H, list_elem_of_In, Hk.
    - apply andb_true_intro, H, list_elem_of_In, Hk. }
  assert (Hiff : forall st routes,
             createMockServer dataFile options = Some (st, routes) <->
             exists content parsed keys,
               dataFile = Some content
               /\ JSON_parse content = Some parsed
               /\ Object_keys parsed = Some keys
               /\ Forall (fun k => RegExp_valid (collection_pattern k) = true
                                   /\ RegExp_valid (item_pattern k) = true) keys
               /\ st = {| data := parsed; file := Some content |}
               /\ routes = flat_map (routes_for options) keys).
  { intros st routes. unfold createMockServer, loadData, generate_routes. cbn [file].
    split.
    - destruct dataFile as [content|]; [|discriminate].
      destruct (JSON_parse content) as [parsed|] eqn:Hparse; [|discriminate].
      cbn [mbind option_bind data].
      destruct (Object_keys parsed) as [keys|] eqn:Hkeys; [|discriminate].
      cbn [mbind option_bind].
      destruct (forallb _ keys) eqn:Hall; [|discriminate].
      cbn. intros [= <- <-]. exists content, parsed, keys.
      split; [reflexivity|]. split; [exact Hparse|]. split; [exact Hkeys|].
      split; [apply Hvalid, Hall|]. split; reflexivity.
    - intros (content & parsed & keys & -> & Hparse & Hkeys & Hall & -> & ->).
      rewrite Hparse. cbn [mbind option_bind data]. rewrite Hkeys.
      cbn [mbind option_bind]. rewrite (proj2 (Hvalid keys) Hall). reflexivity. }
  split; [exact Hiff|]. split; [|split; [|split; [|split; [|split]]]].
  - intros st routes Hstart.
    apply Hiff in Hstart as (content & parsed & keys & -> & _ & Hkeys & _ & -> & ->).
    split; [reflexivity|]. exists keys. split; [exact Hkeys|].
    clear. induction keys as [|k keys IH]; [reflexivity|].
    cbn [flat_map]. rewrite length_app, IH. cbn [routes_for length]. lia.
  - intros ->. reflexivity.
  - intros content -> Hparse. unfold createMockServer, loadData. cbn [file].
    rewrite Hparse. reflexivity.
  - intros content parsed -> Hparse Hkeys.
    unfold createMockServer, loadData, generate_routes. cbn [file].
    rewrite Hparse. cbn [mbind option_bind data]. rewrite Hkeys. reflexivity.
  - intros content parsed keys k -> Hparse Hkeys Hk Hbad.
    unfold createMockServer, loadData, generate_routes. cbn [file].
    rewrite Hparse. cbn [mbind option_bind data]. rewrite Hkeys. cbn [mbind option_bind].
    destruct (forallb _ keys) eqn:Hall; [|reflexivity].
    rewrite forallb_forall in Hall. destruct (andb_prop _ _ (Hall k Hk)) as [H1 H2].
    destruct Hbad as [Hbad|Hbad]; congruence.
  - intros content parsed keys Hfile Hparse Hkeys Hplain. apply Hiff.
    exists content, parsed, keys. split; [exact Hfile|]. split; [exact Hparse|].
    split; [exact Hkeys|]. split; [|split; reflexivity].
    apply Hvalid, patterns_of_plain, Hplain.
Qed.

Lemma server_starts_on_a_readable_file_witness :
  createMockServer (RT := Reference.runtime) (Some (Sample.json Sample.db)) default_options
  = Some ({| data := Sample.db; file := Some (Sample.json Sample.db) |},
          flat_map (routes_for default_options) ["users"])
  /\ createMockServer (RT := Reference.runtime)
       (Some (Sample.json (VObj [("a(b", VArr [])]))) default_options
     = None.
Proof.
  pose proof (server_starts_on_a_readable_file (RT := Reference.runtime)
                (Some (Sample.json Sample.db)) default_options)
    as (_ & _ & _ & _ & _ & _ & Hplain).
  pose proof (server_starts_on_a_readable_file (RT := Reference.runtime)
                (Some (Sample.json (VObj [("a(b", VArr [])]))) default_options)
    as (_ & _ & _ & _ & _ & Hbad & _).
  split.
  - apply (Hplain (Sample.json Sample.db) Sample.db ["users"]); try reflexivity.
    repeat constructor.
  - apply (Hbad (Sample.json (VObj [("a(b", VArr [])])) (VObj [("a(b", VArr [])])
             ["a(b"] "a(b"); try reflexivity.
    + left. reflexivity.
    + left. reflexivity.
Defined.

(** ** Writing and reloading *)

(** X16.  When a request has changed the state, the file holds the text
    of the new store; if that text reads back as the store, a reload
    triggered by the server's own write leaves the state as it is. *)
Theorem reload_after_own_write `{RT : Runtime} (options : MockApiOptions)
    (keys : list string) (req : IncomingMessage) (st st' : State)
    (res : ServerResponse) :
  serve options (flat_map (routes_for options) keys) req st = Some (st', res) ->
  st' <> st ->
  JSON_parse (JSON_stringify 2 (data st')) = Some (data st') ->
  file st' = Some (JSON_stringify 2 (data st'))
  /\ on_file_change st' = (st', "Data reloaded").
Proof.
  intros Hserve Hchanged Hround.
  assert (Hsync : synced st').
  { destruct (serve_cases options _ req st st' res Hserve)
      as [(_ & -> & _)|[(_ & -> & _)|(_ & route & id & payload & Hin & _ & Hrun)]];
      try contradiction.
    destruct (routes_generated options keys route Hin) as (resource & _ & Hroute).
    destruct (handler_effect options resource route req _ id payload st st' res Hroute Hrun)
      as [->|(_ & Hsync & _)]; [contradiction|exact Hsync]. }
  split; [exact Hsync|].
  unfold on_file_change, loadData. rewrite Hsync, Hround.
  destruct st' as [d f]. cbn [data file] in *. unfold synced in Hsync. cbn in Hsync.
  rewrite Hsync. reflexivity.
Qed.

Lemma reload_after_own_write_witness :
  serve default_options (flat_map (routes_for default_options) ["users"])
    (Sample.request "POST" "/users" [] (Sample.json (VObj [("name", VStr "Carol")])))
    (Sample.started Sample.db)
  = Some (Sample.started Sample.db3,
          sendJson (with_cors default_options fresh_response) 201 (VObj Sample.carol))
  /\ Sample.started Sample.db3 <> Sample.started Sample.db
  /\ JSON_parse (JSON_stringify 2 (data (Sample.started Sample.db3)))
     = Some (data (Sample.started Sample.db3))
  /\ on_file_change (Sample.started Sample.db3) = (Sample.started Sample.db3, "Data reloaded").
Proof.
  assert (Hserve :
    serve default_options (flat_map (routes_for default_options) ["users"])
      (Sample.request "POST" "/users" [] (Sample.json (VObj [("name", VStr "Carol")])))
      (Sample.started Sample.db)
    = Some (Sample.started Sample.db3,
            sendJson (with_cors default_options fresh_response) 201 (VObj Sample.carol))).
  { vm_compute. reflexivity. }
  assert (Hne : Sample.started Sample.db3 <> Sample.started Sample.db).
  { intros H. apply (f_equal data) in H. vm_compute in H. discriminate. }
  assert (Hround : JSON_parse (JSON_stringify 2 (data (Sample.started Sample.db3)))
                   = Some (data (Sample.started Sample.db3))).
  { vm_compute. reflexivity. }
  split; [exact Hserve|]. split; [exact Hne|]. split; [exact Hround|].
  exact (proj2 (reload_after_own_write (RT := Reference.runtime) default_options ["users"]
                  _ _ _ _ Hserve Hne Hround)).
Defined.

(** An id that create computed as [NaN] is written to the file as [null]:
    after POST /users on a collection whose only id is the string "abc",
    a reload does not give back the store that was written. *)
Example reload_after_nan_id :
  exists st' res,
    serve default_options (Sample.users default_options)
      (Sample.request "POST" "/users" [] "")
      (Sample.started (VObj [("users", VArr [VObj [("id", VStr "abc")]])]))
    = Some (st', res)
    /\ items_of (data st') "users" = Some [[("id", VStr "abc")]; [("id", VNum NaN)]]
    /\ items_of (data (fst (on_file_change st'))) "users"
       = Some [[("id", VStr "abc")]; [("id", VNull)]].
Proof.
  eexists _, _. split; [vm_compute; reflexivity|].
  split; vm_compute; reflexivity.
Qed.

(** * Properties of the command line *)

Lemma findIndex_None {A : Type} (p : A -> bool) (l : list A) :
  (forall x, In x l -> p x = false) -> findIndex p l = None.
Proof.
  induction l as [|y l IH]; intros Hall; cbn [findIndex]; [reflexivity|].
  rewrite (Hall y (or_introl eq_refl)), IH; [reflexivity|].
  intros x Hx. apply Hall. right. exact Hx.
Qed.

Lemma getArg_Some (args flags : list string) (v : string) :
  Cli.getArg args flags = Some v ->
  v <> ""
  /\ exists flag idx,
       In flag flags /\ args !! idx = Some flag /\ args !! S idx = Some v
       /\ forall j, (j < idx)%nat -> args !! j <> Some flag.
Proof.
  induction flags as [|flag rest IH]; cbn [Cli.getArg]; [discriminate|].
  intros Hget.
  assert (Hrest : Cli.getArg args rest = Some v ->
                  v <> ""
                  /\ exists flag' idx,
                       In flag' (flag :: rest) /\ args !! idx = Some flag'
                       /\ args !! S idx = Some v
                       /\ forall j, (j < idx)%nat -> args !! j <> Some flag').
  { intros H. destruct (IH H) as (Hv & flag' & idx & Hin & H1 & H2 & H3).
    split; [exact Hv|]. exists flag', idx. repeat split; try assumption.
    right. exact Hin. }
  destruct (findIndex (String.eqb flag) args) as [idx|] eqn:Hidx; [|exact (Hrest Hget)].
  destruct (args !! S idx) as [w|] eqn:Hw; [|exact (Hrest Hget)].
  destruct (String.eqb_spec w "") as [->|Hne]; [exact (Hrest Hget)|].
  injection Hget as <-. split; [exact Hne|].
  destruct (findIndex_Some _ _ _ Hidx) as (x & Hx & Heq).
  apply String.eqb_eq in Heq. subst x.
  exists flag, idx. split; [left; reflexivity|]. split; [exact Hx|]. split; [exact Hw|].
  intros j Hj Hlook.
  pose proof (findIndex_first _ _ _ Hidx j flag Hj Hlook) as Hno.
  rewrite String.eqb_refl in Hno. discriminate.
Qed.

Lemma getArg_absent (args flags : list string) :
  (forall flag, In flag flags -> ~ In flag args) -> Cli.getArg args flags = None.
Proof.
  induction flags as [|flag rest IH]; intros Hnone; cbn [Cli.getArg]; [reflexivity|].
  rewrite findIndex_None.
  - apply IH. intros f Hf. apply Hnone. right. exact Hf.
  - intros x Hx. destruct (String.eqb_spec flag x) as [->|]; [|reflexivity].
    exfalso. apply (Hnone x); [left; reflexivity|exact Hx].
Qed.

(** X17.  [getArg] returns a non-empty argument that directly follows the
    first occurrence of one of the flags; it returns nothing when none of
    the flags is among the arguments.  The flags are tried in the order
    given, so the short form wins over the long one; a flag that is not
    among the arguments, or whose first occurrence -- the only one looked
    at -- is the last argument or is followed by an empty one, is passed
    over for the flags after it, and when it is the last flag nothing is
    returned. *)
Theorem getArg_follows_flag (args flags : list string) :
  (forall v, Cli.getArg args flags = Some v ->
             v <> ""
             /\ exists flag idx,
                  In flag flags /\ args !! idx = Some flag /\ args !! S idx = Some v
                  /\ forall j, (j < idx)%nat -> args !! j <> Some flag)
  /\ ((forall flag, In flag flags -> ~ In flag args) -> Cli.getArg args flags = None)
  /\ (forall flag rest idx v,
        flags = flag :: rest ->
        findIndex (String.eqb flag) args = Some idx ->
        args !! S idx = Some v -> v <> "" ->
        Cli.getArg args flags = Some v)
  /\ (forall flag idx,
        flags = [flag] ->
        findIndex (String.eqb flag) args = Some idx ->
        args !! S idx = None \/ args !! S idx = Some "" ->
        Cli.getArg args flags = None)
  /\ (forall flag rest,
        flags = flag :: rest ->
        findIndex (String.eqb flag) args = None
        \/ (exists idx, findIndex (String.eqb flag) args = Some idx
                        /\ (args !! S idx = None \/ args !! S idx = Some "")) ->
        Cli.getArg args flags = Cli.getArg args rest)
  /\ (forall skipped flag rest idx v,
        flags = skipped ++ flag :: rest ->
        Forall (fun f => findIndex (String.eqb f) args = None
                         \/ exists i, findIndex (String.eqb f) args = Some i
                                      /\ (args !! S i = None \/ args !! S i = Some ""))
               skipped ->
        findIndex (String.eqb flag) args = Some idx ->
        args !! S idx = Some v -> v <> "" ->
        Cli.getArg args flags = Some v).
Proof.
  assert (Hhit : forall flag rest idx v,
             findIndex (String.eqb flag) args = Some idx ->
             args !! S idx = Some v -> v <> "" ->
             Cli.getArg args (flag :: rest) = Some v).
  { intros flag rest idx v Hidx Hv Hne. cbn [Cli.getArg]. rewrite Hidx, Hv.
    destruct (String.eqb_spec v ""); [contradiction|reflexivity]. }
  assert (Hskip : forall flag rest,
             findIndex (String.eqb flag) args = None
             \/ (exists idx, findIndex (String.eqb flag) args = Some idx
                             /\ (args !! S idx = None \/ args !! S idx = Some "")) ->
             Cli.getArg args (flag :: rest) = Cli.getArg args rest).
  { intros flag rest [Hnone|(idx & Hidx & Hv)]; cbn [Cli.getArg].
    - rewrite Hnone. reflexivity.
    - rewrite Hidx. destruct Hv as [->| ->]; reflexivity. }
  split; [intros v; apply getArg_Some|]. split; [apply getArg_absent|].
  split; [|split; [|split]].
  - intros flag rest idx v ->. apply Hhit.
  - intros flag idx -> Hidx Hv. rewrite Hskip; [reflexivity|].
    right. exists idx. split; assumption.
  - intros flag rest ->. apply Hskip.
  - intros skipped flag rest idx v -> Hskipped Hidx Hv Hne.
    induction Hskipped as [|f skipped Hf _ IH]; cbn [app].
    + apply (Hhit flag rest idx v Hidx Hv Hne).
    + rewrite (Hskip f _ Hf). exact IH.
Qed.

Lemma getArg_follows_flag_witness :
  Cli.getArg ["db.json"; "--port"; "8080"; "-p"; "9000"] ["-p"; "--port"] = Some "9000"
  /\ Cli.getArg ["db.json"; "-w"] ["-p"; "--port"] = None
  /\ Cli.getArg ["db.json"; "-p"] ["-p"] = None
  /\ Cli.getArg ["db.json"; "--port"; "8080"] ["-p"; "--port"] = Some "8080"
  /\ Cli.getArg ["--port"; "8080"; "-p"] ["-p"; "--port"] = Some "8080"
  /\ Cli.getArg ["-p"; "--port"; "8080"] ["-p"; "--port"] = Some "--port".
Proof.
  destruct (getArg_follows_flag ["db.json"; "--port"; "8080"; "-p"; "9000"] ["-p"; "--port"])
    as (_ & _ & Hfirst & _).
  destruct (getArg_follows_flag ["db.json"; "-w"] ["-p"; "--port"]) as (_ & Habsent & _).
  destruct (getArg_follows_flag ["db.json"; "-p"] ["-p"]) as (_ & _ & _ & Hlast & _).
  destruct (getArg_follows_flag ["db.json"; "--port"; "8080"] ["-p"; "--port"])
    as (_ & _ & _ & _ & _ & Hlater).
  destruct (getArg_follows_flag ["--port"; "8080"; "-p"] ["-p"; "--port"])
    as (_ & _ & _ & _ & _ & Hlater').
  destruct (getArg_follows_flag ["-p"; "--port"; "8080"] ["-p"; "--port"])
    as (_ & _ & Hshort & _).
  split; [|split; [|split; [|split; [|split]]]].
  - apply (Hfirst "-p" ["--port"] 3%nat "9000"); try reflexivity. discriminate.
  - apply Habsent. intros flag [<-|[<-|[]]] [H|[H|[]]]; discriminate.
  - apply (Hlast "-p" 1%nat); try reflexivity. left. reflexivity.
  - apply (Hlater ["-p"] "--port" [] 1%nat "8080"); try reflexivity; [|discriminate].
    constructor; [|constructor]. left. reflexivity.
  - apply (Hlater' ["-p"] "--port" [] 0%nat "8080"); try reflexivity; [|discriminate].
    constructor; [|constructor]. right. exists 2%nat. split; [reflexivity|].
    left. reflexivity.
  - apply (Hshort "-p" ["--port"] 0%nat "--port"); try reflexivity. discriminate.
Defined.

Lemma find_first_such {A : Type} (p : A -> bool) (l : list A) (x : A) :
  first_such p l x -> find p l = Some x.
Proof.
  intros (pre & post & -> & Hx & Hpre).
  induction pre as [|y pre IH]; cbn [app find].
  - rewrite Hx. reflexivity.
  - rewrite (Hpre y (or_introl eq_refl)). apply IH.
    intros z Hz. apply Hpre. right. exact Hz.
Qed.

Lemma find_Some_first {A : Type} (p : A -> bool) (l : list A) (x : A) :
  find p l = Some x -> first_such p l x.
Proof.
  induction l as [|y l IH]; cbn [find]; [discriminate|].
  destruct (p y) eqn:Hy.
  - intros [= <-]. exists [], l. repeat split; [exact Hy|intros z []].
  - intros Hfind. destruct (IH Hfind) as (pre & post & -> & Hx & Hpre).
    exists (y :: pre), post. repeat split; [exact Hx|].
    intros z [<-|Hz]; [exact Hy|apply Hpre; exact Hz].
Qed.

Lemma find_all_false {A : Type} (p : A -> bool) (l : list A) :
  (forall x, In x l -> p x = false) -> find p l = None.
Proof.
  induction l as [|y l IH]; intros Hall; cbn [find]; [reflexivity|].
  rewrite (Hall y (or_introl eq_refl)). apply IH.
  intros x Hx. apply Hall. right. exact Hx.
Qed.

Section CliProperties.
Context `{RT : Runtime}.
Variable resolve : string -> string.
Variable HELP : string.

(** X18.  The data file [main] serves is the first argument that does not
    start with a dash and ends in [.json]; without one, the first argument
    that does not start with a dash, whatever it is -- also the value of an
    option -- unless it is empty; and [db.json], if that file exists, when
    there is no such argument either or the first one is empty. *)
Theorem data_file_choice (args : list string) (fs : gmap string string) :
  (forall f, first_such json_positional args f ->
             Cli.choose_data_file resolve args fs = Some f)
  /\ ((forall a, In a args -> json_positional a = false) ->
      (forall f, first_such positional args f -> f <> "" ->
                 Cli.choose_data_file resolve args fs = Some f)
      /\ (first_such positional args "" \/ (forall a, In a args -> positional a = false) ->
          Cli.choose_data_file resolve args fs =
          if bool_decide (is_Some (fs !! resolve "db.json")) then Some "db.json" else None)).
Proof.
  unfold Cli.choose_data_file. split.
  - intros f Hf. apply find_first_such in Hf. unfold json_positional in Hf.
    rewrite Hf. reflexivity.
  - intros Hnone. apply find_all_false in Hnone. unfold json_positional in Hnone.
    rewrite Hnone. split.
    + intros f Hf Hne. apply find_first_such in Hf. unfold positional in Hf. rewrite Hf.
      destruct f; [contradiction|reflexivity].
    + intros [Hf|Hall].
      * apply find_first_such in Hf. unfold positional in Hf. rewrite Hf. reflexivity.
      * apply find_all_false in Hall. unfold positional in Hall. rewrite Hall. reflexivity.
Qed.

Lemma banner_logs (ro : bool) (d : number) (w : bool) :
  forallb (fun o => negb (is_error o)) (Cli.banner ro d w) = true.
Proof.
  unfold Cli.banner. destruct ro, (num_lt (Int 0) d), w; reflexivity.
Qed.

Lemma main_init (args : list string) (fs : gmap string string) :
  Cli.hasFlag args ["-h"; "--help"] = false ->
  Cli.hasFlag args ["-v"; "--version"] = false ->
  Cli.hasFlag args ["--init"] = true ->
  fs !! resolve "db.json" = None ->
  Cli.main resolve HELP args fs
  = ([Cli.printSuccess "Created db.json with example data";
      Cli.printInfo "Run: npx @lxgicstudios/mockapi db.json"],
     <[resolve "db.json" := JSON_stringify 2 Cli.EXAMPLE_DATA]> fs, Cli.Exit 0).
Proof.
  intros Hhelp Hversion Hinit Hdb. unfold Cli.main. rewrite Hhelp, Hversion, Hinit.
  cbv zeta. rewrite Hdb.
  rewrite bool_decide_eq_false_2 by (intros [x Hx]; discriminate). reflexivity.
Qed.

(** X19.  [main] changes the file system in one case only: [--init]
    without a help or version flag, when [db.json] does not exist; it then
    writes the example data there, indented by two, and exits with 0.  An
    existing [db.json] is not overwritten: [--init] then exits with 1.
    With a help or a version flag nothing is written, whatever else is
    given. *)
Theorem main_writes_only_on_init (args : list string) (fs fs' : gmap string string)
    (out : list Cli.output) (r : Cli.result) :
  Cli.main resolve HELP args fs = (out, fs', r) ->
  (fs' = fs
   \/ (fs' = <[resolve "db.json" := JSON_stringify 2 Cli.EXAMPLE_DATA]> fs
       /\ fs !! resolve "db.json" = None
       /\ Cli.hasFlag args ["-h"; "--help"] = false
       /\ Cli.hasFlag args ["-v"; "--version"] = false
       /\ Cli.hasFlag args ["--init"] = true
       /\ r = Cli.Exit 0))
  /\ (Cli.hasFlag args ["-h"; "--help"] = true
      \/ Cli.hasFlag args ["-v"; "--version"] = true
      \/ Cli.hasFlag args ["--init"] = false ->
      fs' = fs)
  /\ (Cli.hasFlag args ["-h"; "--help"] = false ->
      Cli.hasFlag args ["-v"; "--version"] = false ->
      Cli.hasFlag args ["--init"] = true ->
      match fs !! resolve "db.json" with
      | Some _ => fs' = fs /\ r = Cli.Exit 1
      | None => fs' = <[resolve "db.json" := JSON_stringify 2 Cli.EXAMPLE_DATA]> fs
                /\ r = Cli.Exit 0
      end).
Proof.
  unfold Cli.main. intros Hmain.
  destruct (Cli.hasFlag args ["-h"; "--help"]).
  { injection Hmain as <- <- <-.
    split; [left; reflexivity|]. split; [reflexivity|discriminate]. }
  destruct (Cli.hasFlag args ["-v"; "--version"]).
  { injection Hmain as <- <- <-.
    split; [left; reflexivity|]. split; [reflexivity|discriminate]. }
  destruct (Cli.hasFlag args ["--init"]).
  - cbv zeta in Hmain. destruct (fs !! resolve "db.json") as [old|] eqn:Hdb.
    + rewrite bool_decide_eq_true_2 in Hmain by (eexists; reflexivity).
      injection Hmain as <- <- <-. split; [left; reflexivity|].
      split; [reflexivity|]. intros _ _ _. split; reflexivity.
    + rewrite bool_decide_eq_false_2 in Hmain by (intros [x Hx]; discriminate).
      injection Hmain as <- <- <-. split; [|split].
      * right. repeat split; reflexivity.
      * intros [H|[H|H]]; discriminate.
      * intros _ _ _. split; reflexivity.
  - destruct (Cli.choose_data_file resolve args fs) as [f|].
    + cbv zeta in Hmain.
      destruct (negb (bool_decide (is_Some (fs !! resolve f))));
        injection Hmain as <- <- <-;
        (split; [left; reflexivity|]; split; [reflexivity|discriminate]).
    + injection Hmain as <- <- <-.
      split; [left; reflexivity|]. split; [reflexivity|discriminate].
Qed.

(** X20.  [main] goes on to create the server exactly when there is no
    help, version or init flag and the chosen data file exists; the file
    system is then as it was, and nothing is written to the error stream. *)
Theorem main_launches (args : list string) (fs : gmap string string) :
  (exists out fs' l, Cli.main resolve HELP args fs = (out, fs', Cli.Launch l))
  <-> (Cli.hasFlag args ["-h"; "--help"] = false
       /\ Cli.hasFlag args ["-v"; "--version"] = false
       /\ Cli.hasFlag args ["--init"] = false
       /\ exists f, Cli.choose_data_file resolve args fs = Some f
                    /\ is_Some (fs !! resolve f)).
Proof.
  unfold Cli.main. split.
  - intros (out & fs' & l & Hmain).
    destruct (Cli.hasFlag args ["-h"; "--help"]); [discriminate|].
    destruct (Cli.hasFlag args ["-v"; "--version"]); [discriminate|].
    destruct (Cli.hasFlag args ["--init"]).
    { cbv zeta in Hmain. destruct (bool_decide _); discriminate. }
    destruct (Cli.choose_data_file resolve args fs) as [f|]; [|discriminate].
    cbv zeta in Hmain. repeat split. exists f. split; [reflexivity|].
    destruct (bool_decide (is_Some (fs !! resolve f))) eqn:Hex; [|discriminate].
    apply bool_decide_eq_true in Hex. exact Hex.
  - intros (-> & -> & -> & f & -> & Hex). cbv zeta.
    rewrite (bool_decide_eq_true_2 _ Hex). cbn [negb]. eauto.
Qed.

(** X21.  The options [main] hands to [createMockServer]: the path is the
    resolved data file, which exists; CORS is on unless [--no-cors] is
    given, watching and read-only mode are on when their flag is given, in
    either form; the port and the delay are [parseInt] of the value of
    their flag.  Without the flags the options are the defaults of
    [createMockServer]. *)
Theorem launch_options (args : list string) (fs fs' : gmap string string)
    (out : list Cli.output) (l : Cli.launch) :
  Cli.main resolve HELP args fs = (out, fs', Cli.Launch l) ->
  fs' = fs
  /\ forallb (fun o => negb (is_error o)) out = true
  /\ (exists f, Cli.choose_data_file resolve args fs = Some f
                /\ Cli.dataPath l = resolve f
                /\ is_Some (fs !! Cli.dataPath l))
  /\ Cli.l_cors l = negb (Cli.hasFlag args ["--no-cors"])
  /\ Cli.l_watch l = Cli.hasFlag args ["-w"; "--watch"]
  /\ Cli.l_readonly l = Cli.hasFlag args ["-r"; "--readonly"]
  /\ (forall v, Cli.getArg args ["-p"; "--port"] = Some v -> Cli.l_port l = parseInt v)
  /\ (forall v, Cli.getArg args ["-d"; "--delay"] = Some v -> Cli.l_delay l = parseInt v)
  /\ ((forall flag, In flag ["-p"; "--port"] -> ~ In flag args) ->
      Cli.l_port l = Int (port default_options))
  /\ ((forall flag, In flag ["-d"; "--delay"] -> ~ In flag args) ->
      Cli.l_delay l = Int (delay default_options))
  /\ ((forall flag, In flag ["--no-cors"; "-w"; "--watch"; "-r"; "--readonly"] ->
                    ~ In flag args) ->
      Cli.l_cors l = cors default_options
      /\ Cli.l_watch l = watch default_options
      /\ Cli.l_readonly l = readonly default_options).
Proof.
  unfold Cli.main. intros Hmain.
  destruct (Cli.hasFlag args ["-h"; "--help"]); [discriminate|].
  destruct (Cli.hasFlag args ["-v"; "--version"]); [discriminate|].
  destruct (Cli.hasFlag args ["--init"]).
  { cbv zeta in Hmain. destruct (bool_decide _); discriminate. }
  destruct (Cli.choose_data_file resolve args fs) as [f|]; [|discriminate].
  cbv zeta in Hmain.
  destruct (bool_decide (is_Some (fs !! resolve f))) eqn:Hex; [|discriminate].
  apply bool_decide_eq_true in Hex. cbn [negb] in Hmain.
  assert (Hout : out = Cli.banner (Cli.hasFlag args ["-r"; "--readonly"])
                         (parseInt (default "0" (Cli.getArg args ["-d"; "--delay"])))
                         (Cli.hasFlag args ["-w"; "--watch"])) by congruence.
  assert (Hfs : fs' = fs) by congruence.
  assert (Hl : l = {| Cli.dataPath := resolve f;
                      Cli.l_port := parseInt (default "3001" (Cli.getArg args ["-p"; "--port"]));
                      Cli.l_delay := parseInt (default "0" (Cli.getArg args ["-d"; "--delay"]));
                      Cli.l_cors := negb (Cli.hasFlag args ["--no-cors"]);
                      Cli.l_watch := Cli.hasFlag args ["-w"; "--watch"];
                      Cli.l_readonly := Cli.hasFlag args ["-r"; "--readonly"] |})
    by congruence.
  clear Hmain. subst out fs' l.
  cbn [Cli.dataPath Cli.l_port Cli.l_delay Cli.l_cors Cli.l_watch Cli.l_readonly].
  split; [reflexivity|]. split; [apply banner_logs|].
  split; [exists f; repeat split; exact Hex|].
  do 3 (split; [reflexivity|]).
  split; [intros v ->; reflexivity|]. split; [intros v ->; reflexivity|].
  split; [intros Hno; rewrite (getArg_absent _ _ Hno); reflexivity|].
  split; [intros Hno; rewrite (getArg_absent _ _ Hno); reflexivity|].
  intros Hno.
  assert (Hflag : forall flags, (forall flag, In flag flags -> ~ In flag args) ->
                                Cli.hasFlag args flags = false).
  { intros flags Hfl. unfold Cli.hasFlag. apply not_true_is_false. intros Hex'.
    apply existsb_exists in Hex' as (flag & Hin & Hargs).
    apply existsb_exists in Hargs as (a & Ha & Heq).
    apply String.eqb_eq in Heq. subst a. exact (Hfl flag Hin Ha). }
  rewrite !Hflag; [repeat split| | |]; intros flag Hin; apply Hno; cbn in Hin |- *; tauto.
Qed.

(** X22.  [main] exits with 0 or with 1 only; it exits with 1 exactly when
    it has written a line to the error stream, and that line is then the
    first one it prints.  A help flag wins over every other argument and a
    version flag over all but help: both exit with 0 and print one line. *)
Theorem exit_code_and_error_stream (args : list string) (fs fs' : gmap string string)
    (out : list Cli.output) (code : Z) :
  Cli.main resolve HELP args fs = (out, fs', Cli.Exit code) ->
  (code = 0 \/ code = 1)
  /\ (code = 1 <-> existsb is_error out = true)
  /\ (code = 1 -> exists msg rest, out = Cli.printError msg :: rest)
  /\ (Cli.hasFlag args ["-h"; "--help"] = true -> out = [Cli.Log HELP] /\ code = 0)
  /\ (Cli.hasFlag args ["-h"; "--help"] = false ->
      Cli.hasFlag args ["-v"; "--version"] = true -> out = [Cli.Log "1.0.0"] /\ code = 0).
Proof.
  unfold Cli.main. intros Hmain.
  destruct (Cli.hasFlag args ["-h"; "--help"]).
  { injection Hmain as <- <- <-. cbn. repeat split; try discriminate; auto. }
  destruct (Cli.hasFlag args ["-v"; "--version"]).
  { injection Hmain as <- <- <-. cbn. repeat split; try discriminate; auto. }
  destruct (Cli.hasFlag args ["--init"]).
  { cbv zeta in Hmain. destruct (bool_decide _); injection Hmain as <- <- <-; cbn.
    - repeat split; try discriminate; eauto.
    - repeat split; try discriminate; auto. }
  destruct (Cli.choose_data_file resolve args fs) as [f|].
  - cbv zeta in Hmain. destruct (negb _); [|discriminate].
    injection Hmain as <- <- <-. cbn. repeat split; try discriminate; eauto.
  - injection Hmain as <- <- <-. cbn. repeat split; try discriminate; eauto.
Qed.

(** X23.  The file [--init] writes is one the server starts on: on a
    runtime that reads the example data back from its own text,
    [createMockServer] on the new [db.json] loads the example data and
    serves the six routes of [users], [posts] and [comments], in this
    order. *)
Theorem init_then_serve (args : list string) (fs fs' : gmap string string)
    (out : list Cli.output) (r : Cli.result) (options : MockApiOptions) :
  JSON_parse (JSON_stringify 2 Cli.EXAMPLE_DATA) = Some Cli.EXAMPLE_DATA ->
  Cli.hasFlag args ["-h"; "--help"] = false ->
  Cli.hasFlag args ["-v"; "--version"] = false ->
  Cli.hasFlag args ["--init"] = true ->
  fs !! resolve "db.json" = None ->
  Cli.main resolve HELP args fs = (out, fs', r) ->
  r = Cli.Exit 0
  /\ createMockServer (fs' !! resolve "db.json") options
     = Some ({| data := Cli.EXAMPLE_DATA;
                file := Some (JSON_stringify 2 Cli.EXAMPLE_DATA) |},
             routes_for options "users" ++ routes_for options "posts"
             ++ routes_for options "comments")
  /\ (exists out' l,
        Cli.main resolve HELP ["db.json"] fs' = (out', fs', Cli.Launch l)
        /\ Cli.dataPath l = resolve "db.json").
Proof.
  intros Hround Hhelp Hversion Hinit Hdb Hmain.
  rewrite (main_init args fs Hhelp Hversion Hinit Hdb) in Hmain.
  assert (Hfs : fs' = <[resolve "db.json" := JSON_stringify 2 Cli.EXAMPLE_DATA]> fs)
    by congruence.
  assert (Hr : r = Cli.Exit 0) by congruence.
  clear Hmain. subst fs' r.
  split; [reflexivity|]. rewrite lookup_insert_eq. split.
  - unfold createMockServer, loadData. cbn [file]. rewrite Hround.
    cbn [mbind option_bind data]. unfold generate_routes.
    change (Object_keys Cli.EXAMPLE_DATA) with (Some ["users"; "posts"; "comments"]).
    cbn [mbind option_bind].
    rewrite (patterns_of_plain ["users"; "posts"; "comments"]) by repeat constructor.
    cbn [fmap option_fmap option_map mbind option_bind flat_map].
    rewrite app_nil_r. reflexivity.
  - unfold Cli.main. cbn [Cli.hasFlag existsb String.eqb Ascii.eqb Bool.eqb orb].
    assert (Hchoose : Cli.choose_data_file resolve ["db.json"]
                        (<[resolve "db.json" := JSON_stringify 2 Cli.EXAMPLE_DATA]> fs)
                      = Some "db.json") by reflexivity.
    rewrite Hchoose. cbv zeta. rewrite lookup_insert_eq.
    rewrite bool_decide_eq_true_2 by (eexists; reflexivity). cbn [negb].
    eexists _, _. split; reflexivity.
Qed.

End CliProperties.

Lemma data_file_choice_witness :
  Cli.choose_data_file id ["notes"; "-p"; "8080"; "db.json"] ∅ = Some "db.json"
  /\ Cli.choose_data_file id ["-p"; "8080"] ∅ = Some "8080"
  /\ Cli.choose_data_file id ["-w"] {[ "db.json" := "{}" ]} = Some "db.json".
Proof.
  split; [|split].
  - apply (proj1 (data_file_choice id ["notes"; "-p"; "8080"; "db.json"] ∅)).
    exists ["notes"; "-p"; "8080"], []. split; [reflexivity|]. split; [reflexivity|].
    intros y [<-|[<-|[<-|[]]]]; reflexivity.
  - apply (proj2 (data_file_choice id ["-p"; "8080"] ∅)).
    + intros a [<-|[<-|[]]]; reflexivity.
    + exists ["-p"], []. split; [reflexivity|]. split; [reflexivity|].
      intros y [<-|[]]; reflexivity.
    + discriminate.
  - assert (Hnone : forall a, In a ["-w"] -> json_positional a = false)
      by (intros a [<-|[]]; reflexivity).
    assert (Hdash : forall a, In a ["-w"] -> positional a = false)
      by (intros a [<-|[]]; reflexivity).
    exact (proj2 (proj2 (data_file_choice id ["-w"] {[ "db.json" := "{}" ]}) Hnone)
             (or_intror Hdash)).
Defined.

Lemma main_writes_only_on_init_witness :
  let fs : gmap string string := {[ "notes.txt" := "x" ]} in
  let fs' := <[ "db.json" := JSON_stringify 2 Cli.EXAMPLE_DATA ]> fs in
  Cli.main id "usage" ["--init"] fs
  = ([Cli.printSuccess "Created db.json with example data";
      Cli.printInfo "Run: npx @lxgicstudios/mockapi db.json"], fs', Cli.Exit 0)
  /\ (fs' = fs
      \/ (fs' = <[id "db.json" := JSON_stringify 2 Cli.EXAMPLE_DATA]> fs
          /\ fs !! id "db.json" = None
          /\ Cli.hasFlag ["--init"] ["-h"; "--help"] = false
          /\ Cli.hasFlag ["--init"] ["-v"; "--version"] = false
          /\ Cli.hasFlag ["--init"] ["--init"] = true
          /\ Cli.Exit 0 = Cli.Exit 0))
  /\ (forall out after r,
        Cli.main id "usage" ["-h"; "--init"] fs = (out, after, r) -> after = fs)
  /\ (forall out after r,
        Cli.main id "usage" ["--init"; "--version"] fs = (out, after, r) -> after = fs).
Proof.
  intros fs fs'.
  assert (Hrun : Cli.main id "usage" ["--init"] fs
                 = ([Cli.printSuccess "Created db.json with example data";
                     Cli.printInfo "Run: npx @lxgicstudios/mockapi db.json"],
                    fs', Cli.Exit 0)) by reflexivity.
  split; [exact Hrun|]. split; [|split].
  - exact (proj1 (main_writes_only_on_init id "usage" ["--init"] fs fs' _ (Cli.Exit 0) Hrun)).
  - intros out after r Hhelp.
    apply (proj1 (proj2 (main_writes_only_on_init id "usage" ["-h"; "--init"] fs after
                           out r Hhelp))).
    left. reflexivity.
  - intros out after r Hversion.
    apply (proj1 (proj2 (main_writes_only_on_init id "usage" ["--init"; "--version"] fs after
                           out r Hversion))).
    right. left. reflexivity.
Defined.

Lemma main_launches_witness :
  exists out fs' l,
    Cli.main id "usage" ["-w"; "db.json"] {[ "db.json" := "{}" ]} = (out, fs', Cli.Launch l).
Proof.
  apply (proj2 (main_launches id "usage" ["-w"; "db.json"] {[ "db.json" := "{}" ]})).
  repeat split. exists "db.json". split; [reflexivity|]. eexists. reflexivity.
Defined.

Lemma launch_options_witness :
  let fs : gmap string string := {[ "db.json" := "{}" ]} in
  let l := {| Cli.dataPath := "db.json"; Cli.l_port := Int 8080; Cli.l_delay := Int 0;
              Cli.l_cors := true; Cli.l_watch := false; Cli.l_readonly := true |} in
  Cli.main id "usage" ["db.json"; "--port"; "8080"; "-r"] fs
  = (Cli.banner true (Int 0) false, fs, Cli.Launch l)
  /\ Cli.l_delay l = Int (delay default_options).
Proof.
  intros fs l.
  assert (Hrun : Cli.main id "usage" ["db.json"; "--port"; "8080"; "-r"] fs
                 = (Cli.banner true (Int 0) false, fs, Cli.Launch l)) by reflexivity.
  split; [exact Hrun|].
  destruct (launch_options id "usage" ["db.json"; "--port"; "8080"; "-r"] fs fs
              (Cli.banner true (Int 0) false) l Hrun)
    as (_ & _ & _ & _ & _ & _ & _ & _ & _ & Hdelay & _).
  apply Hdelay. intros flag [<-|[<-|[]]] [H|[H|[H|[H|[]]]]]; discriminate.
Defined.

Lemma exit_code_and_error_stream_witness :
  Cli.main id "usage" ["missing.json"] ∅
  = ([Cli.printError "File not found: missing.json"], ∅, Cli.Exit 1)
  /\ (1 = 1 <-> existsb is_error [Cli.printError "File not found: missing.json"] = true).
Proof.
  assert (Hrun : Cli.main id "usage" ["missing.json"] ∅
                 = ([Cli.printError "File not found: missing.json"], ∅, Cli.Exit 1))
    by reflexivity.
  split; [exact Hrun|].
  exact (proj1 (proj2 (exit_code_and_error_stream id "usage" ["missing.json"] ∅ ∅ _ 1 Hrun))).
Defined.

Lemma init_then_serve_witness :
  let fs' : gmap string string :=
    <[ "db.json" := Reference.stringify 2 Cli.EXAMPLE_DATA ]> ∅ in
  createMockServer (fs' !! "db.json") default_options
  = Some ({| data := Cli.EXAMPLE_DATA;
             file := Some (Reference.stringify 2 Cli.EXAMPLE_DATA) |},
          routes_for default_options "users" ++ routes_for default_options "posts"
          ++ routes_for default_options "comments").
Proof.
  intros fs'.
  refine (proj1 (proj2 (init_then_serve (RT := Reference.runtime) id "usage" ["--init"] ∅ fs'
                          _ (Cli.Exit 0) default_options _ _ _ _ _ _))).
  - vm_compute. reflexivity.
  - reflexivity.
  - reflexivity.
  - reflexivity.
  - reflexivity.
  - reflexivity.
Defined.
